(** * FitViewer: the PDB record-correction engine (core/pdbCorrection.py)
    and the strand split of the fit (core/fit.py)

    A shallow embedding of [number_to_hybrid36_number], the [Logic] policy
    record and the [PDB_Corr] corrector with its reorderer, and of
    [_split_strands], followed by the properties of the specification that
    were checked against it and by further properties of the code.

    Conventions of the embedding.
    - A Python [str] is a [list ascii]; records are ASCII text (PDB files).
    - A Python [int] is a [Z].
    - A raised exception is the [Err] branch of [outcome]; the loops and the
      per-record methods are written in the error monad.
    - [self.current] is a dictionary with a fixed key set, so it is a record
      ([Current.t]) that every method receives and returns.
    - [list.sort(key=...)] is a stable sort; it is an insertion sort on the
      decorated list, which computes the same list. *)

From Stdlib Require Import ZArith Ascii String Bool Lia.
From Stdlib Require Import List Sorted Permutation.
Import ListNotations.
Local Open Scope Z_scope.

(** ** Python strings *)

Definition str := list ascii.

Definition lit (s : string) : str := list_ascii_of_string s.

(** [s[a:b]], [s[a:]] and [s[:b]] for non-negative constant bounds: Python
    clamps the bounds to the length of [s]. *)
Definition slice (a b : nat) (s : str) : str := firstn (b - a) (skipn a s).
Definition slice_from (a : nat) (s : str) : str := skipn a s.
Definition slice_to (b : nat) (s : str) : str := firstn b s.

Definition str_eqb (a b : str) : bool :=
  if list_eq_dec ascii_dec a b then true else false.

(** [x in [a; b; ...]] for a list of strings. *)
Definition str_in_list (x : str) (l : list str) : bool := existsb (str_eqb x) l.

(** [c in s] for a one-character [c]. *)
Definition char_in (c : ascii) (s : str) : bool := existsb (Ascii.eqb c) s.

(** ["".join(parts)]. *)
Definition join (parts : list str) : str := concat parts.

(** [s.rjust(w, c)]. *)
Definition rjust (w : nat) (c : ascii) (s : str) : str :=
  repeat c (w - length s) ++ s.

(** [s.replace(" ", "")]. *)
Definition remove_spaces (s : str) : str :=
  filter (fun c => negb (Ascii.eqb c " ")) s.

(** [s.lower()] on ASCII text. *)
Definition lower_char (c : ascii) : ascii :=
  let n := nat_of_ascii c in
  if (Nat.leb 65 n && Nat.leb n 90)%bool then ascii_of_nat (n + 32) else c.
Definition lower (s : str) : str := map lower_char s.

(** Whitespace of [str.strip()]. *)
Definition is_space (c : ascii) : bool :=
  let n := nat_of_ascii c in
  ((Nat.leb 9 n && Nat.leb n 13) || (Nat.leb 28 n && Nat.leb n 32)
   || Nat.eqb n 133 || Nat.eqb n 160)%bool.

Fixpoint lstrip (s : str) : str :=
  match s with
  | c :: s' => if is_space c then lstrip s' else s
  | [] => []
  end.
Definition strip (s : str) : str := rev (lstrip (rev (lstrip s))).

(** Python's lexicographic [<] on strings (by code point). *)
Fixpoint str_lt (a b : str) : Prop :=
  match a, b with
  | [], [] => False
  | [], _ :: _ => True
  | _ :: _, [] => False
  | x :: a', y :: b' =>
      (nat_of_ascii x < nat_of_ascii y)%nat \/ (x = y /\ str_lt a' b')
  end.

(** ** Exceptions *)

Inductive exn : Type :=
| ValueError          (* "value out of range.", or int() on a non-number *)
| AssertionError
| IndexError
| UnboundLocalError
| LoopFuel.           (* not a Python exception: the fuel of a loop ran out *)

Inductive outcome (A : Type) : Type :=
| Ok (a : A)
| Err (e : exn).
Arguments Ok {A} a.
Arguments Err {A} e.

Definition bind {A B} (m : outcome A) (k : A -> outcome B) : outcome B :=
  match m with
  | Ok a => k a
  | Err e => Err e
  end.

Notation "x <- m ;; k" := (bind m (fun x => k))
  (at level 61, m at next level, right associativity).
Notation "' p <- m ;; k" := (bind m (fun x => match x with p => k end))
  (at level 61, p pattern, m at next level, right associativity).

(** [s[i]] with Python's indexing: a negative index counts from the end, an
    index out of range raises. *)
Definition getitem (s : str) (i : Z) : outcome ascii :=
  let n := Z.of_nat (length s) in
  let j := if i <? 0 then i + n else i in
  if (0 <=? j) && (j <? n)
  then match nth_error s (Z.to_nat j) with
       | Some c => Ok c
       | None => Err IndexError
       end
  else Err IndexError.

(** ** The Numeric Codec *)

Definition digits_upper : str := lit "0123456789ABCDEFGHIJKLMNOPQRSTUVWXYZ".
Definition digits_lower : str := lower digits_upper.

(** The [while (value != 0)] loop of [encode_pure]; [result] is the Python
    list of one-character strings being appended to, so that reversing and
    joining it is [rev].  [digits] is never empty ([n] is 36, or 10 for the
    decimal rendering below), so [//] is [Z.div]. *)
Fixpoint encode_pure_loop (fuel : nat) (digits : str) (value : Z)
    (result : str) : outcome str :=
  match fuel with
  | O => Err LoopFuel
  | S fuel' =>
      if negb (value =? 0) then
        let n := Z.of_nat (length digits) in
        let rest := value / n in
        c <- getitem digits (value - rest * n) ;;
        encode_pure_loop fuel' digits rest (result ++ [c])
      else Ok result
  end.

(** Every pass of the loop replaces [value] by [value // n]; with [n >= 2] a
    positive value is 0 after at most [log2 value + 1] passes, one more test
    leaves the loop. *)
Definition loop_fuel (value : Z) : nat := S (S (Z.to_nat (Z.log2 value))).

Definition encode_pure (digits : str) (value : Z) : outcome str :=
  if negb (value >=? 0) then Err AssertionError
  else if value =? 0 then c <- getitem digits 0 ;; Ok [c]
  else
    result <- encode_pure_loop (loop_fuel value) digits value [] ;;
    Ok (rev result).

(** Python's decimal rendering of an [int] ([str(v)], and the digits of the
    [d] format): the base-10 numeral, most significant digit first, with a
    leading minus sign for a negative number.  The digits are produced by the
    digit loop above in base 10. *)
Definition digits_decimal : str := lit "0123456789".

Definition str_of_nonneg (v : Z) : str :=
  match encode_pure digits_decimal v with
  | Ok s => s
  | Err _ => []
  end.

Definition str_of_int (v : Z) : str :=
  if v <? 0 then "-"%char :: str_of_nonneg (- v) else str_of_nonneg v.

(** ["{:{width}d}".format(number, width=width)]: numbers are right-aligned
    and padded with spaces. *)
Definition format_d (number : Z) (width : Z) : str :=
  rjust (Z.to_nat width) " "%char (str_of_int number).

(** [int(s)] on a string: surrounding whitespace is ignored, then an
    optional sign and decimal digits, where single underscores may separate
    digits.  Anything else raises [ValueError]. *)
Definition is_int_space (c : ascii) : bool :=
  let n := nat_of_ascii c in
  ((Nat.leb 9 n && Nat.leb n 13) || Nat.eqb n 32
   || Nat.eqb n 133 || Nat.eqb n 160)%bool.

Fixpoint int_lstrip (s : str) : str :=
  match s with
  | c :: s' => if is_int_space c then int_lstrip s' else s
  | [] => []
  end.
Definition int_strip (s : str) : str := rev (int_lstrip (rev (int_lstrip s))).

Definition digit_value (c : ascii) : option Z :=
  let n := nat_of_ascii c in
  if (Nat.leb 48 n && Nat.leb n 57)%bool then Some (Z.of_nat n - 48) else None.

(** [after_digit] tells whether the previous character was a digit: an
    underscore is accepted only between two digits. *)
Fixpoint parse_digits (acc : Z) (after_digit : bool) (s : str) : option Z :=
  match s with
  | [] => if after_digit then Some acc else None
  | c :: s' =>
      if Ascii.eqb c "_" then
        if after_digit then parse_digits acc false s' else None
      else
        match digit_value c with
        | Some d => parse_digits (acc * 10 + d) true s'
        | None => None
        end
  end.

Definition parse_signed (s : str) : option Z :=
  match s with
  | c :: s' =>
      if Ascii.eqb c "-" then option_map Z.opp (parse_digits 0 false s')
      else if Ascii.eqb c "+" then parse_digits 0 false s'
      else parse_digits 0 false s
  | [] => None
  end.

Definition py_int (s : str) : outcome Z :=
  match parse_signed (int_strip s) with
  | Some v => Ok v
  | None => Err ValueError
  end.

(** [number_to_hybrid36_number(number, width)].  The embedding is for
    [width >= 1] (the corrector passes 4 and 5), where every power is an
    integer; Python computes [10**(width - 1)] in floating point below that. *)
Definition number_to_hybrid36_number (number width : Z) : outcome str :=
  if number >=? 1 - 10 ^ (width - 1) then
    if number <? 10 ^ width then Ok (format_d number width)
    else
      let number := number - 10 ^ width in
      if number <? 26 * 36 ^ (width - 1) then
        let number := number + 10 * 36 ^ (width - 1) in
        encode_pure digits_upper number
      else
        let number := number - 26 * 36 ^ (width - 1) in
        if number <? 26 * 36 ^ (width - 1) then
          let number := number + 10 * 36 ^ (width - 1) in
          encode_pure digits_lower number
        else Err ValueError
  else Err ValueError.

(** ** Constants of the module *)

Definition nl : ascii := "010"%char.

Definition HEADER : str :=
  lit "AUTHORS:     Martin, Casanal, Feigl        VERSION: 0.4.0" ++ [nl].

(** The two dictionaries are static tables with distinct keys: association
    lists searched from the front. *)
Definition dict := list (str * str).

Definition NOMCLA : dict :=
  [(lit " O1P", lit " OP1"); (lit " O2P", lit " OP2"); (lit " C5M", lit " C7 ")].

Definition NOMCLA_BASE : dict :=
  [(lit "CYT", lit " DC"); (lit "GUA", lit " DG"); (lit "THY", lit " DT");
   (lit "ADE", lit " DA"); (lit "DA5", lit " DA"); (lit "DA3", lit " DA");
   (lit "DT5", lit " DT"); (lit "DT3", lit " DT"); (lit "DG5", lit " DG");
   (lit "DG3", lit " DG"); (lit "DC5", lit " DC"); (lit "DC3", lit " DC")].

(** [k in d] and [d.get(k, default)]. *)
Definition dict_mem (k : str) (d : dict) : bool :=
  existsb (fun kv => str_eqb k (fst kv)) d.

Definition dict_get (d : dict) (k default : str) : str :=
  match find (fun kv => str_eqb k (fst kv)) d with
  | Some kv => snd kv
  | None => default
  end.

(** ** The correction policy *)

Module Logic.
Record t : Type := mk {
  nomenclature : bool;
  molecule_chain : bool;
  atom_number : bool;
  occupancy : bool;
  atomtype : bool;
  remove_H : bool;
  reset_numbers : bool;
  keep_header : bool }.

(** Every attribute defaults to [True]. *)
Definition default : t := mk true true true true true true true true.
End Logic.

(** ** The renumbering state, [self.current] *)

Module Current.
(** [chain_id] only ever holds ["A"] or a character returned by
    [increase_chain_id], so it is a single character. *)
Record t : Type := mk {
  atom_number : Z;
  old_molecule_number : Z;
  last_molecule_number : Z;
  chain_id : ascii;
  chain_id_repeats : Z;
  chain : option str }.
End Current.

(** [__attrs_post_init__]: the state a corrector is created with. *)
Definition post_init : Current.t :=
  Current.mk 1 1 1 "A" 1 None.

(** ** The field transformers *)

Definition correct_atom_number (line : str) (current : Current.t)
    : outcome (str * Current.t) :=
  atom_number_string <-
    number_to_hybrid36_number (Current.atom_number current) 5 ;;
  let current :=
    Current.mk (Current.atom_number current + 1)
               (Current.old_molecule_number current)
               (Current.last_molecule_number current)
               (Current.chain_id current)
               (Current.chain_id_repeats current)
               (Current.chain current) in
  Ok (join [slice 0 5 line; lit " "; atom_number_string; slice_from 11 line],
      current).

Definition correct_nomenclature (line : str) : str :=
  let atom := slice 12 16 line in
  let BLANK := repeat " "%char 4 in
  let atom := if dict_mem atom NOMCLA then dict_get NOMCLA atom BLANK else atom in
  let base := slice 17 20 line in
  let base :=
    if dict_mem base NOMCLA_BASE then dict_get NOMCLA_BASE base BLANK else base in
  join [slice 0 12 line; atom; lit " "; base; slice_from 20 line].

Definition correct_occupancy (line : str) : str :=
  slice_to 54 line ++ lit "  1.00  " ++ slice_from 62 line.

Definition remove_H (line : str) : str :=
  let atom := slice 12 16 line in
  if char_in "H" atom then [] else line.

Definition correct_atomtype (line : str) : outcome str :=
  let atom := slice 12 14 line in
  c1 <- getitem atom 1 ;;
  atom <- (if char_in c1 (lit "0123456789")
           then c0 <- getitem atom 0 ;; Ok [c0]
           else Ok atom) ;;
  let atom := rjust 2 " " (strip atom) in
  Ok (slice_to 76 line ++ atom ++ slice_from 78 line).

(** ** The chain/residue renumbering step *)

(** [s.find(c)] for a one-character [c]: the first index, or -1. *)
Fixpoint find_char (c : ascii) (s : str) : Z :=
  match s with
  | [] => -1
  | x :: s' =>
      if Ascii.eqb x c then 0
      else let r := find_char c s' in if r <? 0 then -1 else r + 1
  end.

Definition possible_chain_ids : str := lit "ABCDEFGHIJKLMNOPQRSTUVWXYZ".

Definition increase_chain_id (current_chain_id : ascii) : outcome ascii :=
  let pos := find_char current_chain_id possible_chain_ids in
  let chlen := Z.of_nat (length possible_chain_ids) in
  if pos + 1 <? chlen then getitem possible_chain_ids (pos + 1)
  else getitem possible_chain_ids 1.  (* A reserved for scaffold *)

Definition correct_molecule_chain (line : str) (reset_numbers : bool)
    (current : Current.t) : outcome (str * bool * Current.t) :=
  let chain := slice 72 76 line in
  let is_ter := false in
  let molecule_number_str := slice 22 26 line in
  molecule_number <- py_int (remove_spaces molecule_number_str) ;;
  (* the three branches give new_chain_id, new_molecule_number, is_ter and
     the value of current["chain_id_repeats"] *)
  '(new_chain_id, new_molecule_number, is_ter, chain_id_repeats) <-
    match Current.chain current with
    | None =>
        Ok (Current.chain_id current, 1, is_ter,
            Current.chain_id_repeats current)
    | Some current_chain =>
        if str_eqb chain current_chain then
          let new_chain_id := Current.chain_id current in
          if molecule_number =? Current.old_molecule_number current then
            Ok (new_chain_id, Current.last_molecule_number current, is_ter,
                Current.chain_id_repeats current)
          else
            let consec_nr := Current.old_molecule_number current + 1 in
            if molecule_number =? consec_nr then
              Ok (new_chain_id, Current.last_molecule_number current + 1,
                  is_ter, Current.chain_id_repeats current)
            else
              Ok (new_chain_id, Current.last_molecule_number current + 10,
                  true, Current.chain_id_repeats current)
        else
          new_chain_id <- increase_chain_id (Current.chain_id current) ;;
          Ok (new_chain_id, 1, true,
              if Ascii.eqb (Current.chain_id current) "Z"
              then Current.chain_id_repeats current + 1
              else Current.chain_id_repeats current)
    end ;;
  let new_chain_str :=
    [new_chain_id] ++ rjust 3 "0" (str_of_int chain_id_repeats) in
  new_molecule_number_str <-
    (if reset_numbers
     then number_to_hybrid36_number new_molecule_number 4
     else number_to_hybrid36_number molecule_number 4) ;;
  let newline :=
    join [slice 0 21 line; [new_chain_id]; new_molecule_number_str;
          slice 26 67 line; repeat " "%char 5; new_chain_str;
          slice_from 76 line] in
  Ok (newline, is_ter,
      Current.mk (Current.atom_number current) molecule_number
                 new_molecule_number new_chain_id chain_id_repeats
                 (Some chain)).

(** ** The orchestrator *)

Definition TER : str := lit "TER" ++ [nl].
Definition TER_END : str := lit "TER" ++ [nl] ++ lit "END" ++ [nl].

(** The local variables of [correct_pdb] that live across the records:
    [body], [is_ter] and the corrector's [current].  [is_ter] is [None]
    until the first assignment to it; reading it then raises
    [UnboundLocalError]. *)
Definition pass_state : Type := list str * option bool * Current.t.

(** The corrections applied to one [ATOM] record that passed the blank-name
    check, up to and including [remove_H]. *)
Definition correct_atom_line (logic : Logic.t) (line : str)
    (is_ter : option bool) (current : Current.t)
    : outcome (str * option bool * Current.t) :=
  let line := if Logic.nomenclature logic then correct_nomenclature line
              else line in
  '(line, is_ter, current) <-
    (if Logic.molecule_chain logic then
       '(line, t, current) <-
         correct_molecule_chain line (Logic.reset_numbers logic) current ;;
       Ok (line, Some t, current)
     else Ok (line, is_ter, current)) ;;
  '(line, current) <-
    (if Logic.atom_number logic then correct_atom_number line current
     else Ok (line, current)) ;;
  let line := if Logic.occupancy logic then correct_occupancy line else line in
  line <- (if Logic.atomtype logic then correct_atomtype line else Ok line) ;;
  let line := if Logic.remove_H logic then remove_H line else line in
  Ok (line, is_ter, current).

(** One turn of [for line in pdb_file]. *)
Definition correct_pdb_line (logic : Logic.t) (line : str) (st : pass_state)
    : outcome pass_state :=
  let '(body, is_ter, current) := st in
  let lineType := slice 0 6 line in
  if str_in_list lineType [lit "TITLE "; lit "CRYST1"] then
    Ok (body ++ [line], is_ter, current)
  else if str_eqb lineType (lit "ATOM  ") then
    let no_atom_check := slice 13 15 line in
    if negb (str_eqb no_atom_check (lit "  ")) then
      '(line, is_ter, current) <- correct_atom_line logic line is_ter current ;;
      match is_ter with
      | None => Err UnboundLocalError
      | Some t =>
          let body := if t then body ++ [TER] else body in
          Ok (body ++ [line], is_ter, current)
      end
    else Ok st
  else Ok st.

Fixpoint correct_pdb_loop (logic : Logic.t) (pdb_file : list str)
    (st : pass_state) : outcome pass_state :=
  match pdb_file with
  | [] => Ok st
  | line :: rest =>
      st <- correct_pdb_line logic line st ;;
      correct_pdb_loop logic rest st
  end.

(** [correct_pdb] up to the final join: the list [body]. *)
Definition correct_pdb_body (pdb_file : list str) (logic : Logic.t)
    (current : Current.t) : outcome (list str * Current.t) :=
  let body := [] in
  let body := if Logic.keep_header logic then body ++ [HEADER] else body in
  '(body, _, current) <- correct_pdb_loop logic pdb_file (body, None, current) ;;
  Ok (body ++ [TER_END], current).

Definition correct_pdb (pdb_file : list str) (logic : Logic.t)
    (current : Current.t) : outcome (str * Current.t) :=
  '(body, current) <- correct_pdb_body pdb_file logic current ;;
  Ok (join body, current).

(** ** The reorderer *)

(** Python's [<] on strings, as a test. *)
Fixpoint str_ltb (a b : str) : bool :=
  match a, b with
  | [], [] => false
  | [], _ :: _ => true
  | _ :: _, [] => false
  | x :: a', y :: b' =>
      if Nat.ltb (nat_of_ascii x) (nat_of_ascii y) then true
      else if Ascii.eqb x y then str_ltb a' b'
      else false
  end.

(** The first loop of [reshuffle_pdb]: [ATOM] records go to [unshuff_file],
    all others to [rem]. *)
Fixpoint reshuffle_split (pdb_file unshuff_file rem : list str)
    : list str * list str :=
  match pdb_file with
  | [] => (unshuff_file, rem)
  | line :: rest =>
      let lineType := slice 0 6 line in
      if str_eqb lineType (lit "ATOM  ")
      then reshuffle_split rest (unshuff_file ++ [line]) rem
      else reshuffle_split rest unshuff_file (rem ++ [line])
  end.

(** The sort key [lambda x: (x[72:76], int(x[22:27].strip()))]. *)
Definition sort_key : Type := (str * Z)%type.

Definition reshuffle_key (x : str) : outcome sort_key :=
  n <- py_int (strip (slice 22 27 x)) ;;
  Ok (slice 72 76 x, n).

(** [a < b] on two such tuples: the first components that differ decide. *)
Definition key_ltb (a b : sort_key) : bool :=
  if negb (str_eqb (fst a) (fst b)) then str_ltb (fst a) (fst b)
  else if negb (snd a =? snd b) then snd a <? snd b
  else false.

(** [list.sort(key=...)] computes the key of every element first, in order
    (an exception of the key function ends the sort), and then sorts by [<]
    on the keys, stably.  The outcome of a stable sort is that of the stable
    insertion sort below. *)
Fixpoint keys_of (l : list str) : outcome (list (sort_key * str)) :=
  match l with
  | [] => Ok []
  | x :: l' =>
      k <- reshuffle_key x ;;
      r <- keys_of l' ;;
      Ok ((k, x) :: r)
  end.

Fixpoint insert_by_key (x : sort_key * str) (l : list (sort_key * str))
    : list (sort_key * str) :=
  match l with
  | [] => [x]
  | y :: l' =>
      if key_ltb (fst y) (fst x) then y :: insert_by_key x l' else x :: l
  end.

Fixpoint sort_by_key (l : list (sort_key * str)) : list (sort_key * str) :=
  match l with
  | [] => []
  | x :: l' => insert_by_key x (sort_by_key l')
  end.

Definition reshuffle_pdb (pdb_file : list str) : outcome (list str) :=
  let '(unshuff_file, rem) := reshuffle_split pdb_file [] [] in
  decorated <- keys_of unshuff_file ;;
  let unshuff_file := map snd (sort_by_key decorated) in
  let newFile_list := rem ++ unshuff_file in
  Ok newFile_list.

(** ** Splitting the strands (core/fit.py) *)

(** What [_split_strands] reads of a segment of the universe: its [segid]
    and [residues.n_residues]. *)
Module Segment.
Record t : Type := mk {
  segid : str;
  n_residues : Z }.
End Segment.

(** [max(items, key=...)] after its first element: a later element replaces
    the best one only when its key is greater. *)
Fixpoint max_n_residues (best : Segment.t) (rest : list Segment.t)
    : Segment.t :=
  match rest with
  | [] => best
  | s :: rest' =>
      if Segment.n_residues s >? Segment.n_residues best
      then max_n_residues s rest'
      else max_n_residues best rest'
  end.

(** [max] of an empty sequence raises [ValueError]. *)
Definition _split_strands (strands : list Segment.t)
    : outcome (Segment.t * list Segment.t) :=
  match strands with
  | [] => Err ValueError
  | first :: rest =>
      let scaffold := max_n_residues first rest in
      let staples :=
        filter (fun s => negb (str_eqb (Segment.segid s)
                                       (Segment.segid scaffold))) strands in
      Ok (scaffold, staples)
  end.

(** * Vocabulary of the properties *)

(** ** Numerals *)

(** The [k] least significant base-[n] digits of [v], most significant
    first. *)
Fixpoint to_digits (n : Z) (k : nat) (v : Z) : list Z :=
  match k with
  | O => []
  | S k' => to_digits n k' (v / n) ++ [v mod n]
  end.

(** The character an alphabet gives to a digit. *)
Definition digit_char (ds : str) (d : Z) : ascii :=
  nth (Z.to_nat d) ds "000"%char.

(** Lexicographic order on digit lists. *)
Fixpoint digits_lt (a b : list Z) : Prop :=
  match a, b with
  | x :: a', y :: b' => x < y \/ (x = y /\ digits_lt a' b')
  | [], _ :: _ => True
  | _, [] => False
  end.

(** The value of a digit list read most significant digit first. *)
Definition from_digits (n : Z) (acc : Z) (l : list Z) : Z :=
  fold_left (fun a d => a * n + d) l acc.

(** A digit of base 10. *)
Definition decimal_digit (d : Z) : Prop := 0 <= d < 10.

(** The characters of an alphabet are in increasing code order. *)
Definition increasing_alphabet (ds : str) : Prop :=
  forall i j, 0 <= i -> i < j -> j < Z.of_nat (length ds) ->
    (nat_of_ascii (digit_char ds i) < nat_of_ascii (digit_char ds j))%nat.

(** The same as a test that computes. *)
Definition increasing_alphabetb (ds : str) : bool :=
  let idx := seq 0 (length ds) in
  forallb (fun i => forallb (fun j =>
    implb (Nat.ltb i j)
          (Nat.ltb (nat_of_ascii (nth i ds "000"%char))
                   (nat_of_ascii (nth j ds "000"%char)))) idx) idx.

(** The two base-36 bands of width [w], and the value handed to
    [encode_pure] in each. *)
Definition in_upper_band (w v : Z) : Prop :=
  10 ^ w <= v < 10 ^ w + 26 * 36 ^ (w - 1).

Definition in_lower_band (w v : Z) : Prop :=
  10 ^ w + 26 * 36 ^ (w - 1) <= v < 10 ^ w + 2 * 26 * 36 ^ (w - 1).

Definition upper_value (w v : Z) : Z := v - 10 ^ w + 10 * 36 ^ (w - 1).

Definition lower_value (w v : Z) : Z :=
  v - 10 ^ w - 26 * 36 ^ (w - 1) + 10 * 36 ^ (w - 1).

(** ** Records, bodies and states *)

(** What [correct_nomenclature] does to one name field. *)
Definition remap (d : dict) (name : str) : str :=
  if dict_mem name d then dict_get d name (repeat " "%char 4) else name.

(** The record [correct_molecule_chain] builds from the input record, the
    output chain letter, the encoded residue number and the repeat
    counter. *)
Definition chain_line (line : str) (new_chain_id : ascii)
    (new_molecule_number_str : str) (chain_id_repeats : Z) : str :=
  join [slice 0 21 line; [new_chain_id]; new_molecule_number_str;
        slice 26 67 line; repeat " "%char 5;
        [new_chain_id] ++ rjust 3 "0" (str_of_int chain_id_repeats);
        slice_from 76 line].

(** A body entry is an atom record when it carries the [ATOM] tag. *)
Definition is_atom_record (l : str) : bool :=
  str_eqb (slice 0 6 l) (lit "ATOM  ").

(** Title and crystal records, which are copied. *)
Definition is_title (line : str) : bool :=
  str_in_list (slice 0 6 line) [lit "TITLE "; lit "CRYST1"].

(** The input records that reach the corrections: [ATOM] records that pass
    the blank-name check on columns 13 and 14. *)
Definition is_processed (line : str) : bool :=
  is_atom_record line && negb (str_eqb (slice 13 15 line) (lit "  ")).

(** The records of a file that reach the corrections, in order. *)
Definition processed (pdb_file : list str) : list str :=
  filter is_processed pdb_file.

(** The serial columns of the atom records of a body. *)
Definition serials (body : list str) : list str :=
  map (slice 6 11) (filter is_atom_record body).

(** [a; a+1; ...], [n] numbers. *)
Fixpoint consecutive (a : Z) (n : nat) : list Z :=
  match n with
  | O => []
  | S n' => a :: consecutive (a + 1) n'
  end.

(** A record that starts with the [ATOM] tag. *)
Definition tagged (l : str) : Prop := exists rest, l = lit "ATOM  " ++ rest.

(** An atom record whose serial columns hold the encoding of [k]. *)
Definition numbered (k : Z) (l : str) : Prop :=
  exists s rest,
    number_to_hybrid36_number k 5 = Ok s /\ l = lit "ATOM  " ++ s ++ rest.

(** A record of at least 16 columns with an ['H'] in its atom name. *)
Definition hydrogen_name (l : str) : Prop :=
  (16 <= length l)%nat /\ char_in "H" (slice 12 16 l) = true.

(** A record long enough to hold the residue-number field, and one whose
    residue-number field [int] can read. *)
Definition long_record (l : str) : Prop := (26 <= length l)%nat.

Definition well_formed_record (line : str) : Prop :=
  long_record line
  /\ exists n, py_int (remove_spaces (slice 22 26 line)) = Ok n.

(** What holds of [self.current] on a fresh corrector and after every
    record: the counters are positive and the chain letter is a letter of
    the alphabet.  These are the side conditions of the renumbering rules
    above. *)
Definition current_ok (cur : Current.t) : Prop :=
  1 <= Current.atom_number cur
  /\ 1 <= Current.last_molecule_number cur
  /\ 1 <= Current.chain_id_repeats cur
  /\ exists i, nth_error possible_chain_ids i = Some (Current.chain_id cur).

(** ** First characters of codes *)

(** The code of the first character of a string, 0 for the empty string. *)
Definition head_code (s : str) : nat :=
  match s with
  | c :: _ => nat_of_ascii c
  | [] => 0%nat
  end.

(** The three classes of first characters: space, minus sign or decimal
    digit; upper-case letter; lower-case letter. *)
Definition decimal_head (n : nat) : Prop :=
  n = 32%nat \/ n = 45%nat \/ (48 <= n <= 57)%nat.

Definition upper_head (n : nat) : Prop := (65 <= n <= 90)%nat.

Definition lower_head (n : nat) : Prop := (97 <= n <= 122)%nat.

(** ** Chain labels *)

(** The place of a chain letter in the alphabet (-1 for another
    character), and the rank of the label of a state in the sequence
    A001, B001, ..., Z001, B002, ..., Z002, B003, ... *)
Definition chain_index (c : ascii) : Z := find_char c possible_chain_ids.

Definition label_rank (cur : Current.t) : Z :=
  25 * (Current.chain_id_repeats cur - 1) + chain_index (Current.chain_id cur).

(** The letter ['A'] only occurs with the repeat counter at 1. *)
Definition label_ok (cur : Current.t) : Prop :=
  current_ok cur
  /\ (Current.chain_id cur = "A"%char -> Current.chain_id_repeats cur = 1).

(** ** What a pass emits *)

(** Whether hydrogen removal under [logic] drops a record: the flag is on
    and the atom-name columns hold an ['H']. *)
Definition dropped (logic : Logic.t) (line : str) : bool :=
  Logic.remove_H logic && char_in "H" (slice 12 16 line).

(** The coordinate columns of the atom records of a body. *)
Definition coordinates (body : list str) : list str :=
  map (slice 26 54) (filter is_atom_record body).

(** What [body] can hold between the header and the end marker: a
    terminator, the empty string of a dropped record, a title record of
    the file, or an atom record. *)
Definition body_entry (pdb_file : list str) (x : str) : Prop :=
  x = TER \/ x = []
  \/ (is_title x = true /\ In x pdb_file)
  \/ is_atom_record x = true.

(** A record keeps its tag unless it comes out empty, and with at least 54
    columns also its coordinates and whether its atom name holds an
    ['H']. *)
Definition record_kept (line l : str) : Prop :=
  (tagged line -> tagged l)
  /\ ((54 <= length line)%nat ->
      (54 <= length l)%nat
      /\ slice 26 54 l = slice 26 54 line
      /\ char_in "H" (slice 12 16 l) = char_in "H" (slice 12 16 line)).

(** ** The order of the reorderer *)

(** [a <= b] on sort keys: the label is smaller in string order, or the
    labels are equal and the residue number is not greater. *)
Definition key_le (a b : sort_key) : Prop :=
  str_lt (fst a) (fst b) \/ (fst a = fst b /\ snd a <= snd b).

(** Two records are in sort order when both have keys and the keys are. *)
Definition in_sort_order (x y : str) : Prop :=
  exists kx ky,
    reshuffle_key x = Ok kx /\ reshuffle_key y = Ok ky /\ key_le kx ky.

(** Whether a record has the sort key [k]. *)
Definition has_key (k : sort_key) (x : str) : bool :=
  match reshuffle_key x with
  | Ok k' => str_eqb (fst k') (fst k) && (snd k' =? snd k)
  | Err _ => false
  end.

(** ** Segments *)

(** [m] is the first segment of [strands] with the greatest number of
    residues: [strands] is [before ++ m :: after], the segments before it
    have fewer residues and the ones after it no more. *)
Definition first_longest (m : Segment.t) (before after : list Segment.t)
    : Prop :=
  Forall (fun s => Segment.n_residues s < Segment.n_residues m) before
  /\ Forall (fun s => Segment.n_residues s <= Segment.n_residues m) after.

(** ** Serials and body entries *)

(** The empty string: what hydrogen removal leaves of a record. *)
Definition is_empty (x : str) : bool :=
  match x with
  | [] => true
  | _ :: _ => false
  end.

(** The entries of a body that come from processed records: the atom
    records and the empty strings of the dropped ones. *)
Definition record_entries (body : list str) : list str :=
  filter (fun x => is_atom_record x || is_empty x) body.

(** The counter values, one per entry from [a] on, of the entries that are
    not empty. *)
Fixpoint kept_counters (a : Z) (entries : list str) : list Z :=
  match entries with
  | [] => []
  | e :: rest =>
      if is_empty e then kept_counters (a + 1) rest
      else a :: kept_counters (a + 1) rest
  end.

(** A record of at least 16 columns stays one, with an ['H'] in the atom
    name columns exactly when the original has one. *)
Definition name_kept (line l : str) : Prop :=
  (16 <= length line)%nat ->
  (16 <= length l)%nat
  /\ char_in "H" (slice 12 16 l) = char_in "H" (slice 12 16 line).

(** What the record [line], processed at the counter value [k], leaves in
    the body: the empty string (only under hydrogen removal) or an atom
    record whose serial columns hold the code of [k]; for a record of at
    least 16 columns it is the empty string exactly when hydrogen removal
    drops the record. *)
Definition serial_entry (logic : Logic.t) (k : Z) (line e : str) : Prop :=
  ((e = [] /\ Logic.remove_H logic = true)
   \/ (is_atom_record e = true
       /\ number_to_hybrid36_number k 5 = Ok (slice 6 11 e)))
  /\ ((16 <= length line)%nat -> (e = [] <-> dropped logic line = true)).

(** ** Sample records *)

(** Segment S1, residue 5: an oxygen and a hydrogen; residue 6: a carbon. *)
Definition rec_S1_5_O : str :=
  lit "ATOM      7  O5' ADE X   5       1.000   2.000   3.000  0.50  0.00      S1      "
  ++ [nl].

Definition rec_S1_5_H : str :=
  lit "ATOM      9  H5' ADE X   5       1.000   2.000   3.000  0.50  0.00      S1      "
  ++ [nl].

Definition rec_S1_6_C : str :=
  lit "ATOM     12  C5' ADE X   6       1.000   2.000   3.000  0.50  0.00      S1      "
  ++ [nl].

(** Segment S2: a hydrogen; segment S3: a nitrogen. *)
Definition rec_S2_1_H : str :=
  lit "ATOM     14  H1  GUA Y   1       1.000   2.000   3.000  0.50  0.00      S2      "
  ++ [nl].

Definition rec_S3_1_N : str :=
  lit "ATOM     15  N1  GUA Y   1       1.000   2.000   3.000  0.50  0.00      S3      "
  ++ [nl].

(** Atom names that are blank, and that fill column 12 only. *)
Definition rec_blank_name : str :=
  lit "ATOM     17      GLY Y   1       1.000   2.000   3.000  0.50  0.00      S3      "
  ++ [nl].

Definition rec_name_in_column_12 : str :=
  lit "ATOM     18 C    GLY Y   1       1.000   2.000   3.000  0.50  0.00      S3      "
  ++ [nl].

(** A state in the middle of segment S1: residue 5 was numbered 1. *)
Definition in_segment_S1 : Current.t :=
  Current.mk 3 5 1 "A" 1 (Some (lit "S1  ")).

(** The same with the chain letter at the end of the alphabet. *)
Definition in_segment_S1_at_Z : Current.t :=
  Current.mk 3 5 1 "Z" 1 (Some (lit "S1  ")).

(** A record with an alternate-location character in column 16. *)
Definition altloc_record : str :=
  lit "ATOM     16  CA AGLY Y   1       1.000   2.000   3.000  0.50  0.00      S3      "
  ++ [nl].

(** The default policy with [molecule_chain] switched off. *)
Definition logic_without_molecule_chain : Logic.t :=
  Logic.mk true false true true true true true true.

(** A residue field that [int] cannot read, and a residue number followed
    by an insertion code in column 26. *)
Definition rec_unreadable_residue : str :=
  lit "ATOM     19  CA  GLY Y  1A       1.000   2.000   3.000  0.50  0.00      S3      "
  ++ [nl].

Definition rec_insertion_code : str :=
  lit "ATOM     20  CA  GLY Y  12A      1.000   2.000   3.000  0.50  0.00      S3      "
  ++ [nl].

(** Two atoms of residue 7 and one of residue 3 of segment S1, one of
    residue 3 of segment S0, a title and a remark. *)
Definition rec_S1_7_CA : str :=
  lit "ATOM     21  CA  GLY Y   7       1.000   2.000   3.000  0.50  0.00      S1      "
  ++ [nl].

Definition rec_S1_7_CB : str :=
  lit "ATOM     22  CB  GLY Y   7       1.000   2.000   3.000  0.50  0.00      S1      "
  ++ [nl].

Definition rec_S1_3_N : str :=
  lit "ATOM     23  N   GLY Y   3       1.000   2.000   3.000  0.50  0.00      S1      "
  ++ [nl].

Definition rec_S0_3_N : str :=
  lit "ATOM     24  N   GLY Y   3       1.000   2.000   3.000  0.50  0.00      S0      "
  ++ [nl].

Definition rec_title : str := lit "TITLE     a structure" ++ [nl].

Definition rec_remark : str := lit "REMARK    made by hand" ++ [nl].

(** A state whose output residue number is at the end of the range of the
    four-column field. *)
Definition in_segment_S1_full : Current.t :=
  Current.mk 3 5 2436110 "A" 1 (Some (lit "S1  ")).

(** A scaffold and two staples. *)
Definition seg_scaffold : Segment.t := Segment.mk (lit "SCAF") 7249.
Definition seg_staple_1 : Segment.t := Segment.mk (lit "S1  ") 42.
Definition seg_staple_2 : Segment.t := Segment.mk (lit "S2  ") 35.

(** A state in segment S1 whose output residue number is 7 below the end of
    the range of the four-column field. *)
Definition in_segment_S1_near_end : Current.t :=
  Current.mk 3 5 2436105 "A" 1 (Some (lit "S1  ")).

(** A state in segment S1 at the chain letter ['Z'] with the repeat counter
    at 999. *)
Definition in_segment_S1_at_Z_999 : Current.t :=
  Current.mk 3 5 1 "Z" 999 (Some (lit "S1  ")).

(** ** Tactics *)

(** Turns a list whose length is bounded below by a numeral into its leading
    characters and a remainder. *)
Ltac explode l H :=
  repeat (destruct l as [|? l];
          [exfalso; cbn [length] in H; lia | cbn [length] in H]).

(** The same for a list of known length. *)
Ltac explode_exact l H :=
  repeat (destruct l as [|? l]; [discriminate H | cbn [length] in H]);
  destruct l; [clear H | discriminate H].

(** * Properties *)

(** ** Strings as lists: slices *)

Lemma str_eqb_eq (a b : str) : str_eqb a b = true <-> a = b.
Proof.
  unfold str_eqb. destruct (list_eq_dec ascii_dec a b); split; congruence.
Qed.

Lemma str_eqb_refl (a : str) : str_eqb a a = true.
Proof. apply str_eqb_eq. reflexivity. Qed.

Lemma str_eqb_neq (a b : str) : str_eqb a b = false <-> a <> b.
Proof.
  unfold str_eqb. destruct (list_eq_dec ascii_dec a b); split; congruence.
Qed.

Lemma rjust_length (w : nat) (c : ascii) (s : str) :
  (length s <= w)%nat -> length (rjust w c s) = w.
Proof.
  intros H. unfold rjust. rewrite length_app, repeat_length. lia.
Qed.

(** ** Positional numerals *)

Lemma to_digits_length n k v : length (to_digits n k v) = k.
Proof.
  revert v. induction k as [|k IH]; intros v; simpl; [reflexivity|].
  rewrite length_app, IH. simpl. lia.
Qed.

Lemma to_digits_range n k v :
  0 < n -> Forall (fun d => 0 <= d < n) (to_digits n k v).
Proof.
  intros Hn. revert v. induction k as [|k IH]; intros v; simpl.
  - constructor.
  - apply Forall_app. split; [apply IH|].
    constructor; [apply Z.mod_pos_bound; lia | constructor].
Qed.

Lemma digits_lt_app_l (a b : list Z) (x y : list Z) :
  length a = length b -> digits_lt a b -> digits_lt (a ++ x) (b ++ y).
Proof.
  revert b. induction a as [|p a IH]; intros [|q b] Hlen H; simpl in *;
    try discriminate; try contradiction.
  destruct H as [H | [-> H]]; [left; exact H | right; split; auto].
Qed.

Lemma digits_lt_app_r (a x y : list Z) :
  digits_lt x y -> digits_lt (a ++ x) (a ++ y).
Proof.
  intros H. induction a as [|p a IH]; simpl; [exact H | right; auto].
Qed.

(** Numeric order is the lexicographic order of equally long numerals. *)
Lemma to_digits_lt n k v1 v2 :
  0 < n -> 0 <= v1 -> v1 < v2 -> v2 < n ^ Z.of_nat k ->
  digits_lt (to_digits n k v1) (to_digits n k v2).
Proof.
  intros Hn. revert v1 v2. induction k as [|k IH]; intros v1 v2 H0 Hlt Hub.
  - simpl in Hub. lia.
  - simpl to_digits.
    assert (Hq : v1 / n <= v2 / n) by (apply Z.div_le_mono; lia).
    destruct (Z.eq_dec (v1 / n) (v2 / n)) as [E | NE].
    + rewrite E. apply digits_lt_app_r. simpl. left.
      pose proof (Z.div_mod v1 n ltac:(lia)).
      pose proof (Z.div_mod v2 n ltac:(lia)). rewrite E in *. lia.
    + apply digits_lt_app_l.
      * now rewrite !to_digits_length.
      * apply IH; [apply Z.div_pos; lia | lia |].
        apply Z.div_lt_upper_bound; [lia|].
        rewrite Nat2Z.inj_succ, Z.pow_succ_r in Hub by lia. lia.
Qed.

Section DigitLoop.
Variable ds : str.
Let n : Z := Z.of_nat (length ds).
Hypothesis base_ge_2 : 2 <= n.

Lemma getitem_digit (d : Z) :
  0 <= d < n -> getitem ds d = Ok (digit_char ds d).
Proof.
  intros Hd. unfold getitem. fold n.
  destruct (d <? 0) eqn:E; [apply Z.ltb_lt in E; lia|].
  replace (0 <=? d) with true by (symmetry; apply Z.leb_le; lia).
  replace (d <? n) with true by (symmetry; apply Z.ltb_lt; lia).
  simpl. unfold digit_char.
  destruct (nth_error ds (Z.to_nat d)) as [c|] eqn:En.
  - now rewrite (nth_error_nth _ _ _ En).
  - apply nth_error_None in En. unfold n in Hd. lia.
Qed.

Lemma loop_digits (k : nat) : forall (v : Z) (acc : str) (fuel : nat),
  n ^ Z.of_nat k <= v < n ^ Z.of_nat (S k) -> (k + 2 <= fuel)%nat ->
  encode_pure_loop fuel ds v acc
  = Ok (acc ++ rev (map (digit_char ds) (to_digits n (S k) v))).
Proof.
  induction k as [|k IH]; intros v acc fuel Hv Hf.
  - destruct fuel as [|[|fuel]]; try lia.
    change (Z.of_nat 0) with 0 in Hv. change (Z.of_nat 1) with 1 in Hv.
    rewrite Z.pow_0_r, Z.pow_1_r in Hv.
    cbn [encode_pure_loop]. fold n.
    replace (v =? 0) with false by (symmetry; apply Z.eqb_neq; lia).
    cbn [negb].
    rewrite (Z.div_small v n) by lia.
    rewrite getitem_digit by lia. cbn [bind].
    rewrite Z.eqb_refl. cbn [negb].
    simpl to_digits. rewrite Z.mod_small by lia.
    simpl. now replace (v - 0) with v by lia.
  - destruct fuel as [|fuel]; try lia.
    assert (Hp : 0 < n ^ Z.of_nat (S k)) by (apply Z.pow_pos_nonneg; lia).
    cbn [encode_pure_loop]. fold n.
    replace (v =? 0) with false by (symmetry; apply Z.eqb_neq; lia).
    cbn [negb].
    replace (v - v / n * n) with (v mod n)
      by (rewrite Z.mod_eq by lia; lia).
    rewrite getitem_digit by (apply Z.mod_pos_bound; lia). cbn [bind].
    rewrite IH; [| | lia].
    + change (to_digits n (S (S k)) v)
        with (to_digits n (S k) (v / n) ++ [v mod n]).
      rewrite map_app, rev_app_distr. simpl. now rewrite <- app_assoc.
    + rewrite (Nat2Z.inj_succ (S k)), Z.pow_succ_r in Hv by lia.
      rewrite (Nat2Z.inj_succ k), Z.pow_succ_r in * by lia.
      split.
      * apply Z.div_le_lower_bound; lia.
      * apply Z.div_lt_upper_bound; lia.
Qed.

Lemma loop_fuel_enough (k : nat) (v : Z) :
  n ^ Z.of_nat k <= v -> (k + 2 <= loop_fuel v)%nat.
Proof.
  intros Hv. unfold loop_fuel.
  assert (H2 : 2 ^ Z.of_nat k <= v).
  { etransitivity; [|exact Hv]. apply Z.pow_le_mono_l. lia. }
  assert (Hl : Z.of_nat k <= Z.log2 v).
  { rewrite <- (Z.log2_pow2 (Z.of_nat k)) by lia. now apply Z.log2_le_mono. }
  lia.
Qed.

(** A value with exactly [k + 1] digits is rendered as those digits. *)
Lemma encode_pure_digits (k : nat) (v : Z) :
  n ^ Z.of_nat k <= v < n ^ Z.of_nat (S k) ->
  encode_pure ds v = Ok (map (digit_char ds) (to_digits n (S k) v)).
Proof.
  intros Hv.
  assert (Hp : 0 < n ^ Z.of_nat k) by (apply Z.pow_pos_nonneg; lia).
  unfold encode_pure.
  replace (v >=? 0) with true by (symmetry; apply Z.geb_le; lia).
  replace (v =? 0) with false by (symmetry; apply Z.eqb_neq; lia).
  cbn [negb].
  rewrite (loop_digits k) by (try assumption; apply loop_fuel_enough; lia).
  cbn [bind app]. now rewrite rev_involutive.
Qed.

(** Every positive value has a digit count. *)
Lemma digit_count (m : nat) : forall v,
  1 <= v < n ^ Z.of_nat m ->
  exists k, (k < m)%nat /\ n ^ Z.of_nat k <= v < n ^ Z.of_nat (S k).
Proof.
  induction m as [|m IH]; intros v Hv.
  - simpl in Hv. lia.
  - destruct (Z_lt_dec v (n ^ Z.of_nat m)) as [Hlt | Hge].
    + destruct (IH v ltac:(lia)) as (k & Hk & Hr). exists k. split; [lia | exact Hr].
    + exists m. split; [lia | lia].
Qed.
End DigitLoop.

(** ** Digit alphabets *)

Lemma increasing_alphabetb_sound (ds : str) :
  increasing_alphabetb ds = true -> increasing_alphabet ds.
Proof.
  intros H i j Hi Hij Hj. unfold increasing_alphabetb in H.
  rewrite forallb_forall in H.
  specialize (H (Z.to_nat i)). rewrite forallb_forall in H.
  assert (Hin : forall x, 0 <= x < Z.of_nat (length ds) ->
                          In (Z.to_nat x) (seq 0 (length ds))).
  { intros x Hx. apply in_seq. lia. }
  specialize (H (Hin i ltac:(lia)) (Z.to_nat j) (Hin j ltac:(lia))).
  replace (Nat.ltb (Z.to_nat i) (Z.to_nat j)) with true in H
    by (symmetry; apply Nat.ltb_lt; lia).
  simpl in H. apply Nat.ltb_lt in H. exact H.
Qed.

Lemma digits_upper_increasing : increasing_alphabet digits_upper.
Proof. apply increasing_alphabetb_sound. vm_compute. reflexivity. Qed.

Lemma digits_lower_increasing : increasing_alphabet digits_lower.
Proof. apply increasing_alphabetb_sound. vm_compute. reflexivity. Qed.

Lemma digits_lt_str_lt (ds : str) (a b : list Z) :
  increasing_alphabet ds ->
  Forall (fun d => 0 <= d < Z.of_nat (length ds)) a ->
  Forall (fun d => 0 <= d < Z.of_nat (length ds)) b ->
  digits_lt a b ->
  str_lt (map (digit_char ds) a) (map (digit_char ds) b).
Proof.
  intros Hinc. revert b.
  induction a as [|x a IH]; intros [|y b] Ha Hb H; simpl in *; auto.
  inversion Ha; subst. inversion Hb; subst.
  destruct H as [H | [-> H]].
  - left. apply Hinc; lia.
  - right. split; [reflexivity | auto].
Qed.

Lemma str_lt_irrefl (a : str) : ~ str_lt a a.
Proof.
  induction a as [|x a IH]; simpl; [tauto|].
  intros [H | [_ H]]; [lia | auto].
Qed.

(** ** Decimal numerals and [int] *)

Lemma from_to_digits n k : forall v acc,
  0 < n -> 0 <= v < n ^ Z.of_nat k ->
  from_digits n acc (to_digits n k v) = acc * n ^ Z.of_nat k + v.
Proof.
  induction k as [|k IH]; intros v acc Hn Hv.
  - simpl in *. lia.
  - rewrite Nat2Z.inj_succ, Z.pow_succ_r in * by lia.
    simpl to_digits. unfold from_digits in *. rewrite fold_left_app. simpl.
    rewrite IH; [| lia |].
    + pose proof (Z.div_mod v n ltac:(lia)). lia.
    + split; [apply Z.div_pos; lia | apply Z.div_lt_upper_bound; lia].
Qed.

Lemma decimal_digit_cases d :
  decimal_digit d ->
  In d [0; 1; 2; 3; 4; 5; 6; 7; 8; 9].
Proof. unfold decimal_digit. simpl. lia. Qed.

Lemma digit_value_decimal d :
  decimal_digit d ->
  digit_value (digit_char digits_decimal d) = Some d
  /\ Ascii.eqb (digit_char digits_decimal d) "_" = false
  /\ Ascii.eqb (digit_char digits_decimal d) "-" = false
  /\ Ascii.eqb (digit_char digits_decimal d) "+" = false
  /\ is_int_space (digit_char digits_decimal d) = false.
Proof.
  intros H. apply decimal_digit_cases in H. simpl in H.
  repeat (destruct H as [<- | H]; [vm_compute; auto |]). contradiction.
Qed.

Lemma parse_digits_decimal (l : list Z) : forall acc b,
  Forall decimal_digit l -> l <> [] \/ b = true ->
  parse_digits acc b (map (digit_char digits_decimal) l)
  = Some (from_digits 10 acc l).
Proof.
  induction l as [|d l IH]; intros acc b Hl Hne.
  - destruct Hne as [Hne | ->]; [congruence | reflexivity].
  - inversion Hl; subst.
    destruct (digit_value_decimal d H1) as (Hv & Hu & _).
    simpl. rewrite Hu, Hv. apply IH; auto.
Qed.

Lemma int_lstrip_digits (l : list Z) :
  Forall decimal_digit l ->
  int_lstrip (map (digit_char digits_decimal) l)
  = map (digit_char digits_decimal) l.
Proof.
  intros Hl. destruct l as [|d l]; [reflexivity|].
  inversion Hl; subst.
  destruct (digit_value_decimal d H1) as (_ & _ & _ & _ & Hs).
  simpl. now rewrite Hs.
Qed.

Lemma int_lstrip_spaces (m : nat) (s : str) :
  int_lstrip (repeat " "%char m ++ s) = int_lstrip s.
Proof. induction m as [|m IH]; [reflexivity | simpl; exact IH]. Qed.

(** Reading back a space-padded decimal numeral. *)
Lemma py_int_padded_digits (m k : nat) (v : Z) :
  0 <= v < 10 ^ Z.of_nat (S k) ->
  py_int (repeat " "%char m
          ++ map (digit_char digits_decimal) (to_digits 10 (S k) v))
  = Ok v.
Proof.
  intros Hv.
  pose proof (to_digits_range 10 (S k) v ltac:(lia)) as Hr.
  fold decimal_digit in Hr.
  assert (Hlen := to_digits_length 10 (S k) v).
  set (l := to_digits 10 (S k) v) in *.
  unfold py_int, int_strip.
  rewrite int_lstrip_spaces, int_lstrip_digits by exact Hr.
  rewrite <- map_rev, int_lstrip_digits by (apply Forall_rev; exact Hr).
  rewrite map_rev, rev_involutive.
  destruct l as [|d l'] eqn:El; [discriminate|].
  inversion Hr; subst.
  destruct (digit_value_decimal d H1) as (_ & _ & Hm & Hp & _).
  cbn [map parse_signed]. rewrite Hm, Hp.
  change (digit_char digits_decimal d :: map (digit_char digits_decimal) l')
    with (map (digit_char digits_decimal) (d :: l')).
  rewrite parse_digits_decimal by (auto; left; discriminate).
  rewrite <- El. unfold l. rewrite from_to_digits by lia. f_equal.
Qed.

Lemma digits_decimal_length : Z.of_nat (length digits_decimal) = 10.
Proof. reflexivity. Qed.

Lemma digits_upper_length : Z.of_nat (length digits_upper) = 36.
Proof. reflexivity. Qed.

Lemma digits_lower_length : Z.of_nat (length digits_lower) = 36.
Proof. reflexivity. Qed.

(** The decimal numeral of a non-negative number below [10^m] has at most
    [max m 1] characters and reads back as the number. *)
Lemma str_of_nonneg_spec (m : nat) (v : Z) :
  0 <= v < 10 ^ Z.of_nat m ->
  exists k, (S k <= Nat.max m 1)%nat
    /\ 0 <= v < 10 ^ Z.of_nat (S k)
    /\ str_of_nonneg v = map (digit_char digits_decimal) (to_digits 10 (S k) v).
Proof.
  intros Hv. destruct (Z.eq_dec v 0) as [-> | Hnz].
  - exists 0%nat. split; [lia|]. split; [change (10 ^ Z.of_nat 1) with 10; lia | reflexivity].
  - assert (H10 : 2 <= Z.of_nat (length digits_decimal))
      by (rewrite digits_decimal_length; lia).
    destruct (digit_count digits_decimal m v) as (k & Hk & Hr).
    { rewrite digits_decimal_length. lia. }
    unfold str_of_nonneg.
    rewrite (encode_pure_digits digits_decimal H10 k v Hr).
    rewrite digits_decimal_length in *.
    exists k. split; [lia|]. split; [lia | reflexivity].
Qed.

(** ** The hybrid36 encoder, band by band *)

Section Hybrid36.
Variables (w : Z).
Hypothesis width_pos : 1 <= w.

Let P10 : 10 ^ w = 10 * 10 ^ (w - 1).
Proof. rewrite <- Z.pow_succ_r by lia. f_equal. lia. Qed.

Let P36 : 36 ^ w = 36 * 36 ^ (w - 1).
Proof. rewrite <- Z.pow_succ_r by lia. f_equal. lia. Qed.

Let pos10 : 0 < 10 ^ (w - 1).
Proof. apply Z.pow_pos_nonneg; lia. Qed.

Let pos36 : 0 < 36 ^ (w - 1).
Proof. apply Z.pow_pos_nonneg; lia. Qed.

Let width_nat : Z.of_nat (S (Z.to_nat (w - 1))) = w.
Proof. lia. Qed.

Lemma hybrid36_out_of_range (v : Z) :
  v < 1 - 10 ^ (w - 1) \/ v >= 10 ^ w + 2 * 26 * 36 ^ (w - 1) ->
  number_to_hybrid36_number v w = Err ValueError.
Proof.
  intros Hv. unfold number_to_hybrid36_number. rewrite Z.geb_leb.
  destruct (Z.leb_spec (1 - 10 ^ (w - 1)) v); [|reflexivity].
  destruct (Z.ltb_spec v (10 ^ w)); [lia|].
  destruct (Z.ltb_spec (v - 10 ^ w) (26 * 36 ^ (w - 1))); [lia|].
  destruct (Z.ltb_spec (v - 10 ^ w - 26 * 36 ^ (w - 1)) (26 * 36 ^ (w - 1)));
    [lia | reflexivity].
Qed.

Lemma hybrid36_decimal (v : Z) :
  1 - 10 ^ (w - 1) <= v < 10 ^ w ->
  number_to_hybrid36_number v w = Ok (format_d v w).
Proof.
  intros Hv. unfold number_to_hybrid36_number. rewrite Z.geb_leb.
  destruct (Z.leb_spec (1 - 10 ^ (w - 1)) v); [|lia].
  destruct (Z.ltb_spec v (10 ^ w)); [reflexivity | lia].
Qed.

Lemma band_value_digits (ds : str) (x : Z) :
  Z.of_nat (length ds) = 36 ->
  10 * 36 ^ (w - 1) <= x < 36 ^ w ->
  encode_pure ds x
  = Ok (map (digit_char ds) (to_digits 36 (Z.to_nat w) x)).
Proof.
  intros Hds Hx.
  replace (Z.to_nat w) with (S (Z.to_nat (w - 1))) by lia.
  rewrite <- Hds.
  apply encode_pure_digits; rewrite Hds; [lia|].
  rewrite width_nat. replace (Z.of_nat (Z.to_nat (w - 1))) with (w - 1) by lia.
  lia.
Qed.

Lemma hybrid36_upper (v : Z) :
  in_upper_band w v ->
  number_to_hybrid36_number v w
  = Ok (map (digit_char digits_upper)
            (to_digits 36 (Z.to_nat w) (upper_value w v))).
Proof.
  unfold in_upper_band. intros Hv.
  unfold number_to_hybrid36_number. rewrite Z.geb_leb.
  destruct (Z.leb_spec (1 - 10 ^ (w - 1)) v); [|lia].
  destruct (Z.ltb_spec v (10 ^ w)); [lia|].
  destruct (Z.ltb_spec (v - 10 ^ w) (26 * 36 ^ (w - 1))); [|lia].
  apply band_value_digits; [reflexivity |].
  unfold upper_value, lower_value. pose proof P36. lia.
Qed.

Lemma hybrid36_lower (v : Z) :
  in_lower_band w v ->
  number_to_hybrid36_number v w
  = Ok (map (digit_char digits_lower)
            (to_digits 36 (Z.to_nat w) (lower_value w v))).
Proof.
  unfold in_lower_band. intros Hv.
  unfold number_to_hybrid36_number. rewrite Z.geb_leb.
  destruct (Z.leb_spec (1 - 10 ^ (w - 1)) v); [|lia].
  destruct (Z.ltb_spec v (10 ^ w)); [lia|].
  destruct (Z.ltb_spec (v - 10 ^ w) (26 * 36 ^ (w - 1))); [lia|].
  destruct (Z.ltb_spec (v - 10 ^ w - 26 * 36 ^ (w - 1)) (26 * 36 ^ (w - 1)));
    [|lia].
  apply band_value_digits; [reflexivity |].
  unfold upper_value, lower_value. pose proof P36. lia.
Qed.

(** The decimal band fills the field exactly. *)
Lemma format_d_length (v : Z) :
  1 - 10 ^ (w - 1) <= v < 10 ^ w ->
  length (format_d v w) = Z.to_nat w.
Proof.
  intros Hv. unfold format_d. apply rjust_length. unfold str_of_int.
  destruct (Z.ltb_spec v 0) as [Hneg | Hpos].
  - destruct (str_of_nonneg_spec (Z.to_nat (w - 1)) (- v)) as (k & Hk & _ & ->).
    { replace (Z.of_nat (Z.to_nat (w - 1))) with (w - 1) by lia. lia. }
    cbn [length]. rewrite length_map, to_digits_length.
    assert (w <> 1) by (intros ->; simpl in Hv; lia). lia.
  - destruct (str_of_nonneg_spec (Z.to_nat w) v) as (k & Hk & _ & ->).
    { replace (Z.of_nat (Z.to_nat w)) with w by lia. lia. }
    rewrite length_map, to_digits_length. lia.
Qed.

(** Inside the representable range the encoder returns a string of
    exactly [w] characters. *)
Lemma hybrid36_in_range (v : Z) :
  1 - 10 ^ (w - 1) <= v < 10 ^ w + 2 * 26 * 36 ^ (w - 1) ->
  exists s, number_to_hybrid36_number v w = Ok s /\ length s = Z.to_nat w.
Proof.
  intros Hv.
  destruct (Z_lt_dec v (10 ^ w)) as [Hd | Hd].
  - exists (format_d v w).
    split; [apply hybrid36_decimal | apply format_d_length]; lia.
  - destruct (Z_lt_dec v (10 ^ w + 26 * 36 ^ (w - 1))) as [Hu | Hu].
    + eexists. split; [apply hybrid36_upper; unfold in_upper_band; lia|].
      now rewrite length_map, to_digits_length.
    + eexists. split; [apply hybrid36_lower; unfold in_lower_band; lia|].
      now rewrite length_map, to_digits_length.
Qed.

(** Within one base-36 band the codes are ordered as the values. *)
Lemma band_order (ds : str) (x1 x2 : Z) :
  Z.of_nat (length ds) = 36 -> increasing_alphabet ds ->
  0 <= x1 -> x1 < x2 -> x2 < 36 ^ w ->
  str_lt (map (digit_char ds) (to_digits 36 (Z.to_nat w) x1))
         (map (digit_char ds) (to_digits 36 (Z.to_nat w) x2)).
Proof.
  intros Hds Hinc H0 Hlt Hub.
  apply digits_lt_str_lt; [exact Hinc | | |].
  - rewrite Hds. apply to_digits_range. lia.
  - rewrite Hds. apply to_digits_range. lia.
  - apply to_digits_lt; try lia.
    replace (Z.of_nat (Z.to_nat w)) with w by lia. exact Hub.
Qed.
End Hybrid36.

(** ** The Numeric Codec: range, round trip and order *)

(** C3.  For a width [w >= 1] the encoder raises its range error
    ([ValueError "value out of range."]) exactly when
    [v < 1 - 10^(w-1)] or [v >= 10^w + 2*26*36^(w-1)], and returns a string
    for every other [v]; for width 2 it raises for every
    [v >= 100 + 2*26*36]. *)
Theorem hybrid36_range_error (w v : Z) (Hw : 1 <= w) :
  (number_to_hybrid36_number v w = Err ValueError
   <-> v < 1 - 10 ^ (w - 1) \/ v >= 10 ^ w + 2 * 26 * 36 ^ (w - 1))
  /\ (1 - 10 ^ (w - 1) <= v < 10 ^ w + 2 * 26 * 36 ^ (w - 1) ->
      exists s, number_to_hybrid36_number v w = Ok s)
  /\ (w = 2 -> v >= 100 + 2 * 26 * 36 ->
      number_to_hybrid36_number v w = Err ValueError).
Proof.
  split; [split|split].
  - intros E.
    destruct (Z_lt_dec v (1 - 10 ^ (w - 1))) as [|Hlo]; [now left|].
    destruct (Z_ge_dec v (10 ^ w + 2 * 26 * 36 ^ (w - 1))) as [|Hhi];
      [now right|].
    destruct (hybrid36_in_range w Hw v ltac:(lia)) as (s & Hs & _).
    congruence.
  - apply (hybrid36_out_of_range w Hw).
  - intros Hv. destruct (hybrid36_in_range w Hw v Hv) as (s & Hs & _).
    now exists s.
  - intros -> Hv. apply hybrid36_out_of_range; [lia|]. right.
    change (10 ^ 2) with 100. change (36 ^ (2 - 1)) with 36. lia.
Qed.

Lemma hybrid36_range_error_witness :
  1 <= 2
  /\ (number_to_hybrid36_number 1972 2 = Err ValueError
      <-> 1972 < 1 - 10 ^ (2 - 1) \/ 1972 >= 10 ^ 2 + 2 * 26 * 36 ^ (2 - 1))
  /\ number_to_hybrid36_number 1972 2 = Err ValueError
  /\ (exists s, number_to_hybrid36_number 1971 2 = Ok s).
Proof.
  assert (Hw : 1 <= 2) by lia.
  split; [exact Hw|].
  destruct (hybrid36_range_error 2 1972 Hw) as (Hiff & _ & H2).
  destruct (hybrid36_range_error 2 1971 Hw) as (_ & Hin & _).
  split; [exact Hiff|]. split.
  - apply H2; [reflexivity | lia].
  - apply Hin. change (10 ^ (2 - 1)) with 10. change (10 ^ 2) with 100.
    change (36 ^ (2 - 1)) with 36. lia.
Defined.

(** C4.  For [0 <= v < 10^w] the encoder returns [v] in decimal,
    right-justified with spaces to exactly [w] characters, and [int] reads
    the result back as [v].  Beyond the decimal band every supported value
    gives exactly [w] characters, and two values of one base-36 band are
    encoded in their numeric order (so distinct values get distinct
    codes). *)
Theorem hybrid36_decimal_roundtrip_and_band_order (w : Z) (Hw : 1 <= w) :
  (forall v, 0 <= v < 10 ^ w ->
     number_to_hybrid36_number v w
       = Ok (rjust (Z.to_nat w) " " (str_of_int v))
     /\ length (rjust (Z.to_nat w) " " (str_of_int v)) = Z.to_nat w
     /\ py_int (rjust (Z.to_nat w) " " (str_of_int v)) = Ok v)
  /\ (forall v, 10 ^ w <= v < 10 ^ w + 2 * 26 * 36 ^ (w - 1) ->
        exists s, number_to_hybrid36_number v w = Ok s
                  /\ length s = Z.to_nat w)
  /\ (forall v1 v2,
        (in_upper_band w v1 /\ in_upper_band w v2)
        \/ (in_lower_band w v1 /\ in_lower_band w v2) ->
        v1 < v2 ->
        exists s1 s2,
          number_to_hybrid36_number v1 w = Ok s1
          /\ number_to_hybrid36_number v2 w = Ok s2
          /\ str_lt s1 s2 /\ s1 <> s2).
Proof.
  assert (Hp10 : 0 < 10 ^ (w - 1)) by (apply Z.pow_pos_nonneg; lia).
  assert (Hp36 : 0 < 36 ^ (w - 1)) by (apply Z.pow_pos_nonneg; lia).
  assert (H36 : 36 ^ w = 36 * 36 ^ (w - 1)).
  { rewrite <- Z.pow_succ_r by lia. f_equal. lia. }
  split; [|split].
  - intros v Hv.
    split; [apply (hybrid36_decimal w Hw v); lia|].
    split; [apply (format_d_length w Hw v); lia|].
    unfold str_of_int.
    destruct (Z.ltb_spec v 0); [lia|].
    destruct (str_of_nonneg_spec (Z.to_nat w) v) as (k & Hk & Hr & ->).
    { replace (Z.of_nat (Z.to_nat w)) with w by lia. lia. }
    unfold rjust. now apply py_int_padded_digits.
  - intros v Hv. apply (hybrid36_in_range w Hw v). lia.
  - intros v1 v2 Hband Hlt.
    assert (Hne : forall s1 s2 : str, str_lt s1 s2 -> s1 <> s2).
    { intros s1 s2 H ->. exact (str_lt_irrefl _ H). }
    destruct Hband as [[H1 H2] | [H1 H2]].
    + do 2 eexists.
      split; [apply (hybrid36_upper w Hw v1 H1)|].
      split; [apply (hybrid36_upper w Hw v2 H2)|].
      assert (Hlt' : str_lt
        (map (digit_char digits_upper)
             (to_digits 36 (Z.to_nat w) (upper_value w v1)))
        (map (digit_char digits_upper)
             (to_digits 36 (Z.to_nat w) (upper_value w v2)))).
      { unfold in_upper_band in *.
        apply (band_order w Hw); unfold upper_value;
          [reflexivity | exact digits_upper_increasing | lia | lia | lia]. }
      split; [exact Hlt' | exact (Hne _ _ Hlt')].
    + do 2 eexists.
      split; [apply (hybrid36_lower w Hw v1 H1)|].
      split; [apply (hybrid36_lower w Hw v2 H2)|].
      assert (Hlt' : str_lt
        (map (digit_char digits_lower)
             (to_digits 36 (Z.to_nat w) (lower_value w v1)))
        (map (digit_char digits_lower)
             (to_digits 36 (Z.to_nat w) (lower_value w v2)))).
      { unfold in_lower_band in *.
        apply (band_order w Hw); unfold lower_value;
          [reflexivity | exact digits_lower_increasing | lia | lia | lia]. }
      split; [exact Hlt' | exact (Hne _ _ Hlt')].
Qed.

Lemma hybrid36_decimal_roundtrip_and_band_order_witness :
  1 <= 5
  /\ number_to_hybrid36_number 42 5 = Ok (lit "   42")
  /\ py_int (lit "   42") = Ok 42
  /\ exists s1 s2,
       number_to_hybrid36_number 100000 5 = Ok s1
       /\ number_to_hybrid36_number 100001 5 = Ok s2
       /\ str_lt s1 s2 /\ s1 <> s2.
Proof.
  assert (Hw : 1 <= 5) by lia.
  split; [exact Hw|].
  destruct (hybrid36_decimal_roundtrip_and_band_order 5 Hw)
    as (Hdec & _ & Hord).
  assert (H42 : 0 <= 42 < 10 ^ 5) by (split; [lia | reflexivity]).
  destruct (Hdec 42 H42) as (Henc & _ & Hint).
  split; [exact Henc|]. split; [exact Hint|].
  apply (Hord 100000 100001); [left|lia].
  unfold in_upper_band. split; split; try reflexivity; discriminate.
Defined.

(** ** The nomenclature remap *)

Lemma dict_mem_key (k : str) (d : dict) :
  dict_mem k d = true -> exists v, In (k, v) d.
Proof.
  unfold dict_mem. rewrite existsb_exists. intros ((k', v) & Hin & Heq).
  apply str_eqb_eq in Heq. simpl in Heq. subst k'. now exists v.
Qed.

Lemma remap_NOMCLA_length (name : str) :
  length (remap NOMCLA name) = length name.
Proof.
  unfold remap. destruct (dict_mem name NOMCLA) eqn:E; [|reflexivity].
  apply dict_mem_key in E. destruct E as (v & Hin). simpl in Hin.
  repeat (destruct Hin as [Hin | Hin];
          [injection Hin as <- <-; reflexivity |]).
  contradiction.
Qed.

Lemma remap_NOMCLA_BASE_length (name : str) :
  length (remap NOMCLA_BASE name) = length name.
Proof.
  unfold remap. destruct (dict_mem name NOMCLA_BASE) eqn:E; [|reflexivity].
  apply dict_mem_key in E. destruct E as (v & Hin). simpl in Hin.
  repeat (destruct Hin as [Hin | Hin];
          [injection Hin as <- <-; reflexivity |]).
  contradiction.
Qed.

Lemma remap_mapped (d : dict) (k v : str) :
  d = NOMCLA \/ d = NOMCLA_BASE -> In (k, v) d -> remap d k = v.
Proof.
  intros [-> | ->] Hin; simpl in Hin;
    repeat (destruct Hin as [Hin | Hin];
            [injection Hin as <- <-; reflexivity |]);
    contradiction.
Qed.

Lemma correct_nomenclature_remap (line : str) :
  correct_nomenclature line
  = slice 0 12 line ++ remap NOMCLA (slice 12 16 line) ++ lit " "
    ++ remap NOMCLA_BASE (slice 17 20 line) ++ slice_from 20 line.
Proof.
  unfold correct_nomenclature, remap, join. cbn [concat].
  now rewrite app_nil_r.
Qed.

(** C8 (as amended).  On a record of at least 20 columns the nomenclature
    remap rewrites the atom name in columns [12,16) and the residue name in
    columns [17,20) through their tables (a mapped name becomes its table
    value, an unmapped name stays), writes a space into column 16, and leaves
    columns [0,12) and everything from column 20 on, and the length, as they
    were.  A record with both names unmapped and a space in column 16 is
    returned unchanged. *)
Theorem correct_nomenclature_frame (line : str)
    (Hlen : (20 <= length line)%nat) :
  slice 0 12 (correct_nomenclature line) = slice 0 12 line
  /\ slice 12 16 (correct_nomenclature line) = remap NOMCLA (slice 12 16 line)
  /\ slice 16 17 (correct_nomenclature line) = lit " "
  /\ slice 17 20 (correct_nomenclature line)
     = remap NOMCLA_BASE (slice 17 20 line)
  /\ slice_from 20 (correct_nomenclature line) = slice_from 20 line
  /\ length (correct_nomenclature line) = length line
  /\ (forall k v, In (k, v) NOMCLA -> remap NOMCLA k = v)
  /\ (forall k v, In (k, v) NOMCLA_BASE -> remap NOMCLA_BASE k = v)
  /\ (forall d k, dict_mem k d = false -> remap d k = k)
  /\ (dict_mem (slice 12 16 line) NOMCLA = false ->
      dict_mem (slice 17 20 line) NOMCLA_BASE = false ->
      slice 16 17 line = lit " " ->
      correct_nomenclature line = line).
Proof.
  rewrite correct_nomenclature_remap.
  assert (Ha := remap_NOMCLA_length (slice 12 16 line)).
  assert (Hb := remap_NOMCLA_BASE_length (slice 17 20 line)).
  assert (Hu : forall d k, dict_mem k d = false -> remap d k = k).
  { intros d k E. unfold remap. now rewrite E. }
  assert (Hfinal :
    dict_mem (slice 12 16 line) NOMCLA = false ->
    dict_mem (slice 17 20 line) NOMCLA_BASE = false ->
    slice 16 17 line = lit " " ->
    slice 0 12 line ++ remap NOMCLA (slice 12 16 line) ++ lit " "
      ++ remap NOMCLA_BASE (slice 17 20 line) ++ slice_from 20 line = line).
  { intros E1 E2 E3. rewrite (Hu _ _ E1), (Hu _ _ E2), <- E3.
    clear - Hlen. explode line Hlen. reflexivity. }
  set (atom := remap NOMCLA (slice 12 16 line)) in *.
  set (base := remap NOMCLA_BASE (slice 17 20 line)) in *.
  clearbody atom base.
  explode line Hlen. cbn [slice skipn firstn Nat.sub length] in Ha, Hb.
  explode_exact atom Ha. explode_exact base Hb.
  repeat split; try reflexivity; auto.
  - intros k v. apply remap_mapped. now left.
  - intros k v. apply remap_mapped. now right.
Qed.

Lemma correct_nomenclature_frame_witness :
  (20 <= length altloc_record)%nat
  /\ slice 16 17 (correct_nomenclature altloc_record) = lit " ".
Proof.
  assert (H : (20 <= length altloc_record)%nat) by (vm_compute; lia).
  split; [exact H|].
  exact (proj1 (proj2 (proj2 (correct_nomenclature_frame altloc_record H)))).
Defined.

(** C8, as stated, fails: with both names unmapped the record still
    changes, because column 16 is overwritten. *)
Lemma correct_nomenclature_overwrites_column_16 :
  dict_mem (slice 12 16 altloc_record) NOMCLA = false
  /\ dict_mem (slice 17 20 altloc_record) NOMCLA_BASE = false
  /\ slice 16 17 altloc_record = lit "A"
  /\ slice 16 17 (correct_nomenclature altloc_record) = lit " "
  /\ correct_nomenclature altloc_record <> altloc_record.
Proof.
  repeat split; try reflexivity. vm_compute. discriminate.
Qed.

(** ** What [int] can read from a four-column field *)

Lemma digit_value_range (c : ascii) (d : Z) :
  digit_value c = Some d -> 0 <= d <= 9.
Proof.
  unfold digit_value.
  destruct (Nat.leb 48 (nat_of_ascii c)) eqn:E1; [|discriminate].
  destruct (Nat.leb (nat_of_ascii c) 57) eqn:E2; [|discriminate].
  apply Nat.leb_le in E1, E2. simpl. intros [= <-]. lia.
Qed.

Lemma parse_digits_bound (s : str) : forall acc b v,
  0 <= acc -> parse_digits acc b s = Some v ->
  0 <= v < (acc + 1) * 10 ^ Z.of_nat (length s).
Proof.
  induction s as [|c s IH]; intros acc b v Hacc H.
  - cbn [parse_digits length] in *. change (Z.of_nat 0) with 0.
    rewrite Z.pow_0_r. destruct b; [injection H as <-; lia | discriminate].
  - cbn [parse_digits] in H. cbn [length].
    rewrite Nat2Z.inj_succ, Z.pow_succ_r by lia.
    assert (Hp : 0 < 10 ^ Z.of_nat (length s)) by (apply Z.pow_pos_nonneg; lia).
    destruct (Ascii.eqb c "_").
    + destruct b; [|discriminate].
      specialize (IH _ _ _ Hacc H). nia.
    + destruct (digit_value c) as [d|] eqn:Ed; [|discriminate].
      apply digit_value_range in Ed.
      apply IH in H; [|lia]. nia.
Qed.

Lemma parse_signed_bound (s : str) (v : Z) :
  parse_signed s = Some v -> (length s <= 4)%nat -> -999 <= v <= 9999.
Proof.
  assert (Hmono : forall m : nat, (m <= 4)%nat -> 10 ^ Z.of_nat m <= 10000).
  { intros m Hm. change 10000 with (10 ^ 4). apply Z.pow_le_mono_r; lia. }
  assert (Hmono3 : forall m : nat, (m <= 3)%nat -> 10 ^ Z.of_nat m <= 1000).
  { intros m Hm. change 1000 with (10 ^ 3). apply Z.pow_le_mono_r; lia. }
  destruct s as [|c s]; [discriminate|].
  cbn [parse_signed length]. intros H Hlen.
  destruct (Ascii.eqb c "-").
  - destruct (parse_digits 0 false s) as [v'|] eqn:E; [|discriminate].
    injection H as <-. apply parse_digits_bound in E; [|lia].
    specialize (Hmono3 (length s) ltac:(lia)). lia.
  - destruct (Ascii.eqb c "+").
    + apply parse_digits_bound in H; [|lia].
      specialize (Hmono3 (length s) ltac:(lia)). lia.
    + apply parse_digits_bound in H; [|lia].
      specialize (Hmono (length (c :: s)) Hlen). lia.
Qed.

Lemma int_lstrip_length (s : str) : (length (int_lstrip s) <= length s)%nat.
Proof.
  induction s as [|c s IH]; simpl; [lia|].
  destruct (is_int_space c); simpl; lia.
Qed.

Lemma int_strip_length (s : str) : (length (int_strip s) <= length s)%nat.
Proof.
  unfold int_strip. rewrite length_rev.
  etransitivity; [apply int_lstrip_length|]. rewrite length_rev.
  apply int_lstrip_length.
Qed.

(** The residue-number field holds four characters, so whatever [int]
    reads from it fits the decimal band of width 4. *)
Lemma py_int_field_range (line : str) (n : Z) :
  py_int (remove_spaces (slice 22 26 line)) = Ok n -> -999 <= n <= 9999.
Proof.
  unfold py_int.
  destruct (parse_signed _) as [v|] eqn:E; [|discriminate].
  intros [= <-]. apply (parse_signed_bound _ _ E).
  etransitivity; [apply int_strip_length|]. unfold remove_spaces.
  etransitivity; [apply filter_length_le|]. unfold slice.
  apply firstn_le_length.
Qed.

Lemma hybrid36_width4 (v : Z) :
  -999 <= v < 2436112 ->
  exists s, number_to_hybrid36_number v 4 = Ok s /\ length s = 4%nat.
Proof.
  intros Hv. apply (hybrid36_in_range 4 ltac:(lia) v).
  change (10 ^ (4 - 1)) with 1000. change (10 ^ 4) with 10000.
  change (36 ^ (4 - 1)) with 46656. lia.
Qed.

Lemma hybrid36_width5 (v : Z) :
  -9999 <= v < 87440032 ->
  exists s, number_to_hybrid36_number v 5 = Ok s /\ length s = 5%nat.
Proof.
  intros Hv. apply (hybrid36_in_range 5 ltac:(lia) v).
  change (10 ^ (5 - 1)) with 10000. change (10 ^ 5) with 100000.
  change (36 ^ (5 - 1)) with 1679616. lia.
Qed.

Lemma hybrid36_width5_length (v : Z) (s : str) :
  number_to_hybrid36_number v 5 = Ok s -> length s = 5%nat.
Proof.
  intros H.
  destruct (Z_lt_dec v (-9999)) as [Hlo|Hlo].
  - rewrite (hybrid36_out_of_range 5 ltac:(lia) v) in H; [discriminate|].
    left. change (10 ^ (5 - 1)) with 10000. lia.
  - destruct (Z_lt_dec v 87440032) as [Hhi|Hhi].
    + destruct (hybrid36_width5 v ltac:(lia)) as (s' & Hs & Hl). congruence.
    + rewrite (hybrid36_out_of_range 5 ltac:(lia) v) in H; [discriminate|].
      right. change (10 ^ 5) with 100000.
      change (36 ^ (5 - 1)) with 1679616. lia.
Qed.

(** ** The renumbering step *)

Lemma chain_line_layout (line : str) (id : ascii) (number : str) (rep : Z) :
  length number = 4%nat ->
  ((21 <= length line)%nat ->
     slice 0 21 (chain_line line id number rep) = slice 0 21 line
     /\ slice 21 22 (chain_line line id number rep) = [id]
     /\ slice 22 26 (chain_line line id number rep) = number)
  /\ ((67 <= length line)%nat ->
      slice 26 67 (chain_line line id number rep) = slice 26 67 line
      /\ slice_from 72 (chain_line line id number rep)
         = id :: rjust 3 "0" (str_of_int rep) ++ slice_from 76 line).
Proof.
  intros Hn. unfold chain_line. generalize (rjust 3 "0" (str_of_int rep)).
  intros label. explode_exact number Hn. split; intros Hlen.
  - explode line Hlen. repeat split; reflexivity.
  - explode line Hlen. repeat split. cbn. now rewrite app_nil_r.
Qed.

(** The three-character label suffix. *)
Lemma from_digits_zeros (m : nat) (l : list Z) :
  from_digits 10 0 (repeat 0 m ++ l) = from_digits 10 0 l.
Proof.
  unfold from_digits. rewrite fold_left_app. f_equal.
  induction m as [|m IH]; [reflexivity | exact IH].
Qed.

Lemma repeat_suffix (rep : Z) :
  0 <= rep < 1000 ->
  length (rjust 3 "0" (str_of_int rep)) = 3%nat
  /\ py_int (rjust 3 "0" (str_of_int rep)) = Ok rep.
Proof.
  intros Hr. unfold str_of_int.
  destruct (Z.ltb_spec rep 0); [lia|].
  destruct (str_of_nonneg_spec 3 rep) as (k & Hk & Hv & E).
  { change (10 ^ Z.of_nat 3) with 1000. lia. }
  rewrite E.
  assert (Hlen : length (map (digit_char digits_decimal) (to_digits 10 (S k) rep)) = S k)
    by now rewrite length_map, to_digits_length.
  split; [apply rjust_length; lia|].
  unfold rjust. rewrite Hlen.
  set (m := (3 - S k)%nat).
  change (repeat "0"%char m)
    with (repeat (digit_char digits_decimal 0) m).
  rewrite <- map_repeat, <- map_app.
  pose proof (to_digits_range 10 (S k) rep ltac:(lia)) as Hd.
  assert (Hall : Forall decimal_digit (repeat 0 m ++ to_digits 10 (S k) rep)).
  { apply Forall_app. split; [|exact Hd].
    apply Forall_forall. intros x Hx. apply repeat_spec in Hx. subst.
    unfold decimal_digit. lia. }
  assert (Hne : repeat 0 m ++ to_digits 10 (S k) rep <> []).
  { intros Hnil. apply (f_equal (@length Z)) in Hnil.
    rewrite length_app, to_digits_length in Hnil. simpl in Hnil. lia. }
  unfold py_int, int_strip.
  rewrite int_lstrip_digits by exact Hall.
  rewrite <- map_rev, int_lstrip_digits by (apply Forall_rev; exact Hall).
  rewrite map_rev, rev_involutive.
  destruct (repeat 0 m ++ to_digits 10 (S k) rep) as [|d l] eqn:El;
    [congruence|].
  inversion Hall; subst.
  destruct (digit_value_decimal d H2) as (_ & _ & Hm & Hp & _).
  cbn [map parse_signed]. rewrite Hm, Hp.
  change (digit_char digits_decimal d :: map (digit_char digits_decimal) l)
    with (map (digit_char digits_decimal) (d :: l)).
  rewrite parse_digits_decimal by (auto; left; discriminate).
  rewrite <- El, from_digits_zeros, from_to_digits by lia. f_equal.
Qed.

Lemma increase_chain_id_spec (i : nat) (c : ascii) :
  nth_error possible_chain_ids i = Some c ->
  increase_chain_id c
    = Ok (nth (if Nat.eqb i 25 then 1%nat else S i) possible_chain_ids "A"%char)
  /\ Ascii.eqb c "Z" = Nat.eqb i 25
  /\ nth (if Nat.eqb i 25 then 1%nat else S i) possible_chain_ids "A"%char
     <> "A"%char.
Proof.
  intros H.
  do 26 (destruct i as [|i];
         [injection H as <-; repeat split; vm_compute; discriminate |]).
  destruct i; discriminate.
Qed.

(** C5 (as amended).  A record whose segment identifier is the one last
    seen and whose residue field reads [n] keeps the chain letter and the
    repeat counter; its output residue number [new] and its terminator
    mark are
    - the last output number and no terminator when [n] is the last input
      number;
    - the last output number plus 1 and no terminator when [n] is one more;
    - the last output number plus 10 and a terminator otherwise.
    Without [reset_numbers] the step always returns and the residue columns
    [22,26) hold the code of [n]; with [reset_numbers] they hold the code of
    [new], and the step returns exactly while [new] is in the range of the
    four-column field, from -999 to 2436111: beyond it the step raises
    [ValueError]. *)
Theorem same_segment_renumbering (line : str) (reset : bool)
    (cur : Current.t) (n : Z)
    (Hseg : Current.chain cur = Some (slice 72 76 line))
    (Hint : py_int (remove_spaces (slice 22 26 line)) = Ok n) :
  let old := Current.old_molecule_number cur in
  let last := Current.last_molecule_number cur in
  exists (new : Z) (is_ter : bool),
    (n = old -> new = last /\ is_ter = false)
    /\ (n = old + 1 -> new = last + 1 /\ is_ter = false)
    /\ (n <> old -> n <> old + 1 -> new = last + 10 /\ is_ter = true)
    /\ (reset = false
        \/ 1 - 10 ^ (4 - 1) <= new < 10 ^ 4 + 2 * 26 * 36 ^ (4 - 1) ->
        exists number : str,
          correct_molecule_chain line reset cur
          = Ok (chain_line line (Current.chain_id cur) number
                           (Current.chain_id_repeats cur),
                is_ter,
                Current.mk (Current.atom_number cur) n new
                           (Current.chain_id cur)
                           (Current.chain_id_repeats cur)
                           (Some (slice 72 76 line)))
          /\ number_to_hybrid36_number (if reset then new else n) 4
             = Ok number
          /\ ((21 <= length line)%nat ->
              slice 21 22 (chain_line line (Current.chain_id cur) number
                                      (Current.chain_id_repeats cur))
              = [Current.chain_id cur]
              /\ slice 22 26 (chain_line line (Current.chain_id cur) number
                                         (Current.chain_id_repeats cur))
                 = number))
    /\ (reset = true ->
        new < 1 - 10 ^ (4 - 1) \/ 10 ^ 4 + 2 * 26 * 36 ^ (4 - 1) <= new ->
        correct_molecule_chain line reset cur = Err ValueError).
Proof.
  intros old last.
  set (new := if n =? old then last
              else if n =? old + 1 then last + 1 else last + 10).
  set (is_ter := negb (n =? old) && negb (n =? old + 1)).
  pose proof (py_int_field_range line n Hint) as Hn.
  assert (Hstep : forall r : outcome str,
            (if reset then number_to_hybrid36_number new 4
             else number_to_hybrid36_number n 4) = r ->
            correct_molecule_chain line reset cur
            = (number <- r ;;
               Ok (chain_line line (Current.chain_id cur) number
                              (Current.chain_id_repeats cur),
                   is_ter,
                   Current.mk (Current.atom_number cur) n new
                              (Current.chain_id cur)
                              (Current.chain_id_repeats cur)
                              (Some (slice 72 76 line))))).
  { intros r Hr. unfold correct_molecule_chain. rewrite Hint. cbn [bind].
    rewrite Hseg, str_eqb_refl. fold old last.
    unfold new, is_ter in *.
    destruct (n =? old); cbn [bind negb andb].
    - rewrite Hr. reflexivity.
    - destruct (n =? old + 1); cbn [bind negb andb]; rewrite Hr; reflexivity. }
  exists new, is_ter. unfold new at 1 2 3, is_ter at 1 2 3.
  split; [|split; [|split; [|split]]].
  - intros ->. now rewrite Z.eqb_refl.
  - intros ->. destruct (Z.eqb_spec (old + 1) old); [lia|].
    now rewrite Z.eqb_refl.
  - intros H1 H2. destruct (Z.eqb_spec n old); [contradiction|].
    destruct (Z.eqb_spec n (old + 1)); [contradiction | now split].
  - intros Hfit.
    destruct (hybrid36_width4 (if reset then new else n))
      as (number & Hnum & Hl4).
    { change (10 ^ (4 - 1)) with 1000 in Hfit.
      change (10 ^ 4) with 10000 in Hfit.
      change (36 ^ (4 - 1)) with 46656 in Hfit.
      destruct reset; [destruct Hfit as [Hf | Hf]; [discriminate Hf | lia]
                      | lia]. }
    exists number. split; [|split; [exact Hnum|]].
    + rewrite (Hstep (Ok number)); [reflexivity|]. now destruct reset.
    + intros Hlen. split;
        now apply (chain_line_layout line _ number _ Hl4).
  - intros -> Hout. rewrite (Hstep (Err ValueError)); [reflexivity|].
    apply hybrid36_out_of_range; [lia|].
    destruct Hout as [Hlo | Hhi]; [now left | right; lia].
Qed.

Lemma same_segment_renumbering_witness :
  exists new is_ter number,
    correct_molecule_chain rec_S1_6_C true in_segment_S1
    = Ok (chain_line rec_S1_6_C "A" number 1, is_ter,
          Current.mk 3 6 new "A" 1 (Some (lit "S1  ")))
    /\ new = 2 /\ is_ter = false
    /\ slice 22 26 (chain_line rec_S1_6_C "A" number 1) = lit "   2".
Proof.
  destruct (same_segment_renumbering rec_S1_6_C true in_segment_S1 6
              eq_refl eq_refl)
    as (new & t & _ & Hnext & _ & Hret & _).
  destruct (Hnext eq_refl) as (Hnew & Ht).
  destruct Hret as (number & Hrun & Hnum & Hcol).
  { right. rewrite Hnew. vm_compute. split; [discriminate | reflexivity]. }
  exists new, t, number. split; [exact Hrun|]. split; [exact Hnew|].
  split; [exact Ht|].
  assert (Hlen : (21 <= length rec_S1_6_C)%nat) by (vm_compute; lia).
  transitivity number; [exact (proj2 (Hcol Hlen))|].
  rewrite Hnew in Hnum. vm_compute in Hnum. now injection Hnum as <-.
Defined.

(** C5, as stated, fails at the end of the range of the residue field: with
    the last output number at 2436105 a record of the same segment after a
    numbering gap (input residue 7 after 5) gets no output number and no
    terminator, the step raises [ValueError]; a record of the same residue
    still returns, with the code [zzzt]. *)
Lemma residue_gap_past_range_raises :
  current_ok in_segment_S1_near_end
  /\ Current.chain in_segment_S1_near_end = Some (slice 72 76 rec_S1_7_CA)
  /\ py_int (remove_spaces (slice 22 26 rec_S1_7_CA)) = Ok 7
  /\ Current.old_molecule_number in_segment_S1_near_end = 5
  /\ correct_molecule_chain rec_S1_7_CA true in_segment_S1_near_end
     = Err ValueError
  /\ exists l cur',
       correct_molecule_chain rec_S1_5_O true in_segment_S1_near_end
       = Ok (l, false, cur')
       /\ slice 22 26 l = lit "zzzt".
Proof.
  split; [repeat split; try (simpl; lia); now exists 0%nat|].
  split; [reflexivity|]. split; [reflexivity|]. split; [reflexivity|].
  split; [vm_compute; reflexivity|].
  do 2 eexists. split; vm_compute; reflexivity.
Qed.

(** From 1000 on the label suffix is the plain numeral, of more than three
    digits. *)
Lemma repeat_suffix_long (rep : Z) :
  1000 <= rep ->
  rjust 3 "0" (str_of_int rep) = str_of_int rep
  /\ (4 <= length (str_of_int rep))%nat.
Proof.
  intros Hr. unfold str_of_int.
  destruct (Z.ltb_spec rep 0); [lia|].
  destruct (str_of_nonneg_spec (Z.to_nat rep) rep) as (k & _ & Hv & E).
  { rewrite Z2Nat.id by lia. pose proof (Z.pow_gt_lin_r 10 rep). lia. }
  assert (Hk : (3 <= k)%nat).
  { destruct (Nat.le_gt_cases 3 k) as [Hle | Hgt]; [exact Hle|].
    exfalso.
    assert (10 ^ Z.of_nat (S k) <= 10 ^ 3)
      by (apply Z.pow_le_mono_r; lia).
    change (10 ^ 3) with 1000 in *. lia. }
  assert (Hlen : length (str_of_nonneg rep) = S k)
    by now rewrite E, length_map, to_digits_length.
  split; [|lia]. unfold rjust. rewrite Hlen.
  replace (3 - S k)%nat with 0%nat by lia. reflexivity.
Qed.

Lemma chain_line_length (line : str) (id : ascii) (number : str) (rep : Z) :
  length number = 4%nat -> (76 <= length line)%nat ->
  length (chain_line line id number rep)
  = (length line + length (rjust 3 "0" (str_of_int rep)) - 3)%nat.
Proof.
  intros Hn Hlen. unfold chain_line, join, slice, slice_from.
  cbn [concat]. rewrite !length_app, !length_firstn, !length_skipn, Hn.
  rewrite repeat_length. cbn [length]. lia.
Qed.

(** C6 (as amended).  A record whose segment identifier differs from the
    one last seen, whose residue field reads [n], on a state whose chain
    letter is the [i]-th letter of the alphabet: the step returns and marks
    a terminator, the output residue number is 1, the chain letter becomes
    the next letter, or ['B'] after ['Z'] (never ['A']), and the repeat
    counter grows by one exactly when the letter was ['Z'].  In the new
    record the chain column holds the new letter, the residue columns the
    encoded number (["   1"] under [reset_numbers]), and the label from
    column 72 on is the new letter followed by the repeat counter padded
    with zeros to at least three digits: exactly three while the counter is
    below 1000; from 1000 on it is the plain numeral of four or more
    digits, and the record is longer than the input record by the digits
    beyond the third. *)
Theorem new_segment_renumbering (line : str) (reset : bool)
    (cur : Current.t) (n : Z) (previous : str) (i : nat)
    (Hseg : Current.chain cur = Some previous)
    (Hdiff : slice 72 76 line <> previous)
    (Hint : py_int (remove_spaces (slice 22 26 line)) = Ok n)
    (Hid : nth_error possible_chain_ids i = Some (Current.chain_id cur)) :
  exists (next : ascii) (repeats : Z) (number : str),
    correct_molecule_chain line reset cur
    = Ok (chain_line line next number repeats, true,
          Current.mk (Current.atom_number cur) n 1 next repeats
                     (Some (slice 72 76 line)))
    /\ number_to_hybrid36_number (if reset then 1 else n) 4 = Ok number
    /\ (reset = true -> number = lit "   1")
    /\ next <> "A"%char
    /\ ((i < 25)%nat -> nth_error possible_chain_ids (S i) = Some next
                        /\ repeats = Current.chain_id_repeats cur)
    /\ (Current.chain_id cur = "Z"%char ->
        next = "B"%char /\ repeats = Current.chain_id_repeats cur + 1)
    /\ ((67 <= length line)%nat ->
        slice 21 22 (chain_line line next number repeats) = [next]
        /\ slice 22 26 (chain_line line next number repeats) = number
        /\ slice_from 72 (chain_line line next number repeats)
           = next :: rjust 3 "0" (str_of_int repeats) ++ slice_from 76 line)
    /\ (0 <= repeats < 1000 ->
        length (rjust 3 "0" (str_of_int repeats)) = 3%nat
        /\ py_int (rjust 3 "0" (str_of_int repeats)) = Ok repeats)
    /\ (1000 <= repeats ->
        rjust 3 "0" (str_of_int repeats) = str_of_int repeats
        /\ (4 <= length (str_of_int repeats))%nat)
    /\ ((76 <= length line)%nat ->
        length (chain_line line next number repeats)
        = (length line + length (rjust 3 "0" (str_of_int repeats)) - 3)%nat).
Proof.
  destruct (increase_chain_id_spec i _ Hid) as (Hinc & HZ & HA).
  set (next := nth (if Nat.eqb i 25 then 1%nat else S i)
                   possible_chain_ids "A"%char) in *.
  set (repeats := if Nat.eqb i 25 then Current.chain_id_repeats cur + 1
                  else Current.chain_id_repeats cur).
  pose proof (py_int_field_range line n Hint) as Hn.
  destruct (hybrid36_width4 (if reset then 1 else n)) as (number & Hnum & Hl4);
    [destruct reset; lia|].
  assert (Hi : (i < 26)%nat).
  { change 26%nat with (length possible_chain_ids).
    apply nth_error_Some. rewrite Hid. discriminate. }
  exists next, repeats, number.
  split; [|split; [exact Hnum|]]; [|repeat split].
  - unfold correct_molecule_chain. rewrite Hint. cbn [bind].
    rewrite Hseg. rewrite (proj2 (str_eqb_neq _ _) Hdiff).
    rewrite Hinc, HZ. cbn [bind]. fold repeats.
    assert (Henc : (if reset then number_to_hybrid36_number 1 4
                    else number_to_hybrid36_number n 4) = Ok number)
      by (destruct reset; exact Hnum).
    rewrite Henc. reflexivity.
  - intros ->. vm_compute in Hnum. now injection Hnum as <-.
  - exact HA.
  - unfold next. replace (Nat.eqb i 25) with false
      by (symmetry; apply Nat.eqb_neq; lia).
    apply nth_error_nth'. change (length possible_chain_ids) with 26%nat. lia.
  - unfold repeats. now replace (Nat.eqb i 25) with false
      by (symmetry; apply Nat.eqb_neq; lia).
  - unfold next. rewrite H in HZ. now rewrite <- HZ.
  - unfold repeats. rewrite H in HZ. now rewrite <- HZ.
  - now apply (chain_line_layout line next number repeats Hl4); lia.
  - now apply (chain_line_layout line next number repeats Hl4); lia.
  - now apply (chain_line_layout line next number repeats Hl4).
  - now apply repeat_suffix.
  - now apply repeat_suffix.
  - now apply repeat_suffix_long.
  - now apply repeat_suffix_long.
  - now apply chain_line_length.
Qed.

Lemma new_segment_renumbering_witness :
  exists next repeats number,
    correct_molecule_chain rec_S2_1_H true in_segment_S1_at_Z
    = Ok (chain_line rec_S2_1_H next number repeats, true,
          Current.mk 3 1 1 next repeats (Some (lit "S2  ")))
    /\ next = "B"%char /\ repeats = 2 /\ number = lit "   1"
    /\ slice_from 72 (chain_line rec_S2_1_H next number repeats)
       = lit "B002" ++ slice_from 76 rec_S2_1_H.
Proof.
  assert (Hdiff : slice 72 76 rec_S2_1_H <> lit "S1  ")
    by (vm_compute; discriminate).
  destruct (new_segment_renumbering rec_S2_1_H true in_segment_S1_at_Z 1
              (lit "S1  ") 25 eq_refl Hdiff eq_refl eq_refl)
    as (next & repeats & number & Hrun & _ & Hone & _ & _ & HZ & Hcol & _).
  destruct (HZ eq_refl) as (Hnext & Hrep).
  exists next, repeats, number. split; [exact Hrun|].
  split; [exact Hnext|]. split; [exact Hrep|]. split; [exact (Hone eq_refl)|].
  assert (Hlen : (67 <= length rec_S2_1_H)%nat) by (vm_compute; lia).
  destruct (Hcol Hlen) as (_ & _ & Hlabel).
  transitivity (next :: rjust 3 "0" (str_of_int repeats)
                ++ slice_from 76 rec_S2_1_H); [exact Hlabel|].
  rewrite Hnext, Hrep. reflexivity.
Defined.

(** C6, as stated, fails once the repeat counter has reached 999: the next
    wrap from ['Z'] gives the label [B1000], whose suffix has four digits,
    and a record one column longer than the input record. *)
Lemma label_suffix_outgrows_three_digits :
  current_ok in_segment_S1_at_Z_999
  /\ exists l cur',
       correct_molecule_chain rec_S2_1_H true in_segment_S1_at_Z_999
       = Ok (l, true, cur')
       /\ Current.chain_id cur' = "B"%char
       /\ Current.chain_id_repeats cur' = 1000
       /\ slice_from 72 l = lit "B1000" ++ slice_from 76 rec_S2_1_H
       /\ length l = S (length rec_S2_1_H).
Proof.
  split; [repeat split; try (simpl; lia); now exists 25%nat|].
  do 2 eexists. split; [vm_compute; reflexivity|].
  repeat split.
Qed.

(** ** One pass over the records *)

Lemma bind_ok {A B} (m : outcome A) (k : A -> outcome B) (b : B) :
  bind m k = Ok b -> exists a, m = Ok a /\ k a = Ok b.
Proof. destruct m as [a|e]; simpl; intros H; [now exists a | discriminate]. Qed.

Lemma is_atom_record_tagged (l : str) : is_atom_record l = true <-> tagged l.
Proof.
  unfold is_atom_record, tagged. rewrite str_eqb_eq. split.
  - intros H. do 6 (destruct l as [|? l]; [discriminate H|]).
    cbn in H. injection H as -> -> -> -> -> ->. now exists l.
  - intros (rest & ->). reflexivity.
Qed.

Lemma numbered_serial (k : Z) (l : str) :
  numbered k l ->
  is_atom_record l = true
  /\ number_to_hybrid36_number k 5 = Ok (slice 6 11 l).
Proof.
  intros (s & rest & Hs & ->).
  pose proof (hybrid36_width5_length k s Hs) as Hl.
  split; [reflexivity|]. rewrite Hs. f_equal.
  explode_exact s Hl. reflexivity.
Qed.

Lemma tagged_nomenclature (l : str) : tagged l -> tagged (correct_nomenclature l).
Proof.
  intros (rest & ->). rewrite correct_nomenclature_remap.
  eexists. cbn. reflexivity.
Qed.

Lemma tagged_chain_line (l : str) id number rep :
  tagged l -> tagged (chain_line l id number rep).
Proof. intros (rest & ->). eexists. cbn. reflexivity. Qed.

(** What a returning [correct_molecule_chain] leaves behind. *)
Lemma correct_molecule_chain_inv (line : str) (reset : bool)
    (cur : Current.t) (l : str) (t : bool) (cur' : Current.t) :
  correct_molecule_chain line reset cur = Ok (l, t, cur') ->
  (exists id number rep, l = chain_line line id number rep)
  /\ Current.atom_number cur' = Current.atom_number cur
  /\ Current.chain cur' = Some (slice 72 76 line).
Proof.
  unfold correct_molecule_chain. intros H.
  apply bind_ok in H. destruct H as (n & _ & H).
  apply bind_ok in H. destruct H as ([[[id new] ter] rep] & _ & H).
  apply bind_ok in H. destruct H as (number & _ & H).
  injection H as <- <- <-.
  split; [now exists id, number, rep | split; reflexivity].
Qed.

Lemma correct_atom_number_inv (line : str) (cur : Current.t)
    (l : str) (cur' : Current.t) :
  tagged line -> correct_atom_number line cur = Ok (l, cur') ->
  numbered (Current.atom_number cur) l
  /\ Current.atom_number cur' = Current.atom_number cur + 1
  /\ Current.chain cur' = Current.chain cur.
Proof.
  intros (rest & ->) H. unfold correct_atom_number in H.
  apply bind_ok in H. destruct H as (s & Hs & H). injection H as <- <-.
  split; [|split; reflexivity].
  exists s, (skipn 5 rest). split; [exact Hs|].
  cbn. now rewrite app_nil_r.
Qed.

Lemma numbered_occupancy (k : Z) (l : str) :
  numbered k l -> numbered k (correct_occupancy l).
Proof.
  intros (s & rest & Hs & ->).
  pose proof (hybrid36_width5_length k s Hs) as Hl.
  exists s. explode_exact s Hl. eexists. split; [exact Hs|].
  unfold correct_occupancy. cbn. reflexivity.
Qed.

Lemma numbered_atomtype (k : Z) (l l' : str) :
  numbered k l -> correct_atomtype l = Ok l' -> numbered k l'.
Proof.
  intros (s & rest & Hs & ->) H.
  pose proof (hybrid36_width5_length k s Hs) as Hl.
  unfold correct_atomtype in H.
  apply bind_ok in H. destruct H as (c1 & _ & H).
  apply bind_ok in H. destruct H as (atom & _ & H).
  injection H as <-.
  exists s. explode_exact s Hl. eexists. split; [exact Hs|].
  cbn. reflexivity.
Qed.

(** The corrections of one record, with atom numbering enabled: the counter
    advances by one, and the record comes out numbered with the old counter
    value unless hydrogen removal emptied it. *)
Lemma correct_atom_line_numbered (logic : Logic.t) (line : str)
    (t : option bool) (cur : Current.t)
    (l : str) (t' : option bool) (cur' : Current.t) :
  Logic.atom_number logic = true -> tagged line ->
  correct_atom_line logic line t cur = Ok (l, t', cur') ->
  Current.atom_number cur' = Current.atom_number cur + 1
  /\ ((l = [] /\ Logic.remove_H logic = true)
      \/ numbered (Current.atom_number cur) l).
Proof.
  intros Han Htag H. unfold correct_atom_line in H. rewrite Han in H.
  assert (H1 : tagged (if Logic.nomenclature logic
                       then correct_nomenclature line else line))
    by (destruct (Logic.nomenclature logic); auto using tagged_nomenclature).
  set (l1 := if Logic.nomenclature logic then correct_nomenclature line
             else line) in *.
  apply bind_ok in H. destruct H as ([[l2 t2] c2] & H2 & H).
  assert (H2' : tagged l2 /\ Current.atom_number c2 = Current.atom_number cur).
  { destruct (Logic.molecule_chain logic).
    - apply bind_ok in H2. destruct H2 as ([[l2' t2'] c2'] & Hc & H2).
      injection H2 as <- <- <-.
      apply correct_molecule_chain_inv in Hc.
      destruct Hc as ((id & number & rep & ->) & Hc & _).
      split; [now apply tagged_chain_line | exact Hc].
    - injection H2 as <- <- <-. now split. }
  destruct H2' as (Htag2 & Hc2).
  apply bind_ok in H. destruct H as ([l3 c3] & H3 & H).
  apply (correct_atom_number_inv _ _ _ _ Htag2) in H3.
  destruct H3 as (Hnum & Hc3 & _). rewrite Hc2 in *.
  assert (H4 : numbered (Current.atom_number cur)
                 (if Logic.occupancy logic then correct_occupancy l3 else l3))
    by (destruct (Logic.occupancy logic); auto using numbered_occupancy).
  set (l4 := if Logic.occupancy logic then correct_occupancy l3 else l3) in *.
  apply bind_ok in H. destruct H as (l5 & H5 & H).
  assert (H5' : numbered (Current.atom_number cur) l5).
  { destruct (Logic.atomtype logic).
    - eapply numbered_atomtype; eauto.
    - now injection H5 as <-. }
  injection H as <- <- <-. split; [exact Hc3|].
  destruct (Logic.remove_H logic); [|now right].
  unfold remove_H. destruct (char_in "H" (slice 12 16 l5)); [now left | now right].
Qed.

(** The three ways a record goes through one turn of the loop. *)
Lemma is_processed_not_title (line : str) :
  is_atom_record line = true ->
  str_in_list (slice 0 6 line) [lit "TITLE "; lit "CRYST1"] = false.
Proof.
  unfold is_atom_record. rewrite str_eqb_eq. intros ->. reflexivity.
Qed.

Lemma title_not_atom_record (line : str) :
  str_in_list (slice 0 6 line) [lit "TITLE "; lit "CRYST1"] = true ->
  is_atom_record line = false.
Proof.
  intros H. destruct (is_atom_record line) eqn:E; [|reflexivity].
  now rewrite (is_processed_not_title line E) in H.
Qed.

Lemma correct_pdb_line_processed (logic : Logic.t) (line : str)
    (body : list str) (t : option bool) (cur : Current.t) :
  is_processed line = true ->
  correct_pdb_line logic line (body, t, cur)
  = ('(l, t', cur') <- correct_atom_line logic line t cur ;;
     match t' with
     | None => Err UnboundLocalError
     | Some b => Ok ((if b then body ++ [TER] else body) ++ [l], t', cur')
     end).
Proof.
  unfold is_processed. intros H. apply andb_prop in H. destruct H as (Ha & Hb).
  unfold correct_pdb_line. rewrite (is_processed_not_title line Ha).
  unfold is_atom_record in Ha. rewrite Ha, Hb. reflexivity.
Qed.

Lemma correct_pdb_line_skipped (logic : Logic.t) (line : str) (st : pass_state) :
  is_processed line = false ->
  str_in_list (slice 0 6 line) [lit "TITLE "; lit "CRYST1"] = false ->
  correct_pdb_line logic line st = Ok st.
Proof.
  unfold is_processed, is_atom_record. intros H Ht.
  unfold correct_pdb_line. destruct st as [[body t] cur]. rewrite Ht.
  destruct (str_eqb (slice 0 6 line) (lit "ATOM  ")); [|reflexivity].
  cbn [andb] in H. now rewrite H.
Qed.

Lemma correct_pdb_line_title (logic : Logic.t) (line : str)
    (body : list str) (t : option bool) (cur : Current.t) :
  str_in_list (slice 0 6 line) [lit "TITLE "; lit "CRYST1"] = true ->
  correct_pdb_line logic line (body, t, cur) = Ok (body ++ [line], t, cur).
Proof. intros H. unfold correct_pdb_line. now rewrite H. Qed.

Lemma serials_app (a b : list str) : serials (a ++ b) = serials a ++ serials b.
Proof. unfold serials. now rewrite filter_app, map_app. Qed.

Lemma consecutive_bounds (n : nat) : forall a,
  Forall (fun k => a <= k < a + Z.of_nat n) (consecutive a n)
  /\ StronglySorted Z.lt (consecutive a n).
Proof.
  induction n as [|n IH]; intros a; simpl consecutive; [split; constructor|].
  destruct (IH (a + 1)) as (Hb & Hs). split.
  - constructor; [lia|]. eapply Forall_impl; [|exact Hb]. simpl. lia.
  - constructor; [exact Hs|]. eapply Forall_impl; [|exact Hb]. simpl. lia.
Qed.

(** The serials a run of the loop adds to the body. *)
Lemma correct_pdb_loop_serials (logic : Logic.t) (pdb_file : list str) :
  Logic.atom_number logic = true ->
  forall body t cur body' t' cur',
    correct_pdb_loop logic pdb_file (body, t, cur) = Ok (body', t', cur') ->
    Current.atom_number cur'
    = Current.atom_number cur + Z.of_nat (length (processed pdb_file))
    /\ exists ks,
         Forall2 (fun k s => number_to_hybrid36_number k 5 = Ok s)
                 ks (skipn (length (serials body)) (serials body'))
         /\ firstn (length (serials body)) (serials body') = serials body
         /\ StronglySorted Z.lt ks
         /\ Forall (fun k => Current.atom_number cur <= k
                             < Current.atom_number cur') ks
         /\ (Logic.remove_H logic = false ->
             ks = consecutive (Current.atom_number cur)
                              (length (processed pdb_file))).
Proof.
  intros Han. induction pdb_file as [|line rest IH];
    intros body t cur body' t' cur' H.
  - injection H as <- <- <-. split; [simpl; lia|]. exists [].
    rewrite skipn_all, firstn_all. repeat split; constructor.
  - cbn [correct_pdb_loop] in H. apply bind_ok in H.
    destruct H as ([[body1 t1] cur1] & Hline & Hrest).
    specialize (IH _ _ _ _ _ _ Hrest).
    destruct IH as (Hcount & ks & Hks & Hpre & Hsorted & Hrange & Hcons).
    unfold processed in *. cbn [filter].
    destruct (is_processed line) eqn:Ep.
    + rewrite correct_pdb_line_processed in Hline by exact Ep.
      apply bind_ok in Hline. destruct Hline as ([[l t2] c2] & Hatom & Hline).
      assert (Htag : tagged line).
      { apply is_atom_record_tagged. unfold is_processed in Ep.
        now apply andb_prop in Ep. }
      destruct (correct_atom_line_numbered _ _ _ _ _ _ _ Han Htag Hatom)
        as (Hc2 & Hl).
      destruct t2 as [b|]; [|discriminate]. injection Hline as <- <- <-.
      cbn [length]. split; [lia|].
      assert (Hter : serials (if b then body ++ [TER] else body) = serials body).
      { destruct b; [|reflexivity]. rewrite serials_app. apply app_nil_r. }
      rewrite serials_app, Hter in *.
      destruct Hl as [[-> Hrem] | Hnum].
      * (* the record was emptied by hydrogen removal *)
        change (serials [[]]) with (@nil str) in *. rewrite app_nil_r in *.
        exists ks. repeat split; auto.
        -- eapply Forall_impl; [|exact Hrange]. simpl. lia.
        -- intros Hf. congruence.
      * destruct (numbered_serial _ _ Hnum) as (Hrec & Hser).
        assert (Hone : serials [l] = [slice 6 11 l]).
        { unfold serials. cbn [filter]. now rewrite Hrec. }
        rewrite Hone, length_app in *. cbn [length] in *.
        assert (Hsplit : serials body'
                         = serials body ++ [slice 6 11 l]
                           ++ skipn (length (serials body) + 1) (serials body')).
        { rewrite <- (firstn_skipn (length (serials body) + 1) (serials body'))
            at 1. rewrite Hpre. now rewrite <- app_assoc. }
        exists (Current.atom_number cur :: ks).
        rewrite Hsplit at 1 2.
        rewrite skipn_app, skipn_all, Nat.sub_diag. cbn [skipn app].
        rewrite firstn_app, firstn_all, Nat.sub_diag. cbn [firstn].
        rewrite app_nil_r.
        repeat split.
        -- constructor; [exact Hser | exact Hks].
        -- constructor; [exact Hsorted|].
           eapply Forall_impl; [|exact Hrange]. simpl. lia.
        -- constructor; [lia|].
           eapply Forall_impl; [|exact Hrange]. simpl. lia.
        -- intros Hf. cbn [consecutive]. rewrite (Hcons Hf). now rewrite Hc2.
    + assert (Hstep : (body1 = body \/ (body1 = body ++ [line]
                                        /\ is_atom_record line = false))
                      /\ cur1 = cur).
      { destruct (str_in_list (slice 0 6 line) [lit "TITLE "; lit "CRYST1"])
          eqn:Et.
        - rewrite correct_pdb_line_title in Hline by exact Et.
          injection Hline as <- <- <-. split; [right|reflexivity].
          split; [reflexivity | now apply title_not_atom_record].
        - rewrite correct_pdb_line_skipped in Hline by assumption.
          injection Hline as <- <- <-. split; [now left | reflexivity]. }
      destruct Hstep as (Hbody & ->).
      assert (Hser : serials body1 = serials body).
      { destruct Hbody as [-> | [-> Hna]]; [reflexivity|].
        rewrite serials_app. unfold serials at 2. cbn [filter].
        rewrite Hna. apply app_nil_r. }
      rewrite Hser in *. split; [exact Hcount|]. exists ks. now repeat split.
Qed.

(** ** The state across passes *)

Lemma correct_atom_number_chain (line : str) (cur : Current.t)
    (l : str) (cur' : Current.t) :
  correct_atom_number line cur = Ok (l, cur') ->
  Current.chain cur' = Current.chain cur.
Proof.
  unfold correct_atom_number. intros H.
  apply bind_ok in H. destruct H as (s & _ & H). now injection H as <- <-.
Qed.

(** With renumbering enabled a corrected record leaves [is_ter] assigned and
    a segment identifier remembered. *)
Lemma correct_atom_line_chain (logic : Logic.t) (line : str)
    (t : option bool) (cur : Current.t)
    (l : str) (t' : option bool) (cur' : Current.t) :
  Logic.molecule_chain logic = true ->
  correct_atom_line logic line t cur = Ok (l, t', cur') ->
  Current.chain cur' <> None /\ exists b, t' = Some b.
Proof.
  intros Hmc H. unfold correct_atom_line in H. rewrite Hmc in H.
  apply bind_ok in H. destruct H as ([[l2 t2] c2] & H2 & H).
  apply bind_ok in H2. destruct H2 as ([[l2' b] c2'] & Hc & H2).
  injection H2 as <- <- <-.
  apply correct_molecule_chain_inv in Hc. destruct Hc as (_ & _ & Hchain).
  apply bind_ok in H. destruct H as ([l3 c3] & H3 & H).
  assert (Hc3 : Current.chain c3 = Current.chain c2').
  { destruct (Logic.atom_number logic).
    - now apply correct_atom_number_chain in H3.
    - now injection H3 as <- <-. }
  apply bind_ok in H. destruct H as (l5 & _ & H).
  injection H as <- <- <-.
  split; [congruence | now exists b].
Qed.

(** With renumbering disabled nothing assigns [is_ter]. *)
Lemma correct_atom_line_no_chain (logic : Logic.t) (line : str)
    (t : option bool) (cur : Current.t)
    (l : str) (t' : option bool) (cur' : Current.t) :
  Logic.molecule_chain logic = false ->
  correct_atom_line logic line t cur = Ok (l, t', cur') -> t' = t.
Proof.
  intros Hmc H. unfold correct_atom_line in H. rewrite Hmc in H.
  cbn [bind] in H.
  apply bind_ok in H. destruct H as ([l3 c3] & _ & H).
  apply bind_ok in H. destruct H as (l5 & _ & H).
  now injection H as <- <- <-.
Qed.

(** A file without processed records goes through untouched: its title
    records are copied, nothing else happens. *)
Lemma correct_pdb_loop_nothing_processed (logic : Logic.t)
    (pdb_file : list str) : forall body t cur,
  processed pdb_file = [] ->
  correct_pdb_loop logic pdb_file (body, t, cur)
  = Ok (body ++ filter is_title pdb_file, t, cur).
Proof.
  induction pdb_file as [|line rest IH]; intros body t cur Hp.
  - simpl. now rewrite app_nil_r.
  - unfold processed in Hp. cbn [filter] in Hp.
    destruct (is_processed line) eqn:Ep; [discriminate|].
    cbn [correct_pdb_loop filter]. destruct (is_title line) eqn:Et.
    + rewrite correct_pdb_line_title by exact Et. cbn [bind].
      rewrite (IH _ _ _ Hp). now rewrite <- app_assoc.
    + rewrite correct_pdb_line_skipped by assumption. cbn [bind].
      now apply IH.
Qed.

Lemma correct_pdb_loop_chain (logic : Logic.t) (pdb_file : list str) :
  Logic.molecule_chain logic = true ->
  forall body t cur body' t' cur',
    correct_pdb_loop logic pdb_file (body, t, cur) = Ok (body', t', cur') ->
    Current.chain cur <> None \/ processed pdb_file <> [] ->
    Current.chain cur' <> None.
Proof.
  intros Hmc. induction pdb_file as [|line rest IH];
    intros body t cur body' t' cur' H Hor.
  - injection H as <- <- <-. destruct Hor as [Hc | Hp]; [exact Hc | now contradiction Hp].
  - cbn [correct_pdb_loop] in H. apply bind_ok in H.
    destruct H as ([[body1 t1] cur1] & Hline & Hrest).
    apply (IH _ _ _ _ _ _ Hrest).
    unfold processed in *. cbn [filter] in Hor.
    destruct (is_processed line) eqn:Ep.
    + left. rewrite correct_pdb_line_processed in Hline by exact Ep.
      apply bind_ok in Hline. destruct Hline as ([[l t2] c2] & Hatom & Hline).
      destruct (correct_atom_line_chain _ _ _ _ _ _ _ Hmc Hatom) as (Hc & b & ->).
      now injection Hline as <- <- <-.
    + assert (cur1 = cur) as ->; [|exact Hor].
      destruct (is_title line) eqn:Et.
      * rewrite correct_pdb_line_title in Hline by exact Et.
        now injection Hline as <- <- <-.
      * rewrite correct_pdb_line_skipped in Hline by assumption.
        now injection Hline as <- <- <-.
Qed.

(** With renumbering disabled, the first processed record stops the pass. *)
Lemma correct_pdb_loop_unbound (logic : Logic.t) (pdb_file : list str) :
  Logic.molecule_chain logic = false -> processed pdb_file <> [] ->
  forall body cur,
    exists e, correct_pdb_loop logic pdb_file (body, None, cur) = Err e.
Proof.
  intros Hmc. induction pdb_file as [|line rest IH]; intros Hp body cur.
  - now contradiction Hp.
  - unfold processed in *. cbn [filter] in Hp. cbn [correct_pdb_loop].
    destruct (is_processed line) eqn:Ep.
    + rewrite correct_pdb_line_processed by exact Ep.
      destruct (correct_atom_line logic line None cur)
        as [[[l t'] cur']|e] eqn:Hatom; cbn [bind].
      * rewrite (correct_atom_line_no_chain _ _ _ _ _ _ _ Hmc Hatom).
        now exists UnboundLocalError.
      * now exists e.
    + destruct (is_title line) eqn:Et.
      * rewrite correct_pdb_line_title by exact Et. cbn [bind]. now apply IH.
      * rewrite correct_pdb_line_skipped by assumption. cbn [bind].
        now apply IH.
Qed.

(** C7 (as amended).  The renumbering state is created with the corrector
    ([post_init]: atom number 1, chain letter ['A'], no segment seen) and is
    not reset by [correct_pdb]: with renumbering and atom numbering enabled,
    a pass that returns leaves the atom counter advanced by the number of
    processed records and, once a record was processed, a remembered
    segment identifier; a following pass on the same corrector starts from
    that state, so its serials continue after those of the first pass. *)
Theorem state_persists_across_passes (pdb_file : list str) (logic : Logic.t)
    (cur : Current.t) (out : str) (cur' : Current.t)
    (Hmc : Logic.molecule_chain logic = true)
    (Han : Logic.atom_number logic = true)
    (Hrun : correct_pdb pdb_file logic cur = Ok (out, cur')) :
  post_init = Current.mk 1 1 1 "A" 1 None
  /\ Current.atom_number cur'
     = Current.atom_number cur + Z.of_nat (length (processed pdb_file))
  /\ (processed pdb_file <> [] ->
      Current.chain cur' <> None /\ cur' <> post_init)
  /\ (processed pdb_file = [] -> cur' = cur)
  /\ (forall pdb_file2 body2 cur2,
        correct_pdb_body pdb_file2 logic cur' = Ok (body2, cur2) ->
        exists ks,
          Forall2 (fun k s => number_to_hybrid36_number k 5 = Ok s)
                  ks (serials body2)
          /\ Forall (fun k => Current.atom_number cur
                              + Z.of_nat (length (processed pdb_file)) <= k)
                    ks).
Proof.
  split; [reflexivity|].
  unfold correct_pdb in Hrun. apply bind_ok in Hrun.
  destruct Hrun as ([body c] & Hbody & Hrun). injection Hrun as <- <-.
  unfold correct_pdb_body in Hbody. apply bind_ok in Hbody.
  destruct Hbody as ([[body1 t1] cur1] & Hloop & Hbody).
  injection Hbody as <- <-.
  destruct (correct_pdb_loop_serials logic pdb_file Han _ _ _ _ _ _ Hloop)
    as (Hcount & _).
  split; [exact Hcount|]. split; [|split].
  - intros Hp.
    assert (Hc : Current.chain cur1 <> None)
      by (apply (correct_pdb_loop_chain logic pdb_file Hmc _ _ _ _ _ _ Hloop);
          now right).
    split; [exact Hc|]. intros ->. now apply Hc.
  - intros Hp. rewrite correct_pdb_loop_nothing_processed in Hloop by exact Hp.
    now injection Hloop as <- <- <-.
  - intros pdb_file2 body2 cur2 Hrun2.
    unfold correct_pdb_body in Hrun2. apply bind_ok in Hrun2.
    destruct Hrun2 as ([[body3 t3] cur3] & Hloop2 & Hrun2).
    injection Hrun2 as <- <-.
    destruct (correct_pdb_loop_serials logic pdb_file2 Han _ _ _ _ _ _ Hloop2)
      as (_ & ks & Hks & _ & _ & Hrange & _).
    exists ks.
    assert (Hhead : serials (if Logic.keep_header logic then [] ++ [HEADER]
                             else []) = []).
    { destruct (Logic.keep_header logic); reflexivity. }
    rewrite Hhead in Hks. cbn [length skipn] in Hks.
    rewrite serials_app. change (serials [TER_END]) with (@nil str).
    rewrite app_nil_r. split; [exact Hks|].
    eapply Forall_impl; [|exact Hrange]. simpl. lia.
Qed.

Lemma state_persists_across_passes_witness :
  exists out cur',
    correct_pdb [rec_S1_5_O] Logic.default post_init = Ok (out, cur')
    /\ Current.atom_number cur'
       = Current.atom_number post_init
         + Z.of_nat (length (processed [rec_S1_5_O]))
    /\ Current.chain cur' <> None /\ cur' <> post_init.
Proof.
  destruct (correct_pdb [rec_S1_5_O] Logic.default post_init)
    as [[out cur']|e] eqn:Hrun.
  - exists out, cur'. split; [reflexivity|].
    destruct (state_persists_across_passes [rec_S1_5_O] Logic.default
                post_init out cur' eq_refl eq_refl Hrun)
      as (_ & Hcount & Hchain & _).
    split; [exact Hcount|]. apply Hchain. vm_compute. discriminate.
  - vm_compute in Hrun. discriminate Hrun.
Defined.

(** C7, as stated, fails: the second call on the same corrector numbers
    its atom 2, where a call on a fresh corrector numbers it 1. *)
Lemma second_pass_differs_from_fresh_corrector :
  exists out1 cur1 out2 cur2,
    correct_pdb [rec_S1_5_O] Logic.default post_init = Ok (out1, cur1)
    /\ correct_pdb [rec_S1_5_O] Logic.default cur1 = Ok (out2, cur2)
    /\ out2 <> out1
    /\ Current.atom_number cur1 = 2
    /\ Current.atom_number cur2 = 3
    /\ exists body1 body2,
         correct_pdb_body [rec_S1_5_O] Logic.default post_init
           = Ok (body1, cur1)
         /\ correct_pdb_body [rec_S1_5_O] Logic.default cur1
            = Ok (body2, cur2)
         /\ serials body1 = [lit "    1"]
         /\ serials body2 = [lit "    2"].
Proof.
  do 4 eexists. split; [vm_compute; reflexivity|].
  split; [vm_compute; reflexivity|].
  split; [vm_compute; discriminate|].
  split; [reflexivity|]. split; [reflexivity|].
  do 2 eexists. split; [vm_compute; reflexivity|].
  split; [vm_compute; reflexivity|]. split; reflexivity.
Qed.

(** ** The policy flags *)

(** C1 fails on the code.  With [molecule_chain] disabled nothing assigns
    [is_ter], and the first record that reaches the corrections ends the
    pass with an exception, whatever the other flags are. *)
Theorem molecule_chain_disabled_raises (pdb_file : list str)
    (logic : Logic.t) (cur : Current.t)
    (Hmc : Logic.molecule_chain logic = false)
    (Hproc : processed pdb_file <> []) :
  exists e, correct_pdb pdb_file logic cur = Err e.
Proof.
  unfold correct_pdb, correct_pdb_body.
  destruct (correct_pdb_loop_unbound logic pdb_file Hmc Hproc
              (if Logic.keep_header logic then [] ++ [HEADER] else []) cur)
    as (e & He).
  exists e. now rewrite He.
Qed.

Lemma molecule_chain_disabled_raises_witness :
  processed [rec_S1_5_O] <> []
  /\ (exists e,
        correct_pdb [rec_S1_5_O] logic_without_molecule_chain post_init
        = Err e)
  /\ correct_pdb [rec_S1_5_O] logic_without_molecule_chain post_init
     = Err UnboundLocalError.
Proof.
  assert (Hp : processed [rec_S1_5_O] <> []) by (vm_compute; discriminate).
  split; [exact Hp|]. split; [|vm_compute; reflexivity].
  exact (molecule_chain_disabled_raises [rec_S1_5_O]
           logic_without_molecule_chain post_init eq_refl Hp).
Defined.

(** ** The blank-name check *)

(** C9 (as amended).  The check reads columns 13 and 14 only.  An [ATOM]
    record with both blank (in particular one whose atom-name columns
    [12,16) are blank) is skipped: the turn changes neither the body nor the
    state and raises nothing, and a file in which no record passes the check
    yields the header, its title records and the end marker.  An [ATOM]
    record with one of the two columns filled goes through the enabled
    corrections: an exception of theirs ends the pass, and with renumbering
    enabled their result (the record, or the empty string where hydrogen
    removal dropped it) is appended to the body, after a terminator when one
    was marked. *)
Theorem blank_name_check (logic : Logic.t) (line : str) (body : list str)
    (t : option bool) (cur : Current.t)
    (Hatom : is_atom_record line = true) :
  (slice 12 16 line = lit "    " -> slice 13 15 line = lit "  ")
  /\ (slice 13 15 line = lit "  " ->
      correct_pdb_line logic line (body, t, cur) = Ok (body, t, cur))
  /\ (slice 13 15 line <> lit "  " ->
      (forall e, correct_atom_line logic line t cur = Err e ->
                 correct_pdb_line logic line (body, t, cur) = Err e)
      /\ (Logic.molecule_chain logic = true ->
          forall l t' cur',
            correct_atom_line logic line t cur = Ok (l, t', cur') ->
            exists b,
              t' = Some b
              /\ correct_pdb_line logic line (body, t, cur)
                 = Ok ((if b then body ++ [TER] else body) ++ [l],
                       Some b, cur')))
  /\ (forall pdb_file,
        processed pdb_file = [] ->
        correct_pdb_body pdb_file logic cur
        = Ok ((if Logic.keep_header logic then [HEADER] else [])
              ++ filter is_title pdb_file ++ [TER_END], cur)).
Proof.
  split; [|split; [|split]].
  - intros H. do 16 (destruct line as [|? line]; [discriminate H|]).
    cbn in H. injection H as -> -> -> ->. reflexivity.
  - intros Hblank. apply correct_pdb_line_skipped.
    + unfold is_processed. rewrite Hatom, Hblank. reflexivity.
    + now apply is_processed_not_title.
  - intros Hname.
    assert (Hp : is_processed line = true).
    { unfold is_processed. rewrite Hatom.
      now rewrite (proj2 (str_eqb_neq _ _) Hname). }
    split.
    + intros e He. rewrite correct_pdb_line_processed by exact Hp.
      now rewrite He.
    + intros Hmc l t' cur' Hok.
      destruct (correct_atom_line_chain _ _ _ _ _ _ _ Hmc Hok) as (_ & b & ->).
      exists b. split; [reflexivity|].
      rewrite correct_pdb_line_processed by exact Hp. now rewrite Hok.
  - intros pdb_file Hp. unfold correct_pdb_body.
    rewrite correct_pdb_loop_nothing_processed by exact Hp. cbn [bind].
    rewrite <- app_assoc. reflexivity.
Qed.

Lemma blank_name_check_witness :
  is_atom_record rec_blank_name = true
  /\ slice 12 16 rec_blank_name = lit "    "
  /\ correct_pdb_line Logic.default rec_blank_name ([HEADER], None, post_init)
     = Ok ([HEADER], None, post_init)
  /\ slice 13 15 rec_S1_5_O <> lit "  "
  /\ exists l b cur',
       correct_atom_line Logic.default rec_S1_5_O None post_init
       = Ok (l, Some b, cur')
       /\ correct_pdb_line Logic.default rec_S1_5_O ([HEADER], None, post_init)
          = Ok ((if b then [HEADER] ++ [TER] else [HEADER]) ++ [l],
                Some b, cur').
Proof.
  assert (Ha : is_atom_record rec_blank_name = true) by reflexivity.
  assert (Hb : slice 12 16 rec_blank_name = lit "    ") by reflexivity.
  assert (Hn : slice 13 15 rec_S1_5_O <> lit "  ") by (vm_compute; discriminate).
  split; [exact Ha|]. split; [exact Hb|].
  destruct (blank_name_check Logic.default rec_blank_name [HEADER] None
              post_init Ha) as (Hcols & Hskip & _).
  split; [exact (Hskip (Hcols Hb))|]. split; [exact Hn|].
  destruct (blank_name_check Logic.default rec_S1_5_O [HEADER] None
              post_init eq_refl) as (_ & _ & Hrun & _).
  destruct (Hrun Hn) as (_ & Hok).
  destruct (correct_atom_line Logic.default rec_S1_5_O None post_init)
    as [[[l t'] cur']|e] eqn:Hline.
  - destruct (Hok eq_refl l t' cur' eq_refl) as (b & -> & Hstep).
    exists l, b, cur'. split; [reflexivity | exact Hstep].
  - vm_compute in Hline. discriminate Hline.
Defined.

(** C9, as stated, fails: an atom name that fills column 12 only is not
    blank, and the record is skipped all the same. *)
Lemma name_in_column_12_is_skipped :
  is_atom_record rec_name_in_column_12 = true
  /\ slice 12 16 rec_name_in_column_12 = lit "C   "
  /\ slice 12 16 rec_name_in_column_12 <> lit "    "
  /\ correct_pdb_body [rec_name_in_column_12] Logic.default post_init
     = Ok ([HEADER; TER_END], post_init).
Proof.
  repeat split; try reflexivity. vm_compute. discriminate.
Qed.

(** ** Hydrogen removal after a break *)

Lemma hydrogen_name_unmapped (name : str) :
  char_in "H" name = true -> remap NOMCLA name = name.
Proof.
  intros HH. unfold remap. destruct (dict_mem name NOMCLA) eqn:E; [|reflexivity].
  apply dict_mem_key in E. destruct E as (v & Hin). simpl in Hin.
  repeat (destruct Hin as [Hin | Hin];
          [injection Hin as <- <-; vm_compute in HH; discriminate HH |]).
  contradiction.
Qed.

Lemma hydrogen_nomenclature (l : str) :
  hydrogen_name l -> hydrogen_name (correct_nomenclature l).
Proof.
  intros (Hlen & HH). rewrite correct_nomenclature_remap.
  rewrite (hydrogen_name_unmapped _ HH).
  generalize (remap NOMCLA_BASE (slice 17 20 l)). intros base.
  unfold hydrogen_name in *. explode l Hlen. cbn in HH |- *.
  split; [lia | exact HH].
Qed.

Lemma hydrogen_chain_line (l : str) id number rep :
  hydrogen_name l -> hydrogen_name (chain_line l id number rep).
Proof.
  intros (Hlen & HH). unfold hydrogen_name, chain_line in *.
  generalize (rjust 3 "0" (str_of_int rep)). intros label.
  explode l Hlen. cbn in HH |- *. split; [lia | exact HH].
Qed.

Lemma hydrogen_atom_number (l : str) (cur : Current.t) :
  hydrogen_name l ->
  -9999 <= Current.atom_number cur < 87440032 ->
  exists l' cur',
    correct_atom_number l cur = Ok (l', cur') /\ hydrogen_name l'.
Proof.
  intros (Hlen & HH) Hfit. unfold correct_atom_number.
  destruct (hybrid36_width5 _ Hfit) as (s & -> & Hs). cbn [bind].
  do 2 eexists. split; [reflexivity|].
  unfold hydrogen_name in *. explode_exact s Hs. explode l Hlen.
  cbn in HH |- *. split; [lia | exact HH].
Qed.

Lemma hydrogen_occupancy (l : str) :
  hydrogen_name l -> hydrogen_name (correct_occupancy l).
Proof.
  intros (Hlen & HH). unfold hydrogen_name, correct_occupancy in *.
  explode l Hlen. cbn in HH |- *. split; [lia | exact HH].
Qed.

Lemma hydrogen_atomtype (l : str) :
  hydrogen_name l ->
  exists l', correct_atomtype l = Ok l' /\ hydrogen_name l'.
Proof.
  intros (Hlen & HH). unfold hydrogen_name, correct_atomtype in *.
  explode l Hlen.
  match goal with
  | |- context [bind (getitem ?s 1) _] =>
      let c := eval vm_compute in (getitem s 1) in
      change (getitem s 1) with c
  end.
  cbn [bind].
  match goal with
  | |- context [bind ?m _] => destruct m as [atom|e] eqn:E
  end.
  - cbn [bind]. eexists. split; [reflexivity|].
    generalize (rjust 2 " " (strip atom)). intros el.
    cbn in HH |- *. split; [lia | exact HH].
  - match type of E with
    | context [char_in ?c ?d] => destruct (char_in c d)
    end; discriminate E.
Qed.

Lemma hydrogen_removed (l : str) : hydrogen_name l -> remove_H l = [].
Proof. intros (_ & HH). unfold remove_H. now rewrite HH. Qed.

(** C10.  With renumbering and hydrogen removal enabled, a processed record
    with an ['H'] in its atom name for which the renumbering step marks a
    terminator is dropped (the empty string is appended in its place) and
    the terminator is appended all the same.  So a body may hold a
    terminator, the empty string and a second terminator in a row, which
    join into two consecutive terminator lines, or a terminator and the
    empty string right before the closing terminator and end marker. *)
Theorem terminator_kept_for_dropped_hydrogen (logic : Logic.t) (line : str)
    (body : list str) (t : option bool) (cur : Current.t)
    (l2 : str) (cur2 : Current.t)
    (Hmc : Logic.molecule_chain logic = true)
    (Hrem : Logic.remove_H logic = true)
    (Hproc : is_processed line = true)
    (HH : hydrogen_name line)
    (Hbreak : correct_molecule_chain
                (if Logic.nomenclature logic then correct_nomenclature line
                 else line)
                (Logic.reset_numbers logic) cur = Ok (l2, true, cur2))
    (Hfit : -9999 <= Current.atom_number cur < 87440032) :
  (exists cur',
     correct_pdb_line logic line (body, t, cur)
     = Ok (body ++ [TER; []], Some true, cur'))
  /\ (exists l1 l3 cur',
        correct_pdb_body [rec_S1_5_O; rec_S2_1_H; rec_S3_1_N]
                         Logic.default post_init
        = Ok ([HEADER; l1; TER; []; TER; l3; TER_END], cur')
        /\ correct_pdb [rec_S1_5_O; rec_S2_1_H; rec_S3_1_N]
                       Logic.default post_init
           = Ok (HEADER ++ l1 ++ TER ++ TER ++ l3 ++ TER_END, cur'))
  /\ (exists l1 cur',
        correct_pdb_body [rec_S1_5_O; rec_S2_1_H] Logic.default post_init
        = Ok ([HEADER; l1; TER; []; TER_END], cur')
        /\ correct_pdb [rec_S1_5_O; rec_S2_1_H] Logic.default post_init
           = Ok (HEADER ++ l1 ++ TER ++ TER_END, cur')).
Proof.
  split; [|split].
  - rewrite correct_pdb_line_processed by exact Hproc.
    unfold correct_atom_line. rewrite Hmc, Hrem.
    assert (H1 : hydrogen_name (if Logic.nomenclature logic
                                then correct_nomenclature line else line))
      by (destruct (Logic.nomenclature logic); auto using hydrogen_nomenclature).
    rewrite Hbreak. cbn [bind].
    assert (H2 : hydrogen_name l2).
    { destruct (correct_molecule_chain_inv _ _ _ _ _ _ Hbreak)
        as ((id & number & rep & ->) & _).
      now apply hydrogen_chain_line. }
    assert (Hfit2 : -9999 <= Current.atom_number cur2 < 87440032).
    { destruct (correct_molecule_chain_inv _ _ _ _ _ _ Hbreak) as (_ & -> & _).
      exact Hfit. }
    assert (H3 : exists l3 cur3,
               (if Logic.atom_number logic then correct_atom_number l2 cur2
                else Ok (l2, cur2)) = Ok (l3, cur3)
               /\ hydrogen_name l3).
    { destruct (Logic.atom_number logic).
      - now apply hydrogen_atom_number.
      - now exists l2, cur2. }
    destruct H3 as (l3 & cur3 & -> & H3). cbn [bind].
    assert (H4 : hydrogen_name (if Logic.occupancy logic
                                then correct_occupancy l3 else l3))
      by (destruct (Logic.occupancy logic); auto using hydrogen_occupancy).
    set (l4 := if Logic.occupancy logic then correct_occupancy l3 else l3) in *.
    assert (H5 : exists l5,
               (if Logic.atomtype logic then correct_atomtype l4 else Ok l4)
               = Ok l5 /\ hydrogen_name l5).
    { destruct (Logic.atomtype logic).
      - now apply hydrogen_atomtype.
      - now exists l4. }
    destruct H5 as (l5 & -> & H5). cbn [bind].
    rewrite (hydrogen_removed l5 H5).
    exists cur3. now rewrite <- app_assoc.
  - do 3 eexists. split; vm_compute; reflexivity.
  - do 2 eexists. split; vm_compute; reflexivity.
Qed.

Lemma terminator_kept_for_dropped_hydrogen_witness :
  is_processed rec_S2_1_H = true
  /\ hydrogen_name rec_S2_1_H
  /\ exists cur',
       correct_pdb_line Logic.default rec_S2_1_H ([HEADER], None, in_segment_S1)
       = Ok ([HEADER] ++ [TER; []], Some true, cur').
Proof.
  assert (Hp : is_processed rec_S2_1_H = true) by reflexivity.
  assert (HH : hydrogen_name rec_S2_1_H).
  { split; [vm_compute; lia | reflexivity]. }
  assert (Hfit : -9999 <= Current.atom_number in_segment_S1 < 87440032)
    by (simpl; lia).
  split; [exact Hp|]. split; [exact HH|].
  destruct (correct_molecule_chain
              (if Logic.nomenclature Logic.default
               then correct_nomenclature rec_S2_1_H else rec_S2_1_H)
              (Logic.reset_numbers Logic.default) in_segment_S1)
    as [[[l2 b] cur2]|e] eqn:Hbreak.
  - assert (Hb : b = true).
    { vm_compute in Hbreak. now injection Hbreak as _ <- _. }
    rewrite Hb in Hbreak.
    exact (proj1 (terminator_kept_for_dropped_hydrogen Logic.default
                    rec_S2_1_H [HEADER] None in_segment_S1 l2 cur2
                    eq_refl eq_refl Hp HH Hbreak Hfit)).
  - vm_compute in Hbreak. discriminate Hbreak.
Defined.

(** ** The invariant of the renumbering state *)

Lemma post_init_ok : current_ok post_init.
Proof. repeat split; try (simpl; lia). now exists 0%nat. Qed.

Lemma correct_molecule_chain_ok (line : str) (reset : bool)
    (cur : Current.t) (l : str) (t : bool) (cur' : Current.t) :
  correct_molecule_chain line reset cur = Ok (l, t, cur') ->
  current_ok cur -> current_ok cur'.
Proof.
  unfold correct_molecule_chain. intros H (Ha & Hl & Hr & i & Hi).
  apply bind_ok in H. destruct H as (n & _ & H).
  apply bind_ok in H. destruct H as ([[[id new] ter] rep] & Hbranch & H).
  apply bind_ok in H. destruct H as (number & _ & H).
  injection H as <- <- <-. unfold current_ok.
  cbn [Current.atom_number Current.last_molecule_number
       Current.chain_id_repeats Current.chain_id].
  destruct (Current.chain cur) as [prev|].
  - destruct (str_eqb (slice 72 76 line) prev).
    + destruct (n =? Current.old_molecule_number cur);
        [|destruct (n =? Current.old_molecule_number cur + 1)];
        injection Hbranch as <- <- <- <-;
        (repeat split; try lia; now exists i).
    + apply bind_ok in Hbranch. destruct Hbranch as (next & Hnext & Hbranch).
      injection Hbranch as <- <- <- <-.
      destruct (increase_chain_id_spec i _ Hi) as (Hinc & _ & _).
      assert (Hi26 : (i < 26)%nat).
      { change 26%nat with (length possible_chain_ids).
        apply nth_error_Some. rewrite Hi. discriminate. }
      assert (Hnth : nth_error possible_chain_ids
                       (if Nat.eqb i 25 then 1%nat else S i)
                     = Some (nth (if Nat.eqb i 25 then 1%nat else S i)
                                 possible_chain_ids "A"%char)).
      { apply nth_error_nth'. change (length possible_chain_ids) with 26%nat.
        destruct (Nat.eqb_spec i 25); lia. }
      set (next_id := nth (if Nat.eqb i 25 then 1%nat else S i)
                          possible_chain_ids "A"%char) in *.
      clearbody next_id.
      rewrite Hinc in Hnext. injection Hnext as <-.
      repeat split; try lia.
      * destruct (Ascii.eqb (Current.chain_id cur) "Z"); lia.
      * now exists (if Nat.eqb i 25 then 1%nat else S i).
  - injection Hbranch as <- <- <- <-. repeat split; try lia. now exists i.
Qed.

Lemma correct_atom_line_ok (logic : Logic.t) (line : str)
    (t : option bool) (cur : Current.t)
    (l : str) (t' : option bool) (cur' : Current.t) :
  correct_atom_line logic line t cur = Ok (l, t', cur') ->
  current_ok cur -> current_ok cur'.
Proof.
  unfold correct_atom_line. intros H Hok.
  apply bind_ok in H. destruct H as ([[l2 t2] c2] & H2 & H).
  assert (Hok2 : current_ok c2).
  { destruct (Logic.molecule_chain logic).
    - apply bind_ok in H2. destruct H2 as ([[l2' b] c2'] & Hc & H2).
      injection H2 as <- <- <-. eapply correct_molecule_chain_ok; eauto.
    - now injection H2 as <- <- <-. }
  apply bind_ok in H. destruct H as ([l3 c3] & H3 & H).
  assert (Hok3 : current_ok c3).
  { destruct (Logic.atom_number logic).
    - unfold correct_atom_number in H3. apply bind_ok in H3.
      destruct H3 as (s & _ & H3). injection H3 as <- <-.
      destruct Hok2 as (Ha & Hl & Hr & Hi). unfold current_ok.
      cbn [Current.atom_number Current.last_molecule_number
           Current.chain_id_repeats Current.chain_id].
      repeat split; try lia. exact Hi.
    - now injection H3 as <- <-. }
  apply bind_ok in H. destruct H as (l5 & _ & H).
  now injection H as <- <- <-.
Qed.

(** X26.  The invariant of the renumbering state holds after every pass
    that returns: on a corrector that starts from [post_init] the counters
    stay positive and the chain letter stays an upper-case letter, over any
    number of passes. *)
Lemma correct_pdb_ok (pdb_file : list str) (logic : Logic.t)
    (cur : Current.t) (out : str) (cur' : Current.t) :
  correct_pdb pdb_file logic cur = Ok (out, cur') ->
  current_ok cur -> current_ok cur'.
Proof.
  unfold correct_pdb, correct_pdb_body. intros H.
  apply bind_ok in H. destruct H as ([body c] & Hbody & H).
  injection H as <- <-.
  apply bind_ok in Hbody. destruct Hbody as ([[body1 t1] cur1] & Hloop & Hbody).
  injection Hbody as <- <-.
  revert Hloop. generalize (@None bool).
  generalize (if Logic.keep_header logic then [] ++ [HEADER] else []).
  revert cur. induction pdb_file as [|line rest IH]; intros cur body t Hloop Hok.
  - now injection Hloop as <- <- <-.
  - cbn [correct_pdb_loop] in Hloop. apply bind_ok in Hloop.
    destruct Hloop as ([[body2 t2] cur2] & Hline & Hrest).
    apply (IH _ _ _ Hrest).
    destruct (is_processed line) eqn:Ep.
    + rewrite correct_pdb_line_processed in Hline by exact Ep.
      apply bind_ok in Hline. destruct Hline as ([[l t3] c3] & Hatom & Hline).
      destruct t3 as [b|]; [|discriminate]. injection Hline as <- <- <-.
      eapply correct_atom_line_ok; eauto.
    + destruct (is_title line) eqn:Et.
      * rewrite correct_pdb_line_title in Hline by exact Et.
        now injection Hline as <- <- <-.
      * rewrite correct_pdb_line_skipped in Hline by assumption.
        now injection Hline as <- <- <-.
Qed.

Lemma correct_pdb_ok_witness :
  exists out cur',
    correct_pdb [rec_title; rec_S1_5_O; rec_S2_1_H; rec_S3_1_N]
                Logic.default post_init = Ok (out, cur')
    /\ current_ok post_init /\ current_ok cur'.
Proof.
  destruct (correct_pdb [rec_title; rec_S1_5_O; rec_S2_1_H; rec_S3_1_N]
                        Logic.default post_init)
    as [[out cur']|e] eqn:Hrun.
  - exists out, cur'. split; [reflexivity|]. split; [exact post_init_ok|].
    exact (correct_pdb_ok _ _ _ _ _ Hrun post_init_ok).
  - vm_compute in Hrun. discriminate Hrun.
Defined.

(** ** Passes that return *)

Lemma correct_nomenclature_long (l : str) :
  long_record l ->
  long_record (correct_nomenclature l)
  /\ slice 22 26 (correct_nomenclature l) = slice 22 26 l.
Proof.
  unfold long_record. intros Hlen. rewrite correct_nomenclature_remap.
  assert (Ha := remap_NOMCLA_length (slice 12 16 l)).
  assert (Hb := remap_NOMCLA_BASE_length (slice 17 20 l)).
  set (atom := remap NOMCLA (slice 12 16 l)) in *.
  set (base := remap NOMCLA_BASE (slice 17 20 l)) in *.
  clearbody atom base.
  explode l Hlen. cbn [slice skipn firstn Nat.sub length] in Ha, Hb.
  explode_exact atom Ha. explode_exact base Hb.
  cbn. split; [lia | reflexivity].
Qed.

Lemma chain_line_long (l : str) id number rep :
  long_record l -> length number = 4%nat ->
  long_record (chain_line l id number rep).
Proof.
  unfold long_record, chain_line. intros Hlen Hn.
  generalize (rjust 3 "0" (str_of_int rep)). intros label.
  explode_exact number Hn. explode l Hlen. cbn. lia.
Qed.

(** On a long record whose residue field reads as a number, the
    renumbering step returns when the output residue number has room to
    grow by 10. *)
Lemma correct_molecule_chain_returns (line : str) (reset : bool)
    (cur : Current.t) :
  well_formed_record line -> current_ok cur ->
  (reset = true -> Current.last_molecule_number cur + 10 < 2436112) ->
  exists l t cur',
    correct_molecule_chain line reset cur = Ok (l, t, cur')
    /\ long_record l
    /\ Current.atom_number cur' = Current.atom_number cur
    /\ Current.last_molecule_number cur'
       <= Current.last_molecule_number cur + 10.
Proof.
  intros (Hlen & n & Hint) (Ha & Hl & Hr & i & Hi) Hfit.
  pose proof (py_int_field_range line n Hint) as Hn.
  assert (Henc : forall new, 1 <= new <= Current.last_molecule_number cur + 10 ->
            exists s, (if reset then number_to_hybrid36_number new 4
                       else number_to_hybrid36_number n 4) = Ok s
                      /\ length s = 4%nat).
  { intros new Hnew. destruct reset.
    - specialize (Hfit eq_refl). apply hybrid36_width4. lia.
    - apply hybrid36_width4. lia. }
  unfold correct_molecule_chain. rewrite Hint. cbn [bind].
  destruct (Current.chain cur) as [prev|].
  - destruct (str_eqb (slice 72 76 line) prev).
    + destruct (n =? Current.old_molecule_number cur); cbn [bind].
      * destruct (Henc (Current.last_molecule_number cur) ltac:(lia))
          as (s & -> & Hs).
        cbn [bind]. do 3 eexists. split; [reflexivity|].
        split; [now apply chain_line_long|]. cbn. split; lia.
      * destruct (n =? Current.old_molecule_number cur + 1); cbn [bind].
        -- destruct (Henc (Current.last_molecule_number cur + 1) ltac:(lia))
             as (s & -> & Hs).
           cbn [bind]. do 3 eexists. split; [reflexivity|].
           split; [now apply chain_line_long|]. cbn. split; lia.
        -- destruct (Henc (Current.last_molecule_number cur + 10) ltac:(lia))
             as (s & -> & Hs).
           cbn [bind]. do 3 eexists. split; [reflexivity|].
           split; [now apply chain_line_long|]. cbn. split; lia.
    + destruct (increase_chain_id_spec i _ Hi) as (-> & _ & _). cbn [bind].
      destruct (Henc 1 ltac:(lia)) as (s & -> & Hs).
      cbn [bind]. do 3 eexists. split; [reflexivity|].
      split; [now apply chain_line_long|]. cbn. split; lia.
  - cbn [bind]. destruct (Henc 1 ltac:(lia)) as (s & -> & Hs).
    cbn [bind]. do 3 eexists. split; [reflexivity|].
    split; [now apply chain_line_long|]. cbn. split; lia.
Qed.

Lemma correct_atom_number_returns (l : str) (cur : Current.t) :
  long_record l -> 1 <= Current.atom_number cur < 87440032 ->
  exists l' cur',
    correct_atom_number l cur = Ok (l', cur')
    /\ long_record l'
    /\ Current.atom_number cur' = Current.atom_number cur + 1
    /\ Current.last_molecule_number cur' = Current.last_molecule_number cur.
Proof.
  unfold long_record. intros Hlen Hfit. unfold correct_atom_number.
  destruct (hybrid36_width5 (Current.atom_number cur) ltac:(lia))
    as (s & -> & Hs).
  cbn [bind]. do 2 eexists. split; [reflexivity|].
  split; [|split; reflexivity].
  explode_exact s Hs. explode l Hlen. cbn. lia.
Qed.

Lemma correct_occupancy_long (l : str) :
  long_record l -> long_record (correct_occupancy l).
Proof.
  unfold long_record, correct_occupancy. intros Hlen.
  explode l Hlen. cbn. lia.
Qed.

Lemma correct_atomtype_returns (l : str) :
  long_record l -> exists l', correct_atomtype l = Ok l'.
Proof.
  unfold long_record, correct_atomtype. intros Hlen. explode l Hlen.
  match goal with
  | |- context [bind (getitem ?s 1) _] =>
      let c := eval vm_compute in (getitem s 1) in
      change (getitem s 1) with c
  end.
  cbn [bind].
  match goal with
  | |- context [bind ?m _] => destruct m as [atom|e] eqn:E
  end.
  - cbn [bind]. eexists. reflexivity.
  - match type of E with
    | context [char_in ?c ?d] => destruct (char_in c d)
    end; discriminate E.
Qed.

(** The corrections of one well-formed record return, with renumbering
    enabled and room left in both counters. *)
Lemma correct_atom_line_returns (logic : Logic.t) (line : str)
    (t : option bool) (cur : Current.t) :
  Logic.molecule_chain logic = true ->
  well_formed_record line -> current_ok cur ->
  Current.atom_number cur < 87440032 ->
  (Logic.reset_numbers logic = true ->
   Current.last_molecule_number cur + 10 < 2436112) ->
  exists l b cur',
    correct_atom_line logic line t cur = Ok (l, Some b, cur')
    /\ Current.atom_number cur' <= Current.atom_number cur + 1
    /\ Current.last_molecule_number cur'
       <= Current.last_molecule_number cur + 10.
Proof.
  intros Hmc (Hlen & n & Hint) Hok Han Hfit.
  unfold correct_atom_line. rewrite Hmc.
  assert (H1 : well_formed_record
                 (if Logic.nomenclature logic then correct_nomenclature line
                  else line)).
  { destruct (Logic.nomenclature logic); [|now split; [|exists n]].
    destruct (correct_nomenclature_long line Hlen) as (Hl & Hs).
    split; [exact Hl|]. exists n. now rewrite Hs. }
  destruct (correct_molecule_chain_returns _ _ _ H1 Hok Hfit)
    as (l2 & b & c2 & -> & Hl2 & Ha2 & Hm2).
  cbn [bind].
  assert (H3 : exists l3 c3,
             (if Logic.atom_number logic then correct_atom_number l2 c2
              else Ok (l2, c2)) = Ok (l3, c3)
             /\ long_record l3
             /\ Current.atom_number c3 <= Current.atom_number c2 + 1
             /\ Current.last_molecule_number c3
                = Current.last_molecule_number c2).
  { destruct (Logic.atom_number logic).
    - destruct (correct_atom_number_returns l2 c2 Hl2)
        as (l3 & c3 & E & Hl3 & Ha3 & Hm3).
      { destruct Hok as (Ha & _). lia. }
      exists l3, c3. repeat split; auto. lia.
    - exists l2, c2. repeat split; auto. lia. }
  destruct H3 as (l3 & c3 & -> & Hl3 & Ha3 & Hm3). cbn [bind].
  assert (H4 : long_record (if Logic.occupancy logic then correct_occupancy l3
                            else l3))
    by (destruct (Logic.occupancy logic); auto using correct_occupancy_long).
  assert (H5 : exists l5,
             (if Logic.atomtype logic
              then correct_atomtype
                     (if Logic.occupancy logic then correct_occupancy l3 else l3)
              else Ok (if Logic.occupancy logic then correct_occupancy l3
                       else l3)) = Ok l5).
  { destruct (Logic.atomtype logic).
    - now apply correct_atomtype_returns.
    - eexists. reflexivity. }
  destruct H5 as (l5 & ->). cbn [bind].
  do 3 eexists. split; [reflexivity|]. split; lia.
Qed.

(** X27.  With renumbering enabled, a pass over well-formed records
    returns as long as the two counters have room: each processed record
    takes one atom number and at most 10 residue numbers. *)
Lemma correct_pdb_returns (pdb_file : list str) (logic : Logic.t)
    (cur : Current.t) :
  Logic.molecule_chain logic = true ->
  Forall well_formed_record (processed pdb_file) ->
  current_ok cur ->
  Current.atom_number cur + Z.of_nat (length (processed pdb_file))
  <= 87440032 ->
  (Logic.reset_numbers logic = true ->
   Current.last_molecule_number cur
   + 10 * Z.of_nat (length (processed pdb_file)) < 2436112) ->
  exists out cur', correct_pdb pdb_file logic cur = Ok (out, cur').
Proof.
  intros Hmc Hwf Hok Han Hfit.
  enough (Hloop : forall body t,
            exists body' t' cur',
              correct_pdb_loop logic pdb_file (body, t, cur)
              = Ok (body', t', cur')).
  { unfold correct_pdb, correct_pdb_body.
    destruct (Hloop (if Logic.keep_header logic then [] ++ [HEADER] else [])
                    None) as (body' & t' & cur' & ->).
    cbn [bind]. do 2 eexists. reflexivity. }
  revert cur Hok Han Hfit.
  induction pdb_file as [|line rest IH]; intros cur Hok Han Hfit body t.
  - do 3 eexists. reflexivity.
  - cbn [correct_pdb_loop]. unfold processed in *. cbn [filter] in *.
    destruct (is_processed line) eqn:Ep.
    + inversion Hwf as [|? ? Hline Hrest]; subst.
      cbn [length] in Han, Hfit.
      rewrite correct_pdb_line_processed by exact Ep.
      destruct (correct_atom_line_returns logic line t cur Hmc Hline Hok)
        as (l & b & c1 & Hatom & Ha1 & Hm1); [lia | intros Hr; specialize (Hfit Hr); lia |].
      rewrite Hatom. cbn [bind].
      apply (IH Hrest).
      * eapply correct_atom_line_ok; eauto.
      * lia.
      * intros Hr. specialize (Hfit Hr). lia.
    + destruct (is_title line) eqn:Et.
      * rewrite correct_pdb_line_title by exact Et. cbn [bind].
        now apply IH.
      * rewrite correct_pdb_line_skipped by assumption. cbn [bind].
        now apply IH.
Qed.

Lemma correct_pdb_returns_witness :
  exists out cur',
    correct_pdb [rec_title; rec_S1_5_O; rec_S1_6_C] Logic.default post_init
    = Ok (out, cur').
Proof.
  apply correct_pdb_returns.
  - reflexivity.
  - repeat constructor; try (cbn; lia); eexists; vm_compute; reflexivity.
  - exact post_init_ok.
  - vm_compute. discriminate.
  - intros _. vm_compute. reflexivity.
Defined.

(** * Further properties of the code *)

(** ** The Numeric Codec: reading back and telling codes apart *)

Lemma int_lstrip_head (c : ascii) (s : str) :
  is_int_space c = false -> int_lstrip (c :: s) = c :: s.
Proof. intros H. simpl. now rewrite H. Qed.

Lemma py_int_minus_digits (m k : nat) (v : Z) :
  0 <= v < 10 ^ Z.of_nat (S k) ->
  py_int (repeat " "%char m
          ++ "-"%char :: map (digit_char digits_decimal) (to_digits 10 (S k) v))
  = Ok (- v).
Proof.
  intros Hv.
  pose proof (to_digits_range 10 (S k) v ltac:(lia)) as Hr.
  fold decimal_digit in Hr.
  assert (Hlen := to_digits_length 10 (S k) v).
  set (l := to_digits 10 (S k) v) in *.
  unfold py_int, int_strip.
  rewrite int_lstrip_spaces, int_lstrip_head by reflexivity.
  cbn [rev]. rewrite <- map_rev.
  assert (Hrev : int_lstrip (map (digit_char digits_decimal) (rev l) ++ ["-"%char])
                 = map (digit_char digits_decimal) (rev l) ++ ["-"%char]).
  { destruct (rev l) as [|d r] eqn:Er.
    - apply (f_equal (@length Z)) in Er. rewrite length_rev in Er.
      simpl in Er. lia.
    - assert (Hd : decimal_digit d).
      { apply Forall_rev in Hr. rewrite Er in Hr. now inversion Hr. }
      destruct (digit_value_decimal d Hd) as (_ & _ & _ & _ & Hs).
      cbn [map app]. now apply int_lstrip_head. }
  rewrite Hrev, rev_app_distr, map_rev, rev_involutive.
  cbn [rev app parse_signed]. change (Ascii.eqb "-" "-") with true. cbv iota.
  rewrite parse_digits_decimal; [|exact Hr|].
  - unfold l. rewrite from_to_digits by lia. reflexivity.
  - left. intros E. rewrite E in Hlen. discriminate.
Qed.

(** [int] reads every code of the decimal band back. *)
Lemma py_int_format_d (w v : Z) :
  1 <= w -> 1 - 10 ^ (w - 1) <= v < 10 ^ w ->
  py_int (format_d v w) = Ok v.
Proof.
  intros Hw Hv. unfold format_d, str_of_int, rjust.
  assert (Hp : 0 < 10 ^ (w - 1)) by (apply Z.pow_pos_nonneg; lia).
  destruct (Z.ltb_spec v 0) as [Hneg | Hpos].
  - destruct (str_of_nonneg_spec (Z.to_nat (w - 1)) (- v)) as (k & _ & Hr & ->).
    { replace (Z.of_nat (Z.to_nat (w - 1))) with (w - 1) by lia. lia. }
    rewrite py_int_minus_digits by exact Hr. f_equal. lia.
  - destruct (str_of_nonneg_spec (Z.to_nat w) v) as (k & _ & Hr & ->).
    { replace (Z.of_nat (Z.to_nat w)) with w by lia. lia. }
    now apply py_int_padded_digits.
Qed.

Lemma to_digits_head (n : Z) (k : nat) : forall v,
  0 < n -> 0 <= v < n ^ Z.of_nat (S k) ->
  exists tl, to_digits n (S k) v = v / n ^ Z.of_nat k :: tl.
Proof.
  induction k as [|k IH]; intros v Hn Hv.
  - exists []. change (Z.of_nat 1) with 1 in Hv. rewrite Z.pow_1_r in Hv.
    cbn [to_digits app]. change (Z.of_nat 0) with 0. rewrite Z.pow_0_r, Z.div_1_r.
    now rewrite Z.mod_small by lia.
  - change (to_digits n (S (S k)) v)
      with (to_digits n (S k) (v / n) ++ [v mod n]).
    rewrite (Nat2Z.inj_succ (S k)), Z.pow_succ_r in Hv by lia.
    destruct (IH (v / n) Hn) as (tl & ->).
    { split; [apply Z.div_pos; lia | apply Z.div_lt_upper_bound; lia]. }
    exists (tl ++ [v mod n]). cbn [app]. f_equal.
    rewrite (Nat2Z.inj_succ k), Z.pow_succ_r by lia.
    rewrite Z.div_div; [reflexivity | lia |].
    apply Z.pow_pos_nonneg; lia.
Qed.

Lemma letter_digits (ds : str) (lo hi : nat) :
  forallb (fun i => Nat.leb lo (nat_of_ascii (nth i ds "000"%char))
                    && Nat.leb (nat_of_ascii (nth i ds "000"%char)) hi)
          (seq 10 26) = true ->
  forall d, 10 <= d < 36 ->
    (lo <= nat_of_ascii (digit_char ds d) <= hi)%nat.
Proof.
  intros H d Hd. rewrite forallb_forall in H.
  specialize (H (Z.to_nat d)). unfold digit_char.
  assert (Hin : In (Z.to_nat d) (seq 10 26)) by (apply in_seq; lia).
  apply H in Hin. apply andb_prop in Hin. destruct Hin as (H1 & H2).
  apply Nat.leb_le in H1, H2. lia.
Qed.

(** The first character of a base-36 code is a letter of its band. *)
Lemma band_head (w : Z) (ds : str) (lo hi : nat) (x : Z) :
  1 <= w ->
  (forall d, 10 <= d < 36 -> (lo <= nat_of_ascii (digit_char ds d) <= hi)%nat) ->
  10 * 36 ^ (w - 1) <= x < 36 ^ w ->
  (lo <= head_code (map (digit_char ds) (to_digits 36 (Z.to_nat w) x)) <= hi)%nat.
Proof.
  intros Hw Hds Hx.
  assert (Hp : 0 < 36 ^ (w - 1)) by (apply Z.pow_pos_nonneg; lia).
  assert (H36 : 36 ^ w = 36 * 36 ^ (w - 1)).
  { rewrite <- Z.pow_succ_r by lia. f_equal. lia. }
  replace (Z.to_nat w) with (S (Z.to_nat (w - 1))) by lia.
  destruct (to_digits_head 36 (Z.to_nat (w - 1)) x ltac:(lia)) as (tl & ->).
  { replace (Z.of_nat (S (Z.to_nat (w - 1)))) with w by lia. lia. }
  replace (Z.of_nat (Z.to_nat (w - 1))) with (w - 1) by lia.
  cbn [map head_code]. apply Hds. split.
  - apply Z.div_le_lower_bound; lia.
  - apply Z.div_lt_upper_bound; lia.
Qed.

Lemma decimal_digit_code (d : Z) :
  decimal_digit d ->
  (48 <= nat_of_ascii (digit_char digits_decimal d) <= 57)%nat.
Proof.
  intros H. apply decimal_digit_cases in H. simpl in H.
  repeat (destruct H as [<- | H]; [vm_compute; split; repeat constructor |]).
  contradiction.
Qed.

(** The first character of a decimal code is a space, a minus sign or a
    digit. *)
Lemma format_d_head (w v : Z) :
  1 <= w -> 1 - 10 ^ (w - 1) <= v < 10 ^ w ->
  decimal_head (head_code (format_d v w)).
Proof.
  intros Hw Hv. unfold format_d, rjust.
  assert (Hp : 0 < 10 ^ (w - 1)) by (apply Z.pow_pos_nonneg; lia).
  assert (Hs : decimal_head (head_code (str_of_int v))).
  { unfold str_of_int. destruct (Z.ltb_spec v 0) as [Hneg | Hpos].
    - right. left. reflexivity.
    - destruct (str_of_nonneg_spec (Z.to_nat w) v) as (k & _ & Hr & ->).
      { replace (Z.of_nat (Z.to_nat w)) with w by lia. lia. }
      destruct (to_digits_head 10 k v ltac:(lia) Hr) as (tl & E).
      pose proof (to_digits_range 10 (S k) v ltac:(lia)) as Hd.
      rewrite E in *. inversion Hd; subst. cbn [map head_code].
      right. right. now apply decimal_digit_code. }
  destruct (Z.to_nat w - length (str_of_int v))%nat; [exact Hs | now left].
Qed.

(** X1.  The decimal band reaches down to [1 - 10^(w-1)]: a negative number
    of that range is rendered with its minus sign in exactly [w] characters,
    and [int] reads the result back. *)
Theorem hybrid36_negative_roundtrip (w v : Z) (Hw : 1 <= w)
    (Hv : 1 - 10 ^ (w - 1) <= v < 0) :
  number_to_hybrid36_number v w
  = Ok (rjust (Z.to_nat w) " " ("-"%char :: str_of_nonneg (- v)))
  /\ length (rjust (Z.to_nat w) " " ("-"%char :: str_of_nonneg (- v)))
     = Z.to_nat w
  /\ py_int (rjust (Z.to_nat w) " " ("-"%char :: str_of_nonneg (- v))) = Ok v.
Proof.
  assert (Hp : 0 < 10 ^ w) by (apply Z.pow_pos_nonneg; lia).
  assert (E : format_d v w
              = rjust (Z.to_nat w) " " ("-"%char :: str_of_nonneg (- v))).
  { unfold format_d, str_of_int.
    now replace (v <? 0) with true by (symmetry; apply Z.ltb_lt; lia). }
  rewrite <- E. split; [|split].
  - apply hybrid36_decimal; [exact Hw | lia].
  - apply format_d_length; [exact Hw | lia].
  - apply py_int_format_d; [exact Hw | lia].
Qed.

Lemma hybrid36_negative_roundtrip_witness :
  number_to_hybrid36_number (-999) 4 = Ok (lit "-999")
  /\ py_int (lit "-999") = Ok (-999)
  /\ number_to_hybrid36_number (-7) 4 = Ok (lit "  -7").
Proof.
  assert (Hw : 1 <= 4) by lia.
  assert (H1 : 1 - 10 ^ (4 - 1) <= -999 < 0) by (split; [discriminate | reflexivity]).
  assert (H2 : 1 - 10 ^ (4 - 1) <= -7 < 0) by (split; [discriminate | reflexivity]).
  destruct (hybrid36_negative_roundtrip 4 (-999) Hw H1) as (Ha & _ & Hb).
  destruct (hybrid36_negative_roundtrip 4 (-7) Hw H2) as (Hc & _).
  split; [exact Ha|]. split; [exact Hb | exact Hc].
Defined.

(** A returned code comes from exactly one of the three bands. *)
Lemma hybrid36_ok_cases (w v : Z) (s : str) :
  1 <= w -> number_to_hybrid36_number v w = Ok s ->
  (1 - 10 ^ (w - 1) <= v < 10 ^ w /\ s = format_d v w)
  \/ (in_upper_band w v
      /\ s = map (digit_char digits_upper)
                 (to_digits 36 (Z.to_nat w) (upper_value w v)))
  \/ (in_lower_band w v
      /\ s = map (digit_char digits_lower)
                 (to_digits 36 (Z.to_nat w) (lower_value w v))).
Proof.
  intros Hw H.
  destruct (Z_lt_dec v (1 - 10 ^ (w - 1))) as [Hlo | Hlo].
  { rewrite hybrid36_out_of_range in H by (auto; lia). discriminate. }
  destruct (Z_lt_dec v (10 ^ w)) as [Hd | Hd].
  { left. split; [lia|]. rewrite hybrid36_decimal in H by (auto; lia).
    now injection H. }
  destruct (Z_lt_dec v (10 ^ w + 26 * 36 ^ (w - 1))) as [Hu | Hu].
  { right. left. assert (Hb : in_upper_band w v) by (unfold in_upper_band; lia).
    split; [exact Hb|]. rewrite (hybrid36_upper w Hw v Hb) in H.
    now injection H. }
  destruct (Z_lt_dec v (10 ^ w + 2 * 26 * 36 ^ (w - 1))) as [Hl | Hl].
  { right. right.
    assert (Hb : in_lower_band w v) by (unfold in_lower_band; lia).
    split; [exact Hb|]. rewrite (hybrid36_lower w Hw v Hb) in H.
    now injection H. }
  rewrite hybrid36_out_of_range in H by (auto; lia). discriminate.
Qed.

Lemma upper_band_head (w v : Z) :
  1 <= w -> in_upper_band w v ->
  upper_head (head_code (map (digit_char digits_upper)
                             (to_digits 36 (Z.to_nat w) (upper_value w v)))).
Proof.
  intros Hw Hb. unfold in_upper_band in Hb.
  assert (H36 : 36 ^ w = 36 * 36 ^ (w - 1)).
  { rewrite <- Z.pow_succ_r by lia. f_equal. lia. }
  apply band_head; [exact Hw | | unfold upper_value; lia].
  apply letter_digits. vm_compute. reflexivity.
Qed.

Lemma lower_band_head (w v : Z) :
  1 <= w -> in_lower_band w v ->
  lower_head (head_code (map (digit_char digits_lower)
                             (to_digits 36 (Z.to_nat w) (lower_value w v)))).
Proof.
  intros Hw Hb. unfold in_lower_band in Hb.
  assert (H36 : 36 ^ w = 36 * 36 ^ (w - 1)).
  { rewrite <- Z.pow_succ_r by lia. f_equal. lia. }
  apply band_head; [exact Hw | | unfold lower_value; lia].
  apply letter_digits. vm_compute. reflexivity.
Qed.

(** X2.  The first character of a code tells its band: a space, a minus
    sign or a digit exactly for the decimal band, an upper-case letter
    exactly for the first base-36 band, a lower-case letter exactly for the
    second. *)
Theorem hybrid36_first_character (w v : Z) (s : str) (Hw : 1 <= w)
    (Hs : number_to_hybrid36_number v w = Ok s) :
  (decimal_head (head_code s) <-> v < 10 ^ w)
  /\ (upper_head (head_code s) <-> in_upper_band w v)
  /\ (lower_head (head_code s) <-> in_lower_band w v).
Proof.
  assert (Hp : 0 < 36 ^ (w - 1)) by (apply Z.pow_pos_nonneg; lia).
  unfold in_upper_band, in_lower_band.
  destruct (hybrid36_ok_cases w v s Hw Hs) as [[Hv ->] | [[Hb ->] | [Hb ->]]].
  - pose proof (format_d_head w v Hw Hv) as Hh.
    unfold decimal_head, upper_head, lower_head in *.
    repeat split; intros; lia.
  - pose proof (upper_band_head w v Hw Hb) as Hh.
    unfold in_upper_band in Hb.
    unfold decimal_head, upper_head, lower_head in *.
    repeat split; intros; lia.
  - pose proof (lower_band_head w v Hw Hb) as Hh.
    unfold in_lower_band in Hb.
    unfold decimal_head, upper_head, lower_head in *.
    repeat split; intros; lia.
Qed.

Lemma hybrid36_first_character_witness :
  number_to_hybrid36_number 100000 5 = Ok (lit "A0000")
  /\ (upper_head (head_code (lit "A0000")) <-> in_upper_band 5 100000)
  /\ upper_head (head_code (lit "A0000")).
Proof.
  assert (Hw : 1 <= 5) by lia.
  assert (Hs : number_to_hybrid36_number 100000 5 = Ok (lit "A0000"))
    by reflexivity.
  destruct (hybrid36_first_character 5 100000 (lit "A0000") Hw Hs)
    as (_ & Hu & _).
  split; [exact Hs|]. split; [exact Hu|].
  apply Hu. unfold in_upper_band. split; [discriminate | reflexivity].
Defined.

(** X3.  For a fixed width two different numbers never get the same code,
    across the three bands. *)
Theorem hybrid36_injective (w v1 v2 : Z) (s : str) (Hw : 1 <= w)
    (H1 : number_to_hybrid36_number v1 w = Ok s)
    (H2 : number_to_hybrid36_number v2 w = Ok s) :
  v1 = v2.
Proof.
  assert (Hp : 0 < 36 ^ (w - 1)) by (apply Z.pow_pos_nonneg; lia).
  assert (H36 : 36 ^ w = 36 * 36 ^ (w - 1)).
  { rewrite <- Z.pow_succ_r by lia. f_equal. lia. }
  assert (Hord : forall ds x1 x2,
            Z.of_nat (length ds) = 36 -> increasing_alphabet ds ->
            0 <= x1 -> x1 < x2 -> x2 < 36 ^ w ->
            map (digit_char ds) (to_digits 36 (Z.to_nat w) x1)
            = map (digit_char ds) (to_digits 36 (Z.to_nat w) x2) ->
            False).
  { intros ds x1 x2 Hds Hinc Ha Hlt Hb E.
    pose proof (band_order w Hw ds x1 x2 Hds Hinc Ha Hlt Hb) as Ho.
    rewrite E in Ho. exact (str_lt_irrefl _ Ho). }
  destruct (hybrid36_ok_cases w v1 s Hw H1) as [[Hv1 E1] | [[Hb1 E1] | [Hb1 E1]]];
    destruct (hybrid36_ok_cases w v2 s Hw H2) as [[Hv2 E2] | [[Hb2 E2] | [Hb2 E2]]].
  - (* both decimal: int reads the number back *)
    pose proof (py_int_format_d w v1 Hw Hv1) as R1.
    pose proof (py_int_format_d w v2 Hw Hv2) as R2.
    rewrite <- E1 in R1. rewrite <- E2 in R2. congruence.
  - pose proof (format_d_head w v1 Hw Hv1) as Hh1.
    pose proof (upper_band_head w v2 Hw Hb2) as Hh2.
    rewrite <- E1 in Hh1. rewrite <- E2 in Hh2.
    unfold decimal_head, upper_head in *. lia.
  - pose proof (format_d_head w v1 Hw Hv1) as Hh1.
    pose proof (lower_band_head w v2 Hw Hb2) as Hh2.
    rewrite <- E1 in Hh1. rewrite <- E2 in Hh2.
    unfold decimal_head, lower_head in *. lia.
  - pose proof (upper_band_head w v1 Hw Hb1) as Hh1.
    pose proof (format_d_head w v2 Hw Hv2) as Hh2.
    rewrite <- E1 in Hh1. rewrite <- E2 in Hh2.
    unfold decimal_head, upper_head in *. lia.
  - (* both in the upper-case band: the codes are ordered as the numbers *)
    unfold in_upper_band in Hb1, Hb2.
    assert (E : map (digit_char digits_upper)
                    (to_digits 36 (Z.to_nat w) (upper_value w v1))
                = map (digit_char digits_upper)
                      (to_digits 36 (Z.to_nat w) (upper_value w v2)))
      by congruence.
    destruct (Z.lt_trichotomy v1 v2) as [Hlt | [Heq | Hgt]]; [|exact Heq|].
    + exfalso.
      apply (Hord digits_upper (upper_value w v1) (upper_value w v2));
        unfold upper_value in *; auto using digits_upper_increasing; lia.
    + exfalso.
      apply (Hord digits_upper (upper_value w v2) (upper_value w v1));
        unfold upper_value in *; auto using digits_upper_increasing; lia.
  - pose proof (upper_band_head w v1 Hw Hb1) as Hh1.
    pose proof (lower_band_head w v2 Hw Hb2) as Hh2.
    rewrite <- E1 in Hh1. rewrite <- E2 in Hh2.
    unfold upper_head, lower_head in *. lia.
  - pose proof (lower_band_head w v1 Hw Hb1) as Hh1.
    pose proof (format_d_head w v2 Hw Hv2) as Hh2.
    rewrite <- E1 in Hh1. rewrite <- E2 in Hh2.
    unfold decimal_head, lower_head in *. lia.
  - pose proof (lower_band_head w v1 Hw Hb1) as Hh1.
    pose proof (upper_band_head w v2 Hw Hb2) as Hh2.
    rewrite <- E1 in Hh1. rewrite <- E2 in Hh2.
    unfold upper_head, lower_head in *. lia.
  - unfold in_lower_band in Hb1, Hb2.
    assert (E : map (digit_char digits_lower)
                    (to_digits 36 (Z.to_nat w) (lower_value w v1))
                = map (digit_char digits_lower)
                      (to_digits 36 (Z.to_nat w) (lower_value w v2)))
      by congruence.
    destruct (Z.lt_trichotomy v1 v2) as [Hlt | [Heq | Hgt]]; [|exact Heq|].
    + exfalso.
      apply (Hord digits_lower (lower_value w v1) (lower_value w v2));
        unfold lower_value in *; auto using digits_lower_increasing; lia.
    + exfalso.
      apply (Hord digits_lower (lower_value w v2) (lower_value w v1));
        unfold lower_value in *; auto using digits_lower_increasing; lia.
Qed.

Lemma hybrid36_injective_witness :
  number_to_hybrid36_number 43770015 5 = Ok (lit "ZZZZZ")
  /\ 43770015 = 43770015
  /\ number_to_hybrid36_number 43770016 5 <> Ok (lit "ZZZZZ").
Proof.
  assert (Hw : 1 <= 5) by lia.
  assert (H1 : number_to_hybrid36_number 43770015 5 = Ok (lit "ZZZZZ"))
    by (vm_compute; reflexivity).
  split; [exact H1|]. split.
  - exact (hybrid36_injective 5 43770015 43770015 (lit "ZZZZZ") Hw H1 H1).
  - intros H2.
    discriminate (hybrid36_injective 5 43770016 43770015 (lit "ZZZZZ") Hw H2 H1).
Defined.

(** X4.  [encode_pure] with any alphabet of [n >= 2] digits: a negative
    value fails the assertion; a non-negative value is rendered as a
    non-empty list of digits of that base whose value is the number, with no
    leading zero digit for a positive number. *)
Theorem encode_pure_any_base (ds : str) (v : Z)
    (Hn : 2 <= Z.of_nat (length ds)) :
  (v < 0 -> encode_pure ds v = Err AssertionError)
  /\ (0 <= v ->
      exists l,
        encode_pure ds v = Ok (map (digit_char ds) l)
        /\ l <> []
        /\ Forall (fun d => 0 <= d < Z.of_nat (length ds)) l
        /\ from_digits (Z.of_nat (length ds)) 0 l = v
        /\ (0 < v -> 0 < hd 0 l)).
Proof.
  set (n := Z.of_nat (length ds)) in *. split.
  - intros Hneg. unfold encode_pure.
    rewrite Z.geb_leb.
    now replace (0 <=? v) with false by (symmetry; apply Z.leb_gt; lia).
  - intros Hv. destruct (Z.eq_dec v 0) as [-> | Hnz].
    + exists [0]. unfold encode_pure. cbn [negb Z.geb Z.compare Z.eqb].
      rewrite (getitem_digit ds) by (fold n; lia).
      repeat split; try discriminate; try lia.
      constructor; [fold n; lia | constructor].
    + assert (Hpow : v < n ^ Z.of_nat (Z.to_nat v)).
      { rewrite Z2Nat.id by lia.
        apply Z.lt_le_trans with (2 ^ v); [apply Z.pow_gt_lin_r; lia|].
        apply Z.pow_le_mono_l. lia. }
      destruct (digit_count ds (Z.to_nat v) v) as (k & _ & Hk);
        [fold n; lia|]. fold n in Hk.
      exists (to_digits n (S k) v).
      assert (Hpk : 0 < n ^ Z.of_nat k) by (apply Z.pow_pos_nonneg; lia).
      split; [exact (encode_pure_digits ds Hn k v Hk)|].
      split.
      { intros E. apply (f_equal (@length Z)) in E.
        rewrite to_digits_length in E. discriminate. }
      split; [apply to_digits_range; lia|].
      split; [rewrite from_to_digits by lia; lia|].
      intros _. destruct (to_digits_head n k v ltac:(lia)) as (tl & ->); [lia|].
      cbn [hd]. apply Z.div_str_pos. lia.
Qed.

Lemma encode_pure_any_base_witness :
  encode_pure digits_upper (-1) = Err AssertionError
  /\ exists l,
       encode_pure digits_upper 1295 = Ok (map (digit_char digits_upper) l)
       /\ from_digits 36 0 l = 1295.
Proof.
  assert (Hn : 2 <= Z.of_nat (length digits_upper)) by (vm_compute; discriminate).
  destruct (encode_pure_any_base digits_upper (-1) Hn) as (Hneg & _).
  destruct (encode_pure_any_base digits_upper 1295 Hn) as (_ & Hpos).
  split; [apply Hneg; reflexivity|].
  destruct (Hpos ltac:(discriminate)) as (l & He & _ & _ & Hval & _).
  exists l. split; [exact He | exact Hval].
Defined.

(** ** The Numeric Codec: codes sort as the numbers *)

Lemma str_lt_prefix (p a b : str) : str_lt a b -> str_lt (p ++ a) (p ++ b).
Proof. intros H. induction p as [|c p IH]; [exact H | right; now split]. Qed.

Lemma str_lt_head (a b : str) :
  (0 < head_code a < head_code b)%nat -> str_lt a b.
Proof.
  destruct a as [|x a]; [simpl; lia|]. destruct b as [|y b]; [simpl; lia|].
  simpl. intros H. left. lia.
Qed.

Lemma digits_decimal_increasing : increasing_alphabet digits_decimal.
Proof. apply increasing_alphabetb_sound. vm_compute. reflexivity. Qed.

(** Two space-padded decimal numerals of one width are ordered as their
    numbers. *)
Lemma padded_decimal_order (w : nat) (v1 v2 : Z) :
  0 <= v1 -> v1 < v2 -> v2 < 10 ^ Z.of_nat w ->
  str_lt (rjust w " " (str_of_nonneg v1)) (rjust w " " (str_of_nonneg v2)).
Proof.
  intros H0 Hlt Hub.
  destruct (str_of_nonneg_spec w v1 ltac:(lia)) as (k1 & Hk1 & Hr1 & E1).
  destruct (str_of_nonneg_spec w v2 ltac:(lia)) as (k2 & Hk2 & Hr2 & E2).
  assert (Hw : (1 <= w)%nat).
  { destruct w; [simpl in Hub; lia | lia]. }
  (* the digit counts are exact: no leading zero but for the number 0 *)
  assert (Hlead : forall v k,
            str_of_nonneg v = map (digit_char digits_decimal)
                                  (to_digits 10 (S k) v) ->
            0 <= v < 10 ^ Z.of_nat (S k) -> 0 < v -> 10 ^ Z.of_nat k <= v).
  { intros v k E Hr Hpos.
    destruct (digit_count digits_decimal (S k) v) as (j & Hj & Hjr).
    { rewrite digits_decimal_length. lia. }
    rewrite digits_decimal_length in Hjr.
    assert (Hj' : str_of_nonneg v
                  = map (digit_char digits_decimal) (to_digits 10 (S j) v)).
    { unfold str_of_nonneg.
      rewrite (encode_pure_digits digits_decimal) with (k := j);
        [reflexivity | rewrite digits_decimal_length; lia
         | rewrite digits_decimal_length; exact Hjr]. }
    rewrite Hj' in E. apply (f_equal (@length ascii)) in E.
    rewrite !length_map, !to_digits_length in E.
    replace k with j by lia. lia. }
  unfold rjust. rewrite E1, E2, !length_map, !to_digits_length.
  assert (Hk : (k1 <= k2)%nat).
  { destruct (Z.eq_dec v1 0) as [-> | Hnz].
    - assert (k1 = 0%nat); [|lia].
      destruct k1; [reflexivity|]. exfalso.
      assert (E0 : str_of_nonneg 0 = lit "0") by reflexivity.
      rewrite E0 in E1. apply (f_equal (@length ascii)) in E1.
      rewrite length_map, to_digits_length in E1. discriminate.
    - pose proof (Hlead v1 k1 E1 Hr1 ltac:(lia)) as Hl1.
      destruct (Nat.le_gt_cases k1 k2) as [|Hgt]; [assumption|]. exfalso.
      assert (10 ^ Z.of_nat (S k2) <= 10 ^ Z.of_nat k1)
        by (apply Z.pow_le_mono_r; lia).
      lia. }
  destruct (Nat.eq_dec k1 k2) as [-> | Hne].
  - apply str_lt_prefix. apply digits_lt_str_lt.
    + exact digits_decimal_increasing.
    + rewrite digits_decimal_length. apply to_digits_range. lia.
    + rewrite digits_decimal_length. apply to_digits_range. lia.
    + apply to_digits_lt; lia.
  - replace (w - S k1)%nat with ((w - S k2) + S (k2 - S k1))%nat by lia.
    rewrite repeat_app, <- app_assoc. apply str_lt_prefix.
    pose proof (Hlead v2 k2 E2 Hr2 ltac:(lia)) as Hl2.
    destruct (to_digits_head 10 k2 v2 ltac:(lia) Hr2) as (tl & ->).
    cbn [repeat app map]. left.
    assert (Hd : decimal_digit (v2 / 10 ^ Z.of_nat k2)).
    { assert (Hp : 0 < 10 ^ Z.of_nat k2) by (apply Z.pow_pos_nonneg; lia).
      rewrite Nat2Z.inj_succ, Z.pow_succ_r in Hr2 by lia.
      unfold decimal_digit. split.
      - apply Z.div_pos; lia.
      - apply Z.div_lt_upper_bound; lia. }
    pose proof (decimal_digit_code _ Hd) as Hc.
    change (nat_of_ascii " ") with 32%nat. lia.
Qed.

Lemma format_d_nonempty_head (w v : Z) :
  1 <= w -> 1 - 10 ^ (w - 1) <= v < 10 ^ w ->
  (0 < head_code (format_d v w))%nat.
Proof.
  intros Hw Hv. pose proof (format_d_head w v Hw Hv) as H.
  unfold decimal_head in H. lia.
Qed.

(** X5.  For a fixed width the codes of non-negative numbers are in
    Python's string order exactly as the numbers are in numeric order, over
    the decimal band and the two base-36 bands together. *)
Theorem hybrid36_order_nonnegative (w v1 v2 : Z) (s1 s2 : str)
    (Hw : 1 <= w) (H0 : 0 <= v1) (Hlt : v1 < v2)
    (H1 : number_to_hybrid36_number v1 w = Ok s1)
    (H2 : number_to_hybrid36_number v2 w = Ok s2) :
  str_lt s1 s2.
Proof.
  assert (Hp : 0 < 36 ^ (w - 1)) by (apply Z.pow_pos_nonneg; lia).
  assert (H36 : 36 ^ w = 36 * 36 ^ (w - 1)).
  { rewrite <- Z.pow_succ_r by lia. f_equal. lia. }
  destruct (hybrid36_ok_cases w v1 s1 Hw H1) as [[Hv1 ->] | [[Hb1 ->] | [Hb1 ->]]];
    destruct (hybrid36_ok_cases w v2 s2 Hw H2) as [[Hv2 ->] | [[Hb2 ->] | [Hb2 ->]]];
    try (unfold in_upper_band, in_lower_band in *; lia).
  - unfold format_d, str_of_int.
    replace (v1 <? 0) with false by (symmetry; apply Z.ltb_ge; lia).
    replace (v2 <? 0) with false by (symmetry; apply Z.ltb_ge; lia).
    apply padded_decimal_order; try lia.
    replace (Z.of_nat (Z.to_nat w)) with w by lia. lia.
  - apply str_lt_head.
    pose proof (format_d_head w v1 Hw Hv1) as Ha.
    pose proof (upper_band_head w v2 Hw Hb2) as Hb.
    unfold decimal_head, upper_head in *. lia.
  - apply str_lt_head.
    pose proof (format_d_head w v1 Hw Hv1) as Ha.
    pose proof (lower_band_head w v2 Hw Hb2) as Hb.
    unfold decimal_head, lower_head in *. lia.
  - unfold in_upper_band in *.
    apply (band_order w Hw); unfold upper_value;
      [reflexivity | exact digits_upper_increasing | lia | lia | lia].
  - apply str_lt_head.
    pose proof (upper_band_head w v1 Hw Hb1) as Ha.
    pose proof (lower_band_head w v2 Hw Hb2) as Hb.
    unfold upper_head, lower_head in *. lia.
  - unfold in_lower_band in *.
    apply (band_order w Hw); unfold lower_value;
      [reflexivity | exact digits_lower_increasing | lia | lia | lia].
Qed.

Lemma hybrid36_order_nonnegative_witness :
  str_lt (lit "99999") (lit "A0000")
  /\ str_lt (lit "ZZZZZ") (lit "a0000")
  /\ str_lt (lit "    9") (lit "   10").
Proof.
  assert (Hw : 1 <= 5) by lia.
  split; [|split].
  - exact (hybrid36_order_nonnegative 5 99999 100000 (lit "99999") (lit "A0000")
             Hw ltac:(discriminate) eq_refl eq_refl eq_refl).
  - exact (hybrid36_order_nonnegative 5 43770015 43770016 (lit "ZZZZZ")
             (lit "a0000") Hw ltac:(discriminate) eq_refl eq_refl eq_refl).
  - exact (hybrid36_order_nonnegative 5 9 10 (lit "    9") (lit "   10")
             Hw ltac:(discriminate) eq_refl eq_refl eq_refl).
Defined.

(** ** Chain letters and labels *)

Lemma char_in_In (c : ascii) (s : str) : char_in c s = true <-> In c s.
Proof.
  unfold char_in. rewrite existsb_exists. split.
  - intros (x & Hin & E). apply Ascii.eqb_eq in E. now subst.
  - intros Hin. exists c. split; [exact Hin | apply Ascii.eqb_refl].
Qed.

Lemma increase_chain_id_check (c : ascii) :
  match increase_chain_id c with
  | Ok next =>
      char_in next possible_chain_ids
      && Bool.eqb (Ascii.eqb next "A") (negb (char_in c possible_chain_ids))
  | Err _ => false
  end = true.
Proof.
  destruct c as [b0 b1 b2 b3 b4 b5 b6 b7].
  destruct b0, b1, b2, b3, b4, b5, b6, b7; vm_compute; reflexivity.
Qed.

(** X6.  [increase_chain_id] never raises and always returns a letter of the
    alphabet; the letter is ['A'] exactly when the argument is not an
    upper-case letter ([find] gives -1), so that no letter leads back to
    ['A']. *)
Theorem increase_chain_id_total (c : ascii) :
  exists next,
    increase_chain_id c = Ok next
    /\ In next possible_chain_ids
    /\ (next = "A"%char <-> ~ In c possible_chain_ids).
Proof.
  pose proof (increase_chain_id_check c) as H.
  destruct (increase_chain_id c) as [next|e]; [|discriminate].
  exists next. split; [reflexivity|].
  apply andb_prop in H. destruct H as (Hin & Hiff).
  split; [now apply char_in_In|].
  apply Bool.eqb_prop in Hiff. rewrite <- char_in_In. split.
  - intros ->. change (Ascii.eqb "A" "A") with true in Hiff.
    destruct (char_in c possible_chain_ids); [discriminate | discriminate].
  - intros Hc. apply Ascii.eqb_eq. rewrite Hiff.
    destruct (char_in c possible_chain_ids); [now contradiction Hc | reflexivity].
Qed.

(** What a returning renumbering step did, branch by branch. *)
Lemma correct_molecule_chain_cases (line : str) (reset : bool)
    (cur : Current.t) (l : str) (t : bool) (cur' : Current.t) :
  correct_molecule_chain line reset cur = Ok (l, t, cur') ->
  exists n id new rep number,
    py_int (remove_spaces (slice 22 26 line)) = Ok n
    /\ number_to_hybrid36_number (if reset then new else n) 4 = Ok number
    /\ l = chain_line line id number rep
    /\ cur' = Current.mk (Current.atom_number cur) n new id rep
                         (Some (slice 72 76 line))
    /\ match Current.chain cur with
       | None =>
           id = Current.chain_id cur /\ new = 1 /\ t = false
           /\ rep = Current.chain_id_repeats cur
       | Some prev =>
           if str_eqb (slice 72 76 line) prev then
             id = Current.chain_id cur
             /\ rep = Current.chain_id_repeats cur
             /\ (if n =? Current.old_molecule_number cur
                 then new = Current.last_molecule_number cur /\ t = false
                 else if n =? Current.old_molecule_number cur + 1
                      then new = Current.last_molecule_number cur + 1
                           /\ t = false
                      else new = Current.last_molecule_number cur + 10
                           /\ t = true)
           else
             increase_chain_id (Current.chain_id cur) = Ok id
             /\ new = 1 /\ t = true
             /\ rep = (if Ascii.eqb (Current.chain_id cur) "Z"
                       then Current.chain_id_repeats cur + 1
                       else Current.chain_id_repeats cur)
       end.
Proof.
  unfold correct_molecule_chain. intros H.
  apply bind_ok in H. destruct H as (n & Hint & H).
  apply bind_ok in H. destruct H as ([[[id new] ter] rep] & Hbranch & H).
  apply bind_ok in H. destruct H as (number & Hnum & H).
  injection H as <- <- <-.
  exists n, id, new, rep, number.
  split; [exact Hint|]. split; [destruct reset; exact Hnum|].
  split; [reflexivity|]. split; [reflexivity|].
  destruct (Current.chain cur) as [prev|].
  - destruct (str_eqb (slice 72 76 line) prev).
    + destruct (n =? Current.old_molecule_number cur);
        [|destruct (n =? Current.old_molecule_number cur + 1)];
        injection Hbranch as <- <- <- <-; auto.
    + apply bind_ok in Hbranch. destruct Hbranch as (next & Hnext & Hbranch).
      injection Hbranch as <- <- <- <-. auto.
  - injection Hbranch as <- <- <- <-. auto.
Qed.

Lemma chain_index_nth (i : nat) (c : ascii) :
  nth_error possible_chain_ids i = Some c -> chain_index c = Z.of_nat i.
Proof.
  intros H.
  do 26 (destruct i as [|i]; [injection H as <-; reflexivity |]).
  destruct i; discriminate.
Qed.

Lemma label_rank_injective (c1 c2 : Current.t) :
  label_ok c1 -> label_ok c2 -> label_rank c1 = label_rank c2 ->
  Current.chain_id c1 = Current.chain_id c2
  /\ Current.chain_id_repeats c1 = Current.chain_id_repeats c2.
Proof.
  intros ((_ & _ & Hr1 & i1 & Hi1) & HA1) ((_ & _ & Hr2 & i2 & Hi2) & HA2).
  unfold label_rank.
  rewrite (chain_index_nth _ _ Hi1), (chain_index_nth _ _ Hi2).
  assert (H1 : (i1 < 26)%nat).
  { change 26%nat with (length possible_chain_ids).
    apply nth_error_Some. rewrite Hi1. discriminate. }
  assert (H2 : (i2 < 26)%nat).
  { change 26%nat with (length possible_chain_ids).
    apply nth_error_Some. rewrite Hi2. discriminate. }
  assert (Z1 : i1 = 0%nat -> Current.chain_id_repeats c1 = 1).
  { intros ->. apply HA1. now injection Hi1. }
  assert (Z2 : i2 = 0%nat -> Current.chain_id_repeats c2 = 1).
  { intros ->. apply HA2. now injection Hi2. }
  intros E.
  assert (Hi : i1 = i2).
  { destruct (Nat.eq_dec i1 0) as [E1|N1]; destruct (Nat.eq_dec i2 0) as [E2|N2];
      try (specialize (Z1 E1)); try (specialize (Z2 E2)); lia. }
  subst i2. split; [congruence | lia].
Qed.

(** X7.  The label of a state (chain letter and repeat counter) moves along
    the sequence A001, B001, ..., Z001, B002, ..., Z002, B003, ...: a record
    of a new segment advances it by exactly one place, a record of the same
    segment and the first record leave it in place.  A place determines its
    label, so no label is handed out twice on a corrector. *)
Theorem label_rank_step (line : str) (reset : bool) (cur : Current.t)
    (l : str) (t : bool) (cur' : Current.t)
    (Hok : label_ok cur)
    (Hrun : correct_molecule_chain line reset cur = Ok (l, t, cur')) :
  label_ok cur'
  /\ (forall prev, Current.chain cur = Some prev ->
                   slice 72 76 line <> prev ->
                   label_rank cur' = label_rank cur + 1)
  /\ (Current.chain cur = None
      \/ Current.chain cur = Some (slice 72 76 line) ->
      label_rank cur' = label_rank cur)
  /\ (forall other, label_ok other -> label_rank other = label_rank cur' ->
        Current.chain_id other = Current.chain_id cur'
        /\ Current.chain_id_repeats other = Current.chain_id_repeats cur').
Proof.
  assert (Hok' : label_ok cur').
  { destruct Hok as (Hc & HA). split.
    - eapply correct_molecule_chain_ok; eauto.
    - destruct (correct_molecule_chain_cases _ _ _ _ _ _ Hrun)
        as (n & id & new & rep & number & _ & _ & _ & -> & Hb).
      cbn [Current.chain_id Current.chain_id_repeats].
      destruct (Current.chain cur) as [prev|].
      + destruct (str_eqb (slice 72 76 line) prev).
        * destruct Hb as (-> & -> & _). exact HA.
        * destruct Hb as (Hinc & _ & _ & _). intros HidA.
          destruct Hc as (_ & _ & _ & i & Hi).
          destruct (increase_chain_id_spec i _ Hi) as (Hinc' & _ & Hne).
          set (next_id := nth (if Nat.eqb i 25 then 1%nat else S i)
                              possible_chain_ids "A"%char) in *.
          clearbody next_id. rewrite Hinc' in Hinc.
          injection Hinc as Hinc. congruence.
      + destruct Hb as (-> & _ & _ & ->). exact HA. }
  split; [exact Hok'|].
  destruct (correct_molecule_chain_cases _ _ _ _ _ _ Hrun)
    as (n & id & new & rep & number & _ & _ & _ & E & Hb).
  split; [|split].
  - intros prev Hprev Hdiff. rewrite Hprev in Hb.
    rewrite (proj2 (str_eqb_neq _ _) Hdiff) in Hb.
    destruct Hb as (Hinc & _ & _ & Hrep).
    destruct Hok as ((_ & _ & _ & i & Hi) & _).
    destruct (increase_chain_id_spec i _ Hi) as (Hinc' & HZ & _).
    assert (Hi26 : (i < 26)%nat).
    { change 26%nat with (length possible_chain_ids).
      apply nth_error_Some. rewrite Hi. discriminate. }
    assert (Hnth : nth_error possible_chain_ids
                             (if Nat.eqb i 25 then 1%nat else S i)
                   = Some (nth (if Nat.eqb i 25 then 1%nat else S i)
                               possible_chain_ids "A"%char)).
    { apply nth_error_nth'. change (length possible_chain_ids) with 26%nat.
      destruct (Nat.eqb_spec i 25); lia. }
    set (next_id := nth (if Nat.eqb i 25 then 1%nat else S i)
                        possible_chain_ids "A"%char) in *.
    clearbody next_id. rewrite Hinc' in Hinc. injection Hinc as Hid.
    assert (Hnext : nth_error possible_chain_ids
                              (if Nat.eqb i 25 then 1%nat else S i) = Some id)
      by congruence.
    subst cur'. unfold label_rank.
    cbn [Current.chain_id Current.chain_id_repeats].
    rewrite (chain_index_nth _ _ Hnext), (chain_index_nth _ _ Hi), Hrep, HZ.
    destruct (Nat.eqb_spec i 25); lia.
  - intros Hsame. subst cur'. unfold label_rank.
    cbn [Current.chain_id Current.chain_id_repeats].
    destruct Hsame as [Hnone | Hsome].
    + rewrite Hnone in Hb. destruct Hb as (-> & _ & _ & ->). reflexivity.
    + rewrite Hsome, str_eqb_refl in Hb. destruct Hb as (-> & -> & _).
      reflexivity.
  - intros other Hother Hrank. now apply label_rank_injective.
Qed.

Lemma label_rank_step_witness :
  exists l cur',
    correct_molecule_chain rec_S2_1_H true in_segment_S1_at_Z
    = Ok (l, true, cur')
    /\ label_rank in_segment_S1_at_Z = 25
    /\ label_rank cur' = label_rank in_segment_S1_at_Z + 1
    /\ Current.chain_id cur' = "B"%char
    /\ Current.chain_id_repeats cur' = 2.
Proof.
  assert (Hok : label_ok in_segment_S1_at_Z).
  { split; [|discriminate].
    repeat split; try (simpl; lia). now exists 25%nat. }
  destruct (correct_molecule_chain rec_S2_1_H true in_segment_S1_at_Z)
    as [[[l t] cur']|e] eqn:Hrun; [|vm_compute in Hrun; discriminate Hrun].
  assert (Ht : t = true /\ Current.chain_id cur' = "B"%char
               /\ Current.chain_id_repeats cur' = 2).
  { vm_compute in Hrun. injection Hrun as _ <- <-. repeat split. }
  destruct Ht as (-> & Hid & Hrep).
  exists l, cur'. split; [reflexivity|]. split; [reflexivity|].
  destruct (label_rank_step rec_S2_1_H true in_segment_S1_at_Z l true cur'
              Hok Hrun) as (_ & Hstep & _).
  split; [|split; assumption].
  apply (Hstep (lit "S1  ")); [reflexivity | vm_compute; discriminate].
Defined.

(** ** The renumbering step: first record, exceptions, frame *)

Lemma hybrid36_only_value_error (w v : Z) (e : exn) :
  1 <= w -> number_to_hybrid36_number v w = Err e -> e = ValueError.
Proof.
  intros Hw H.
  destruct (Z_lt_dec v (1 - 10 ^ (w - 1))) as [Hlo | Hlo].
  { rewrite hybrid36_out_of_range in H by (auto; lia). congruence. }
  destruct (Z_lt_dec v (10 ^ w + 2 * 26 * 36 ^ (w - 1))) as [Hhi | Hhi].
  { destruct (hybrid36_in_range w Hw v ltac:(lia)) as (s & Hs & _). congruence. }
  rewrite hybrid36_out_of_range in H by (auto; lia). congruence.
Qed.

Lemma hybrid36_width4_length (v : Z) (s : str) :
  number_to_hybrid36_number v 4 = Ok s -> length s = 4%nat.
Proof.
  intros H.
  destruct (Z_lt_dec v (-999)) as [Hlo | Hlo].
  { rewrite (hybrid36_out_of_range 4 ltac:(lia) v) in H; [discriminate|].
    left. change (10 ^ (4 - 1)) with 1000. lia. }
  destruct (Z_lt_dec v 2436112) as [Hhi | Hhi].
  { destruct (hybrid36_width4 v ltac:(lia)) as (s' & Hs & Hl). congruence. }
  rewrite (hybrid36_out_of_range 4 ltac:(lia) v) in H; [discriminate|].
  right. change (10 ^ 4) with 10000. change (36 ^ (4 - 1)) with 46656. lia.
Qed.

Lemma py_int_only_value_error (s : str) (e : exn) :
  py_int s = Err e -> e = ValueError.
Proof. unfold py_int. destruct (parse_signed _); congruence. Qed.

(** X8.  The first record a corrector sees (no segment remembered) keeps the
    chain letter and the repeat counter, gets the output residue number 1
    and no terminator, whatever its own residue number is; the step returns
    for every record whose residue field [int] can read. *)
Theorem first_record_renumbering (line : str) (reset : bool)
    (cur : Current.t) (n : Z)
    (Hnone : Current.chain cur = None)
    (Hint : py_int (remove_spaces (slice 22 26 line)) = Ok n) :
  exists number,
    correct_molecule_chain line reset cur
    = Ok (chain_line line (Current.chain_id cur) number
                     (Current.chain_id_repeats cur),
          false,
          Current.mk (Current.atom_number cur) n 1 (Current.chain_id cur)
                     (Current.chain_id_repeats cur) (Some (slice 72 76 line)))
    /\ number_to_hybrid36_number (if reset then 1 else n) 4 = Ok number
    /\ (reset = true -> number = lit "   1").
Proof.
  pose proof (py_int_field_range line n Hint) as Hn.
  destruct (hybrid36_width4 (if reset then 1 else n)) as (number & Hnum & _);
    [destruct reset; lia|].
  exists number. split; [|split; [exact Hnum|]].
  - unfold correct_molecule_chain. rewrite Hint. cbn [bind].
    rewrite Hnone. cbn [bind].
    assert (Henc : (if reset then number_to_hybrid36_number 1 4
                    else number_to_hybrid36_number n 4) = Ok number)
      by (destruct reset; exact Hnum).
    rewrite Henc. reflexivity.
  - intros ->. vm_compute in Hnum. now injection Hnum as <-.
Qed.

Lemma first_record_renumbering_witness :
  exists number,
    correct_molecule_chain rec_S1_7_CA true post_init
    = Ok (chain_line rec_S1_7_CA "A" number 1, false,
          Current.mk 1 7 1 "A" 1 (Some (lit "S1  ")))
    /\ number = lit "   1".
Proof.
  destruct (first_record_renumbering rec_S1_7_CA true post_init 7
              eq_refl eq_refl) as (number & Hrun & _ & Hone).
  exists number. split; [exact Hrun | exact (Hone eq_refl)].
Defined.

(** X9.  The only exception [correct_molecule_chain] raises is
    [ValueError].  It raises it whenever [int] cannot read the residue
    field; with [reset_numbers] off it raises in no other case; with
    [reset_numbers] on it also raises when a numbering break would take the
    output residue number past the range of the four-column field. *)
Theorem correct_molecule_chain_errors (line : str) (reset : bool)
    (cur : Current.t) :
  (forall e, correct_molecule_chain line reset cur = Err e -> e = ValueError)
  /\ (py_int (remove_spaces (slice 22 26 line)) = Err ValueError ->
      correct_molecule_chain line reset cur = Err ValueError)
  /\ (reset = false ->
      forall n, py_int (remove_spaces (slice 22 26 line)) = Ok n ->
      exists l t cur', correct_molecule_chain line reset cur = Ok (l, t, cur'))
  /\ (reset = true ->
      forall n, py_int (remove_spaces (slice 22 26 line)) = Ok n ->
      Current.chain cur = Some (slice 72 76 line) ->
      n <> Current.old_molecule_number cur ->
      n <> Current.old_molecule_number cur + 1 ->
      10 ^ 4 + 2 * 26 * 36 ^ (4 - 1)
      <= Current.last_molecule_number cur + 10 ->
      correct_molecule_chain line reset cur = Err ValueError).
Proof.
  split; [|split; [|split]].
  - intros e H. unfold correct_molecule_chain in H.
    destruct (py_int (remove_spaces (slice 22 26 line))) as [n|e0] eqn:Hint.
    2:{ cbn [bind] in H. injection H as <-.
        now apply py_int_only_value_error in Hint. }
    cbn [bind] in H.
    match type of H with
    | bind ?m _ = _ => destruct m as [[[[id new] ter] rep]|e1] eqn:Hb
    end.
    2:{ exfalso. destruct (Current.chain cur) as [prev|]; [|discriminate Hb].
        destruct (str_eqb (slice 72 76 line) prev).
        - destruct (n =? Current.old_molecule_number cur);
            [discriminate Hb|].
          destruct (n =? Current.old_molecule_number cur + 1); discriminate Hb.
        - pose proof (increase_chain_id_check (Current.chain_id cur)) as Hc.
          destruct (increase_chain_id (Current.chain_id cur));
            [discriminate Hb | discriminate Hc]. }
    cbn [bind] in H.
    match type of H with
    | bind ?m _ = _ => destruct m as [number|e2] eqn:Hnum
    end; [discriminate H|].
    cbn [bind] in H. injection H as <-.
    destruct reset; eapply hybrid36_only_value_error; eauto; lia.
  - intros Hint. unfold correct_molecule_chain. now rewrite Hint.
  - intros -> n Hint.
    pose proof (py_int_field_range line n Hint) as Hn.
    destruct (hybrid36_width4 n ltac:(lia)) as (number & Hnum & _).
    unfold correct_molecule_chain. rewrite Hint. cbn [bind].
    match goal with
    | |- exists _ _ _, bind ?m _ = _ => assert (Hb : exists r, m = Ok r)
    end.
    { destruct (Current.chain cur) as [prev|]; [|eexists; reflexivity].
      destruct (str_eqb (slice 72 76 line) prev).
      - destruct (n =? Current.old_molecule_number cur);
          [eexists; reflexivity|].
        destruct (n =? Current.old_molecule_number cur + 1);
          eexists; reflexivity.
      - pose proof (increase_chain_id_check (Current.chain_id cur)) as Hc.
        destruct (increase_chain_id (Current.chain_id cur));
          [eexists; reflexivity | discriminate Hc]. }
    destruct Hb as ([[[id new] ter] rep] & ->). cbn [bind].
    rewrite Hnum. cbn [bind]. do 3 eexists. reflexivity.
  - intros -> n Hint Hseg Hne1 Hne2 Hfull.
    unfold correct_molecule_chain. rewrite Hint. cbn [bind].
    rewrite Hseg, str_eqb_refl.
    rewrite (proj2 (Z.eqb_neq _ _) Hne1), (proj2 (Z.eqb_neq _ _) Hne2).
    cbn [bind].
    rewrite (hybrid36_out_of_range 4 ltac:(lia)); [reflexivity|].
    right. lia.
Qed.

Lemma correct_molecule_chain_errors_witness :
  correct_molecule_chain rec_unreadable_residue true post_init = Err ValueError
  /\ (exists l t cur',
        correct_molecule_chain rec_S1_7_CA false in_segment_S1_full
        = Ok (l, t, cur'))
  /\ correct_molecule_chain rec_S1_7_CA true in_segment_S1_full
     = Err ValueError.
Proof.
  destruct (correct_molecule_chain_errors rec_unreadable_residue true post_init)
    as (_ & Hbad & _).
  destruct (correct_molecule_chain_errors rec_S1_7_CA false in_segment_S1_full)
    as (_ & _ & Hoff & _).
  destruct (correct_molecule_chain_errors rec_S1_7_CA true in_segment_S1_full)
    as (_ & _ & _ & Hon).
  split; [apply Hbad; vm_compute; reflexivity|].
  split; [apply (Hoff eq_refl 7); vm_compute; reflexivity|].
  apply (Hon eq_refl 7); try reflexivity; try discriminate.
Defined.

(** X10.  On a record of at least 76 columns, with the repeat counter below
    1000, the record [correct_molecule_chain] returns has the length of the
    input record; the columns [0,21), [26,67) (the coordinates among them)
    and everything from column 76 on are those of the input, and the columns
    [67,72) are blanked. *)
Theorem correct_molecule_chain_frame (line : str) (reset : bool)
    (cur : Current.t) (l : str) (t : bool) (cur' : Current.t)
    (Hrun : correct_molecule_chain line reset cur = Ok (l, t, cur'))
    (Hlen : (76 <= length line)%nat)
    (Hrep : 0 <= Current.chain_id_repeats cur' < 1000) :
  length l = length line
  /\ slice 0 21 l = slice 0 21 line
  /\ slice 26 67 l = slice 26 67 line
  /\ slice 67 72 l = lit "     "
  /\ slice_from 76 l = slice_from 76 line.
Proof.
  destruct (correct_molecule_chain_cases _ _ _ _ _ _ Hrun)
    as (n & id & new & rep & number & _ & Hnum & -> & -> & _).
  cbn [Current.chain_id_repeats] in Hrep.
  apply hybrid36_width4_length in Hnum.
  destruct (repeat_suffix rep Hrep) as (Hlabel & _).
  unfold chain_line.
  set (label := rjust 3 "0" (str_of_int rep)) in *. clearbody label.
  explode_exact number Hnum. explode_exact label Hlabel.
  explode line Hlen. cbn -[Nat.sub]. rewrite app_nil_r.
  repeat split.
Qed.

Lemma correct_molecule_chain_frame_witness :
  exists l cur',
    correct_molecule_chain rec_S1_6_C true in_segment_S1 = Ok (l, false, cur')
    /\ length l = length rec_S1_6_C
    /\ slice 26 67 l = slice 26 67 rec_S1_6_C.
Proof.
  destruct (correct_molecule_chain rec_S1_6_C true in_segment_S1)
    as [[[l t] cur']|e] eqn:Hrun; [|vm_compute in Hrun; discriminate Hrun].
  assert (Ht : t = false /\ Current.chain_id_repeats cur' = 1).
  { vm_compute in Hrun. injection Hrun as _ <- <-. split; reflexivity. }
  destruct Ht as (-> & Hrep).
  assert (Hlen : (76 <= length rec_S1_6_C)%nat) by (vm_compute; lia).
  assert (Hr : 0 <= Current.chain_id_repeats cur' < 1000) by (rewrite Hrep; lia).
  destruct (correct_molecule_chain_frame rec_S1_6_C true in_segment_S1 l false
              cur' Hrun Hlen Hr) as (H1 & _ & H3 & _).
  exists l, cur'. split; [reflexivity|]. split; [exact H1 | exact H3].
Defined.

(** ** The field transformers *)

(** X11.  On a record of at least 11 columns [correct_atom_number] writes
    the width-5 code of the counter into columns [6,11) and a space into
    column 5, leaves columns [0,5), everything from column 11 on and the
    length as they were, and advances the counter by one, touching nothing
    else of the state.  Once the counter has left the range of the field
    (87440032 on) it raises [ValueError]. *)
Theorem correct_atom_number_frame (line : str) (cur : Current.t)
    (Hlen : (11 <= length line)%nat) :
  (-9999 <= Current.atom_number cur < 87440032 ->
   exists s out,
     number_to_hybrid36_number (Current.atom_number cur) 5 = Ok s
     /\ correct_atom_number line cur
        = Ok (out, Current.mk (Current.atom_number cur + 1)
                              (Current.old_molecule_number cur)
                              (Current.last_molecule_number cur)
                              (Current.chain_id cur)
                              (Current.chain_id_repeats cur)
                              (Current.chain cur))
     /\ length out = length line
     /\ slice 0 5 out = slice 0 5 line
     /\ slice 5 6 out = lit " "
     /\ slice 6 11 out = s
     /\ slice_from 11 out = slice_from 11 line)
  /\ (Current.atom_number cur < -9999 \/ 87440032 <= Current.atom_number cur ->
      correct_atom_number line cur = Err ValueError).
Proof.
  split.
  - intros Hfit. destruct (hybrid36_width5 _ Hfit) as (s & Hs & Hl).
    exists s. eexists. split; [exact Hs|].
    unfold correct_atom_number. rewrite Hs. cbn [bind].
    split; [reflexivity|].
    explode_exact s Hl. explode line Hlen. cbn -[Nat.sub].
    rewrite app_nil_r. repeat split.
  - intros Hout. unfold correct_atom_number.
    rewrite (hybrid36_out_of_range 5 ltac:(lia)); [reflexivity|].
    change (10 ^ (5 - 1)) with 10000. change (10 ^ 5) with 100000.
    change (36 ^ (5 - 1)) with 1679616. lia.
Qed.

Lemma correct_atom_number_frame_witness :
  (exists out cur',
     correct_atom_number rec_S1_5_O post_init = Ok (out, cur')
     /\ slice 6 11 out = lit "    1"
     /\ Current.atom_number cur' = 2)
  /\ correct_atom_number rec_S1_5_O
       (Current.mk 87440032 1 1 "A" 1 None) = Err ValueError.
Proof.
  assert (Hlen : (11 <= length rec_S1_5_O)%nat) by (vm_compute; lia).
  split.
  - destruct (correct_atom_number_frame rec_S1_5_O post_init Hlen) as (Hin & _).
    destruct Hin as (s & out & Hs & Hrun & _ & _ & _ & Hcol & _).
    { split; [discriminate | reflexivity]. }
    exists out. eexists. split; [exact Hrun|]. split; [|reflexivity].
    rewrite Hcol. vm_compute in Hs. now injection Hs as <-.
  - destruct (correct_atom_number_frame rec_S1_5_O
                (Current.mk 87440032 1 1 "A" 1 None) Hlen) as (_ & Hout).
    apply Hout. right. cbn. lia.
Defined.

(** X12.  [correct_occupancy] on a record of at least 62 columns writes
    ["  1.00  "] into columns [54,62) (the occupancy and the first two
    columns of the temperature factor) and leaves every other column and the
    length as they were; applying it twice is applying it once.  A record
    shorter than 54 columns gets the eight characters appended. *)
Theorem correct_occupancy_frame (line : str) :
  ((62 <= length line)%nat ->
   length (correct_occupancy line) = length line
   /\ slice_to 54 (correct_occupancy line) = slice_to 54 line
   /\ slice 54 62 (correct_occupancy line) = lit "  1.00  "
   /\ slice_from 62 (correct_occupancy line) = slice_from 62 line
   /\ correct_occupancy (correct_occupancy line) = correct_occupancy line)
  /\ ((length line < 54)%nat ->
      correct_occupancy line = line ++ lit "  1.00  ").
Proof.
  split.
  - intros Hlen. unfold correct_occupancy, slice_to, slice_from.
    explode line Hlen. cbn -[Nat.sub]. repeat split.
  - intros Hlen. unfold correct_occupancy, slice_to, slice_from.
    rewrite firstn_all2 by lia. rewrite skipn_all2 by lia.
    now rewrite app_nil_r.
Qed.

Lemma correct_occupancy_frame_witness :
  slice 54 62 (correct_occupancy rec_S1_5_O) = lit "  1.00  "
  /\ length (correct_occupancy rec_S1_5_O) = length rec_S1_5_O
  /\ correct_occupancy (lit "ATOM") = lit "ATOM  1.00  ".
Proof.
  assert (Hlen : (62 <= length rec_S1_5_O)%nat) by (vm_compute; lia).
  destruct (correct_occupancy_frame rec_S1_5_O) as (Hlong & _).
  destruct (Hlong Hlen) as (H1 & _ & H3 & _).
  destruct (correct_occupancy_frame (lit "ATOM")) as (_ & Hshort).
  split; [exact H3|]. split; [exact H1|].
  apply Hshort. vm_compute. lia.
Defined.

Lemma getitem_short (s : str) (i : Z) :
  Z.of_nat (length s) <= i -> getitem s i = Err IndexError.
Proof.
  intros H. unfold getitem.
  replace (i <? 0) with false by (symmetry; apply Z.ltb_ge; lia).
  replace (i <? Z.of_nat (length s)) with false
    by (symmetry; apply Z.ltb_ge; lia).
  now rewrite andb_false_r.
Qed.

(** X13.  [correct_atomtype] raises [IndexError] exactly on the records
    shorter than 14 columns (the second character of the atom name is
    missing) and returns on all others. *)
Theorem correct_atomtype_errors (line : str) :
  (correct_atomtype line = Err IndexError <-> (length line < 14)%nat)
  /\ ((14 <= length line)%nat -> exists out, correct_atomtype line = Ok out)
  /\ (forall e, correct_atomtype line = Err e -> e = IndexError).
Proof.
  assert (Hshort : (length line < 14)%nat ->
                   correct_atomtype line = Err IndexError).
  { intros Hlen. unfold correct_atomtype. rewrite getitem_short; [reflexivity|].
    unfold slice. rewrite length_firstn, length_skipn. lia. }
  assert (Hlong : (14 <= length line)%nat ->
                  exists out, correct_atomtype line = Ok out).
  { intros Hlen. unfold correct_atomtype. explode line Hlen.
    match goal with
    | |- context [bind (getitem ?s 1) _] =>
        let c := eval vm_compute in (getitem s 1) in
        change (getitem s 1) with c
    end.
    cbn [bind].
    match goal with
    | |- context [bind ?m _] => destruct m as [atom|e] eqn:E
    end.
    - cbn [bind]. eexists. reflexivity.
    - match type of E with
      | context [char_in ?c ?d] => destruct (char_in c d)
      end; discriminate E. }
  split; [split|split].
  - intros H. destruct (Nat.lt_ge_cases (length line) 14) as [|Hge]; [assumption|].
    destruct (Hlong Hge) as (out & Hout). congruence.
  - exact Hshort.
  - exact Hlong.
  - intros e H. destruct (Nat.lt_ge_cases (length line) 14) as [Hlt|Hge].
    + rewrite (Hshort Hlt) in H. congruence.
    + destruct (Hlong Hge) as (out & Hout). congruence.
Qed.

Lemma correct_atomtype_errors_witness :
  correct_atomtype (lit "ATOM      1 C") = Err IndexError
  /\ exists out, correct_atomtype rec_S1_5_O = Ok out.
Proof.
  destruct (correct_atomtype_errors (lit "ATOM      1 C")) as (Hiff & _).
  destruct (correct_atomtype_errors rec_S1_5_O) as (_ & Hok & _).
  split; [apply Hiff; vm_compute; lia | apply Hok; vm_compute; lia].
Defined.

Lemma strip_one (c : ascii) : strip [c] = if is_space c then [] else [c].
Proof.
  unfold strip. cbn [lstrip]. destruct (is_space c) eqn:E; cbn [rev app lstrip];
    rewrite ?E; reflexivity.
Qed.

Lemma strip_two (a b : ascii) :
  strip [a; b]
  = if is_space a then (if is_space b then [] else [b])
    else if is_space b then [a] else [a; b].
Proof.
  unfold strip. cbn [lstrip].
  destruct (is_space a) eqn:Ea; destruct (is_space b) eqn:Eb;
    cbn [rev app lstrip]; rewrite ?Ea, ?Eb; cbn [rev app lstrip];
    rewrite ?Ea, ?Eb; reflexivity.
Qed.

(** X14.  On a record of at least 78 columns whose atom name starts with the
    characters [c12] and [c13], [correct_atomtype] writes a two-character
    element into columns [76,78) and leaves every other column and the
    length as they were.  With [c12] not a space: the element is [c12]
    right-justified when [c13] is a digit or a space, and [c12 c13] when
    [c13] is neither.  With [c12] a space: the element is [c13]
    right-justified when [c13] is neither a digit nor a space, and blank
    otherwise. *)
Theorem correct_atomtype_element (line : str) (c12 c13 : ascii)
    (Hlen : (78 <= length line)%nat)
    (Hname : slice 12 14 line = [c12; c13]) :
  exists element,
    correct_atomtype line
    = Ok (slice_to 76 line ++ element ++ slice_from 78 line)
    /\ length element = 2%nat
    /\ length (slice_to 76 line ++ element ++ slice_from 78 line)
       = length line
    /\ slice 76 78 (slice_to 76 line ++ element ++ slice_from 78 line)
       = element
    /\ (is_space c12 = false ->
        (char_in c13 (lit "0123456789") = true \/ is_space c13 = true ->
         element = [" "%char; c12])
        /\ (char_in c13 (lit "0123456789") = false -> is_space c13 = false ->
            element = [c12; c13]))
    /\ (is_space c12 = true ->
        (char_in c13 (lit "0123456789") = false -> is_space c13 = false ->
         element = [" "%char; c13])
        /\ (char_in c13 (lit "0123456789") = true \/ is_space c13 = true ->
            element = [" "%char; " "%char])).
Proof.
  set (atom := if char_in c13 (lit "0123456789") then [c12] else [c12; c13]).
  assert (Hrun : correct_atomtype line
                 = Ok (slice_to 76 line ++ rjust 2 " " (strip atom)
                       ++ slice_from 78 line)).
  { unfold correct_atomtype. rewrite Hname. unfold atom.
    destruct (char_in c13 (lit "0123456789")) eqn:Ed.
    - change (getitem [c12; c13] 1) with (@Ok ascii c13). cbn [bind].
      rewrite Ed. reflexivity.
    - change (getitem [c12; c13] 1) with (@Ok ascii c13). cbn [bind].
      rewrite Ed. reflexivity. }
  exists (rjust 2 " " (strip atom)). split; [exact Hrun|]. clear Hrun.
  assert (Hstrip : strip atom
                   = if char_in c13 (lit "0123456789")
                     then (if is_space c12 then [] else [c12])
                     else if is_space c12
                          then (if is_space c13 then [] else [c13])
                          else if is_space c13 then [c12] else [c12; c13]).
  { unfold atom. destruct (char_in c13 (lit "0123456789"));
      [apply strip_one | apply strip_two]. }
  assert (Hel : length (rjust 2 " " (strip atom)) = 2%nat).
  { apply rjust_length. rewrite Hstrip.
    destruct (char_in c13 (lit "0123456789")), (is_space c12), (is_space c13);
      cbn [length]; lia. }
  split; [exact Hel|].
  set (element := rjust 2 " " (strip atom)) in *.
  assert (Hcases :
    (is_space c12 = false ->
     (char_in c13 (lit "0123456789") = true \/ is_space c13 = true ->
      element = [" "%char; c12])
     /\ (char_in c13 (lit "0123456789") = false -> is_space c13 = false ->
         element = [c12; c13]))
    /\ (is_space c12 = true ->
        (char_in c13 (lit "0123456789") = false -> is_space c13 = false ->
         element = [" "%char; c13])
        /\ (char_in c13 (lit "0123456789") = true \/ is_space c13 = true ->
            element = [" "%char; " "%char]))).
  { unfold element. rewrite Hstrip.
    destruct (char_in c13 (lit "0123456789")), (is_space c12), (is_space c13);
      (split; intros H12; try discriminate H12;
       split; intros; try reflexivity; try discriminate;
       match goal with
       | H : _ \/ _ |- _ => destruct H; discriminate
       end). }
  clear Hstrip.
  clearbody element. clear atom.
  explode_exact element Hel.
  split; [|split; [|exact Hcases]].
  - unfold slice_to, slice_from. clear Hname Hcases.
    explode line Hlen. cbn -[Nat.sub]. reflexivity.
  - unfold slice_to, slice_from. clear Hname Hcases.
    explode line Hlen. reflexivity.
Qed.

Lemma correct_atomtype_element_witness :
  exists element,
    correct_atomtype rec_S1_5_H
    = Ok (slice_to 76 rec_S1_5_H ++ element ++ slice_from 78 rec_S1_5_H)
    /\ element = lit " H".
Proof.
  assert (Hlen : (78 <= length rec_S1_5_H)%nat) by (vm_compute; lia).
  destruct (correct_atomtype_element rec_S1_5_H " " "H" Hlen eq_refl)
    as (element & Hrun & _ & _ & _ & _ & Hsp).
  exists element. split; [exact Hrun|].
  now apply (Hsp eq_refl).
Defined.

(** ** What a pass emits *)

Lemma record_kept_refl (l : str) : record_kept l l.
Proof. split; [auto | intros H; now repeat split]. Qed.

Lemma record_kept_trans (a b c : str) :
  record_kept a b -> record_kept b c -> record_kept a c.
Proof.
  intros (Ht1 & Hc1) (Ht2 & Hc2). split; [auto|].
  intros Hlen. destruct (Hc1 Hlen) as (Hl1 & Hs1 & Hh1).
  destruct (Hc2 Hl1) as (Hl2 & Hs2 & Hh2).
  repeat split; congruence.
Qed.

Lemma remap_NOMCLA_hydrogen (name : str) :
  char_in "H" (remap NOMCLA name) = char_in "H" name.
Proof.
  unfold remap. destruct (dict_mem name NOMCLA) eqn:E; [|reflexivity].
  apply dict_mem_key in E. destruct E as (v & Hin). simpl in Hin.
  repeat (destruct Hin as [Hin | Hin];
          [injection Hin as <- <-; reflexivity |]).
  contradiction.
Qed.

Lemma kept_nomenclature (l : str) : record_kept l (correct_nomenclature l).
Proof.
  split; [apply tagged_nomenclature|]. intros Hlen.
  rewrite correct_nomenclature_remap.
  assert (Ha := remap_NOMCLA_length (slice 12 16 l)).
  assert (Hb := remap_NOMCLA_BASE_length (slice 17 20 l)).
  assert (Hh := remap_NOMCLA_hydrogen (slice 12 16 l)).
  set (atom := remap NOMCLA (slice 12 16 l)) in *.
  set (base := remap NOMCLA_BASE (slice 17 20 l)) in *.
  clearbody atom base.
  explode l Hlen. cbn [slice skipn firstn Nat.sub length] in Ha, Hb, Hh.
  explode_exact atom Ha. explode_exact base Hb.
  cbn -[char_in] in Hh |- *. repeat split; [lia | exact Hh].
Qed.

Lemma kept_chain_line (l : str) id number rep :
  length number = 4%nat -> record_kept l (chain_line l id number rep).
Proof.
  intros Hn. split; [apply tagged_chain_line|]. intros Hlen.
  unfold chain_line. generalize (rjust 3 "0" (str_of_int rep)). intros label.
  explode_exact number Hn. explode l Hlen.
  cbn -[char_in]. repeat split. lia.
Qed.

Lemma kept_atom_number (l : str) (cur : Current.t) (l' : str)
    (cur' : Current.t) :
  correct_atom_number l cur = Ok (l', cur') -> record_kept l l'.
Proof.
  intros H. split.
  - intros Htag. destruct (correct_atom_number_inv _ _ _ _ Htag H)
      as ((s & rest & _ & ->) & _). now exists (s ++ rest).
  - intros Hlen. unfold correct_atom_number in H.
    apply bind_ok in H. destruct H as (s & Hs & H). injection H as <- _.
    apply hybrid36_width5_length in Hs.
    explode_exact s Hs. explode l Hlen.
    cbn -[char_in]. repeat split. lia.
Qed.

Lemma kept_occupancy (l : str) : record_kept l (correct_occupancy l).
Proof.
  split.
  - intros (rest & ->). eexists. unfold correct_occupancy. cbn. reflexivity.
  - intros Hlen. unfold correct_occupancy, slice_to, slice_from.
    explode l Hlen. cbn -[char_in]. repeat split. lia.
Qed.

Lemma kept_atomtype (l l' : str) :
  correct_atomtype l = Ok l' -> record_kept l l'.
Proof.
  intros H. unfold correct_atomtype in H.
  apply bind_ok in H. destruct H as (c1 & _ & H).
  apply bind_ok in H. destruct H as (atom & _ & H).
  injection H as <-. generalize (rjust 2 " " (strip atom)). intros el.
  split.
  - intros (rest & ->). eexists. cbn. reflexivity.
  - intros Hlen. unfold slice_to, slice_from.
    explode l Hlen. cbn -[char_in]. repeat split.
    rewrite length_app. lia.
Qed.

(** The corrections of one record, whatever the flags: the record comes
    out empty exactly when hydrogen removal drops it, and is kept
    otherwise. *)
Lemma correct_atom_line_kept (logic : Logic.t) (line : str)
    (t : option bool) (cur : Current.t)
    (l : str) (t' : option bool) (cur' : Current.t) :
  correct_atom_line logic line t cur = Ok (l, t', cur') ->
  exists l5,
    record_kept line l5
    /\ l = (if Logic.remove_H logic then remove_H l5 else l5).
Proof.
  intros H. unfold correct_atom_line in H.
  assert (K1 : record_kept line
                 (if Logic.nomenclature logic then correct_nomenclature line
                  else line))
    by (destruct (Logic.nomenclature logic);
        auto using kept_nomenclature, record_kept_refl).
  set (l1 := if Logic.nomenclature logic then correct_nomenclature line
             else line) in *.
  apply bind_ok in H. destruct H as ([[l2 t2] c2] & H2 & H).
  assert (K2 : record_kept l1 l2).
  { destruct (Logic.molecule_chain logic).
    - apply bind_ok in H2. destruct H2 as ([[l2' b] c2'] & Hc & H2).
      injection H2 as <- <- <-.
      destruct (correct_molecule_chain_cases _ _ _ _ _ _ Hc)
        as (n & id & new & rep & number & _ & Hnum & -> & _).
      apply kept_chain_line. now apply hybrid36_width4_length in Hnum.
    - injection H2 as <- <- <-. apply record_kept_refl. }
  apply bind_ok in H. destruct H as ([l3 c3] & H3 & H).
  assert (K3 : record_kept l2 l3).
  { destruct (Logic.atom_number logic).
    - eapply kept_atom_number; eauto.
    - injection H3 as <- <-. apply record_kept_refl. }
  assert (K4 : record_kept l3 (if Logic.occupancy logic
                               then correct_occupancy l3 else l3))
    by (destruct (Logic.occupancy logic);
        auto using kept_occupancy, record_kept_refl).
  set (l4 := if Logic.occupancy logic then correct_occupancy l3 else l3) in *.
  apply bind_ok in H. destruct H as (l5 & H5 & H).
  assert (K5 : record_kept l4 l5).
  { destruct (Logic.atomtype logic).
    - now apply kept_atomtype.
    - injection H5 as <-. apply record_kept_refl. }
  injection H as <- <- <-. exists l5. split; [|reflexivity].
  eauto using record_kept_trans.
Qed.

Lemma coordinates_app (a b : list str) :
  coordinates (a ++ b) = coordinates a ++ coordinates b.
Proof. unfold coordinates. now rewrite filter_app, map_app. Qed.

Lemma atom_record_not_title (x : str) :
  is_atom_record x = true -> is_title x = false.
Proof. apply is_processed_not_title. Qed.

(** What one run of the loop appends to the body. *)
Lemma correct_pdb_loop_emits (logic : Logic.t) (pdb_file : list str) :
  forall body t cur body' t' cur',
    correct_pdb_loop logic pdb_file (body, t, cur) = Ok (body', t', cur') ->
    exists added,
      body' = body ++ added
      /\ Forall (body_entry pdb_file) added
      /\ filter is_title added = filter is_title pdb_file
      /\ (Forall (fun line => (54 <= length line)%nat) (processed pdb_file) ->
          coordinates added
          = map (slice 26 54)
                (filter (fun line => negb (dropped logic line))
                        (processed pdb_file))).
Proof.
  induction pdb_file as [|line rest IH]; intros body t cur body' t' cur' H.
  - injection H as <- <- <-. exists []. rewrite app_nil_r.
    repeat split; constructor.
  - cbn [correct_pdb_loop] in H. apply bind_ok in H.
    destruct H as ([[body1 t1] cur1] & Hline & Hrest).
    destruct (IH _ _ _ _ _ _ Hrest) as (added & -> & Hent & Htit & Hco).
    assert (Hent' : Forall (body_entry (line :: rest)) added).
    { eapply Forall_impl; [|exact Hent]. intros x [Hx | [Hx | [[Hx Hin] | Hx]]].
      - now left.
      - right. now left.
      - right. right. left. split; [exact Hx | now right].
      - right. right. now right. }
    unfold processed in *. cbn [filter].
    destruct (is_processed line) eqn:Ep.
    + rewrite correct_pdb_line_processed in Hline by exact Ep.
      apply bind_ok in Hline. destruct Hline as ([[l t2] c2] & Hatom & Hline).
      destruct t2 as [b|]; [|discriminate]. injection Hline as <- <- <-.
      assert (Hrec : is_atom_record line = true)
        by (unfold is_processed in Ep; now apply andb_prop in Ep).
      assert (Htag : tagged line) by now apply is_atom_record_tagged.
      rewrite (atom_record_not_title line Hrec).
      destruct (correct_atom_line_kept _ _ _ _ _ _ _ Hatom)
        as (l5 & (Htag5 & Hkept) & Hl).
      specialize (Htag5 Htag). apply is_atom_record_tagged in Htag5.
      assert (Hcase : (l = [] /\ Logic.remove_H logic = true
                       /\ char_in "H" (slice 12 16 l5) = true)
                      \/ (l = l5
                          /\ Logic.remove_H logic
                             && char_in "H" (slice 12 16 l5) = false)).
      { subst l. unfold remove_H. destruct (Logic.remove_H logic);
          [|right; now split].
        destruct (char_in "H" (slice 12 16 l5)); [left | right]; now repeat split. }
      exists ((if b then [TER] else []) ++ [l] ++ added).
      split; [destruct b; now rewrite <- !app_assoc|].
      split; [|split].
      * apply Forall_app. split; [destruct b; repeat constructor|].
        constructor; [|exact Hent'].
        destruct Hcase as [(-> & _) | (-> & _)];
          [right; now left | right; right; now right].
      * rewrite !filter_app, Htit.
        assert (Hnt : filter is_title [l] = []).
        { destruct Hcase as [(-> & _) | (-> & _)]; [reflexivity|].
          cbn [filter]. now rewrite (atom_record_not_title l5 Htag5). }
        rewrite Hnt. destruct b; reflexivity.
      * intros Hlong. inversion Hlong as [|? ? Hlen Hlong']; subst.
        rewrite !coordinates_app, (Hco Hlong').
        destruct (Hkept Hlen) as (_ & Hxyz & Hh).
        assert (Hter : coordinates (if b then [TER] else []) = [])
          by (destruct b; reflexivity).
        rewrite Hter. cbn [app filter].
        destruct Hcase as [(-> & Hrem & HH) | (-> & Hkeep)].
        -- assert (Hd : dropped logic line = true)
             by (unfold dropped; now rewrite Hrem, <- Hh, HH).
           rewrite Hd. reflexivity.
        -- assert (Hd : dropped logic line = false)
             by (unfold dropped; now rewrite <- Hh).
           rewrite Hd. cbn [negb map].
           unfold coordinates at 1. cbn [filter]. rewrite Htag5.
           cbn [map app]. now rewrite Hxyz.
    + destruct (is_title line) eqn:Et.
      * rewrite correct_pdb_line_title in Hline by exact Et.
        injection Hline as <- <- <-.
        exists (line :: added). split; [now rewrite <- app_assoc|].
        split; [|split].
        -- constructor; [|exact Hent'].
           right. right. left. split; [exact Et | now left].
        -- cbn [filter]. now rewrite Et, Htit.
        -- intros Hlong. change (line :: added) with ([line] ++ added).
           rewrite coordinates_app, (Hco Hlong).
           unfold coordinates at 1. cbn [filter].
           now rewrite (title_not_atom_record line Et).
      * rewrite correct_pdb_line_skipped in Hline by assumption.
        injection Hline as <- <- <-.
        exists added. now repeat split.
Qed.

(** X15.  The body of a pass that returns is the header (when kept), then
    terminators, empty strings, title records of the file and atom records,
    then the end marker; its title records are the [TITLE] and [CRYST1]
    records of the file, all of them, in their order.  Every other record
    of the file that is not an [ATOM] record is left out. *)
Theorem correct_pdb_body_entries (pdb_file : list str) (logic : Logic.t)
    (cur : Current.t) (body : list str) (cur' : Current.t)
    (Hrun : correct_pdb_body pdb_file logic cur = Ok (body, cur')) :
  exists middle,
    body = (if Logic.keep_header logic then [HEADER] else [])
           ++ middle ++ [TER_END]
    /\ Forall (body_entry pdb_file) middle
    /\ filter is_title middle = filter is_title pdb_file
    /\ filter is_title body = filter is_title pdb_file.
Proof.
  unfold correct_pdb_body in Hrun. apply bind_ok in Hrun.
  destruct Hrun as ([[body1 t1] cur1] & Hloop & Hrun).
  injection Hrun as <- <-.
  destruct (correct_pdb_loop_emits _ _ _ _ _ _ _ _ Hloop)
    as (middle & -> & Hent & Htit & _).
  exists middle. split; [now rewrite <- app_assoc|].
  split; [exact Hent|]. split; [exact Htit|].
  rewrite !filter_app, Htit.
  destruct (Logic.keep_header logic); cbn; now rewrite app_nil_r.
Qed.

Lemma correct_pdb_body_entries_witness :
  exists body cur' middle,
    correct_pdb_body [rec_title; rec_remark; rec_S1_5_O] Logic.default
                     post_init = Ok (body, cur')
    /\ body = [HEADER] ++ middle ++ [TER_END]
    /\ filter is_title body = [rec_title]
    /\ ~ In rec_remark body.
Proof.
  destruct (correct_pdb_body [rec_title; rec_remark; rec_S1_5_O] Logic.default
                             post_init) as [[body cur']|e] eqn:Hrun;
    [|vm_compute in Hrun; discriminate Hrun].
  destruct (correct_pdb_body_entries _ _ _ _ _ Hrun)
    as (middle & Hbody & _ & _ & Htit).
  exists body, cur', middle. split; [reflexivity|]. split; [exact Hbody|].
  split; [exact Htit|].
  vm_compute in Hrun. injection Hrun as <- _.
  intros Hin. simpl in Hin.
  repeat (destruct Hin as [Hin | Hin]; [discriminate Hin|]). exact Hin.
Defined.

(** X16.  When every processed record has at least 54 columns, the
    coordinate columns [26,54) of the atom records a returning pass emits
    are those of the processed records of the file, in their order, less
    the records hydrogen removal drops: with hydrogen removal on, exactly
    the records with an ['H'] in the atom-name columns [12,16). *)
Theorem correct_pdb_coordinates (pdb_file : list str) (logic : Logic.t)
    (cur : Current.t) (body : list str) (cur' : Current.t)
    (Hrun : correct_pdb_body pdb_file logic cur = Ok (body, cur'))
    (Hlong : Forall (fun line => (54 <= length line)%nat)
                    (processed pdb_file)) :
  coordinates body
  = map (slice 26 54)
        (filter (fun line => negb (dropped logic line)) (processed pdb_file)).
Proof.
  unfold correct_pdb_body in Hrun. apply bind_ok in Hrun.
  destruct Hrun as ([[body1 t1] cur1] & Hloop & Hrun).
  injection Hrun as <- <-.
  destruct (correct_pdb_loop_emits _ _ _ _ _ _ _ _ Hloop)
    as (middle & -> & _ & _ & Hco).
  rewrite !coordinates_app, (Hco Hlong).
  change (coordinates [TER_END]) with (@nil str). rewrite app_nil_r.
  destruct (Logic.keep_header logic); reflexivity.
Qed.

Lemma correct_pdb_coordinates_witness :
  exists body cur',
    correct_pdb_body [rec_S1_5_O; rec_S1_5_H; rec_S1_6_C] Logic.default
                     post_init = Ok (body, cur')
    /\ coordinates body
       = [slice 26 54 rec_S1_5_O; slice 26 54 rec_S1_6_C].
Proof.
  destruct (correct_pdb_body [rec_S1_5_O; rec_S1_5_H; rec_S1_6_C]
                             Logic.default post_init)
    as [[body cur']|e] eqn:Hrun; [|vm_compute in Hrun; discriminate Hrun].
  exists body, cur'. split; [reflexivity|].
  assert (Hlong : Forall (fun line => (54 <= length line)%nat)
                         (processed [rec_S1_5_O; rec_S1_5_H; rec_S1_6_C])).
  { repeat constructor; vm_compute; lia. }
  exact (correct_pdb_coordinates _ _ _ _ _ Hrun Hlong).
Defined.

(** ** Atom-serial renumbering *)

Lemma name_kept_refl (l : str) : name_kept l l.
Proof. intros H. now split. Qed.

Lemma name_kept_trans (a b c : str) :
  name_kept a b -> name_kept b c -> name_kept a c.
Proof.
  intros H1 H2 Hlen. destruct (H1 Hlen) as (Hb & Eb).
  destruct (H2 Hb) as (Hc & Ec). split; congruence.
Qed.

Lemma name_kept_nomenclature (l : str) : name_kept l (correct_nomenclature l).
Proof.
  intros Hlen. rewrite correct_nomenclature_remap.
  assert (Ha := remap_NOMCLA_length (slice 12 16 l)).
  assert (Hh := remap_NOMCLA_hydrogen (slice 12 16 l)).
  set (atom := remap NOMCLA (slice 12 16 l)) in *.
  generalize (remap NOMCLA_BASE (slice 17 20 l)). intros base.
  clearbody atom.
  explode l Hlen. cbn [slice skipn firstn Nat.sub length] in Ha, Hh.
  explode_exact atom Ha.
  cbn -[char_in] in Hh |- *. split; [lia | exact Hh].
Qed.

Lemma name_kept_chain_line (l : str) id number rep :
  name_kept l (chain_line l id number rep).
Proof.
  intros Hlen. unfold chain_line.
  generalize (rjust 3 "0" (str_of_int rep)). intros label.
  explode l Hlen. cbn -[char_in]. split; [lia | reflexivity].
Qed.

Lemma name_kept_atom_number (l : str) (cur : Current.t) (l' : str)
    (cur' : Current.t) :
  correct_atom_number l cur = Ok (l', cur') -> name_kept l l'.
Proof.
  intros H Hlen. unfold correct_atom_number in H.
  apply bind_ok in H. destruct H as (s & Hs & H). injection H as <- _.
  apply hybrid36_width5_length in Hs.
  explode_exact s Hs. explode l Hlen.
  cbn -[char_in]. split; [lia | reflexivity].
Qed.

Lemma name_kept_occupancy (l : str) : name_kept l (correct_occupancy l).
Proof.
  intros Hlen. unfold correct_occupancy, slice_to, slice_from.
  explode l Hlen. cbn -[char_in]. split; [lia | reflexivity].
Qed.

Lemma name_kept_atomtype (l l' : str) :
  correct_atomtype l = Ok l' -> name_kept l l'.
Proof.
  intros H Hlen. unfold correct_atomtype in H.
  apply bind_ok in H. destruct H as (c1 & _ & H).
  apply bind_ok in H. destruct H as (atom & _ & H).
  injection H as <-. generalize (rjust 2 " " (strip atom)). intros el.
  unfold slice_to, slice_from.
  explode l Hlen. cbn -[char_in]. split; [lia | reflexivity].
Qed.

(** A record of at least 16 columns comes out of the corrections empty
    exactly when hydrogen removal is on and its atom name holds an
    ['H']. *)
Lemma correct_atom_line_dropped (logic : Logic.t) (line : str)
    (t : option bool) (cur : Current.t)
    (l : str) (t' : option bool) (cur' : Current.t) :
  correct_atom_line logic line t cur = Ok (l, t', cur') ->
  (16 <= length line)%nat ->
  (l = [] <-> dropped logic line = true).
Proof.
  intros H Hlen. unfold correct_atom_line in H.
  assert (K1 : name_kept line
                 (if Logic.nomenclature logic then correct_nomenclature line
                  else line))
    by (destruct (Logic.nomenclature logic);
        auto using name_kept_nomenclature, name_kept_refl).
  set (l1 := if Logic.nomenclature logic then correct_nomenclature line
             else line) in *.
  apply bind_ok in H. destruct H as ([[l2 t2] c2] & H2 & H).
  assert (K2 : name_kept l1 l2).
  { destruct (Logic.molecule_chain logic).
    - apply bind_ok in H2. destruct H2 as ([[l2' b] c2'] & Hc & H2).
      injection H2 as <- <- <-.
      apply correct_molecule_chain_inv in Hc.
      destruct Hc as ((id & number & rep & ->) & _).
      apply name_kept_chain_line.
    - injection H2 as <- <- <-. apply name_kept_refl. }
  apply bind_ok in H. destruct H as ([l3 c3] & H3 & H).
  assert (K3 : name_kept l2 l3).
  { destruct (Logic.atom_number logic).
    - eapply name_kept_atom_number; eauto.
    - injection H3 as <- <-. apply name_kept_refl. }
  assert (K4 : name_kept l3 (if Logic.occupancy logic
                             then correct_occupancy l3 else l3))
    by (destruct (Logic.occupancy logic);
        auto using name_kept_occupancy, name_kept_refl).
  set (l4 := if Logic.occupancy logic then correct_occupancy l3 else l3) in *.
  apply bind_ok in H. destruct H as (l5 & H5 & H).
  assert (K5 : name_kept l4 l5).
  { destruct (Logic.atomtype logic).
    - now apply name_kept_atomtype.
    - injection H5 as <-. apply name_kept_refl. }
  injection H as <- _ _.
  assert (K : name_kept line l5) by eauto using name_kept_trans.
  destruct (K Hlen) as (Hlen5 & Hh).
  assert (Hne : l5 <> []) by (destruct l5; [cbn in Hlen5; lia | discriminate]).
  unfold dropped, remove_H. rewrite <- Hh.
  destruct (Logic.remove_H logic); cbn [andb].
  - destruct (char_in "H" (slice 12 16 l5)); split; congruence.
  - split; [contradiction | discriminate].
Qed.

Lemma record_entries_app (a b : list str) :
  record_entries (a ++ b) = record_entries a ++ record_entries b.
Proof. unfold record_entries. apply filter_app. Qed.

Lemma serials_record_entries (body : list str) :
  serials (record_entries body) = serials body.
Proof.
  unfold serials, record_entries. f_equal.
  induction body as [|x body IH]; [reflexivity|]. cbn [filter].
  destruct (is_atom_record x) eqn:E; cbn [orb filter].
  - now rewrite E, IH.
  - destruct (is_empty x); cbn [filter]; [rewrite E|]; exact IH.
Qed.

Lemma title_not_entry (line : str) :
  is_title line = true -> record_entries [line] = [].
Proof.
  intros Et. unfold record_entries. cbn [filter].
  rewrite (title_not_atom_record line Et).
  destruct line; [discriminate Et | reflexivity].
Qed.

(** The entries a run of the loop adds to the body, record by record. *)
Lemma correct_pdb_loop_entries (logic : Logic.t) (pdb_file : list str) :
  Logic.atom_number logic = true ->
  forall body t cur body' t' cur',
    correct_pdb_loop logic pdb_file (body, t, cur) = Ok (body', t', cur') ->
    exists added,
      record_entries body' = record_entries body ++ added
      /\ Forall2 (fun kl e => serial_entry logic (fst kl) (snd kl) e)
                 (combine (consecutive (Current.atom_number cur)
                                       (length (processed pdb_file)))
                          (processed pdb_file))
                 added.
Proof.
  intros Han. induction pdb_file as [|line rest IH];
    intros body t cur body' t' cur' H.
  - injection H as <- <- <-. exists []. rewrite app_nil_r.
    split; [reflexivity | constructor].
  - cbn [correct_pdb_loop] in H. apply bind_ok in H.
    destruct H as ([[body1 t1] cur1] & Hline & Hrest).
    destruct (IH _ _ _ _ _ _ Hrest) as (added & Hadd & Hall).
    unfold processed in *. cbn [filter].
    destruct (is_processed line) eqn:Ep.
    + rewrite correct_pdb_line_processed in Hline by exact Ep.
      apply bind_ok in Hline. destruct Hline as ([[l t2] c2] & Hatom & Hline).
      assert (Htag : tagged line).
      { apply is_atom_record_tagged. unfold is_processed in Ep.
        now apply andb_prop in Ep. }
      destruct (correct_atom_line_numbered _ _ _ _ _ _ _ Han Htag Hatom)
        as (Hc2 & Hl).
      pose proof (correct_atom_line_dropped _ _ _ _ _ _ _ Hatom) as Hdrop.
      destruct t2 as [b|]; [|discriminate]. injection Hline as <- <- <-.
      rewrite Hc2 in Hall.
      assert (Hentry : serial_entry logic (Current.atom_number cur) line l).
      { split; [|exact Hdrop].
        destruct Hl as [Hl | Hnum]; [now left | right].
        now apply numbered_serial. }
      assert (Hl1 : record_entries [l] = [l]).
      { unfold record_entries. cbn [filter].
        destruct Hentry as ([(-> & _) | (Hrec & _)] & _);
          [reflexivity | now rewrite Hrec]. }
      exists (l :: added). split.
      * rewrite Hadd, !record_entries_app, Hl1.
        assert (Hter : record_entries (if b then body ++ [TER] else body)
                       = record_entries body).
        { destruct b; [|reflexivity].
          rewrite record_entries_app. apply app_nil_r. }
        rewrite Hter, <- app_assoc. reflexivity.
      * cbn [length consecutive combine]. constructor; [exact Hentry|].
        exact Hall.
    + assert (Hstep : record_entries body1 = record_entries body
                      /\ cur1 = cur).
      { destruct (is_title line) eqn:Et.
        - rewrite correct_pdb_line_title in Hline by exact Et.
          injection Hline as <- <- <-. split; [|reflexivity].
          rewrite record_entries_app, (title_not_entry line Et).
          apply app_nil_r.
        - rewrite correct_pdb_line_skipped in Hline by assumption.
          injection Hline as <- <- <-. now split. }
      destruct Hstep as (Hbody & ->). rewrite Hbody in Hadd.
      exists added. now split.
Qed.

(** The serials of a list of entries are the codes of the counter values
    of its non-empty entries. *)
Lemma entries_serials (logic : Logic.t) (lines : list str) :
  forall a entries,
    Forall2 (fun kl e => serial_entry logic (fst kl) (snd kl) e)
            (combine (consecutive a (length lines)) lines) entries ->
    Forall2 (fun k s => number_to_hybrid36_number k 5 = Ok s)
            (kept_counters a entries) (serials entries)
    /\ StronglySorted Z.lt (kept_counters a entries)
    /\ Forall (fun k => a <= k < a + Z.of_nat (length lines))
              (kept_counters a entries)
    /\ (Logic.remove_H logic = false ->
        kept_counters a entries = consecutive a (length lines)).
Proof.
  induction lines as [|line lines IH]; intros a entries H.
  - inversion H; subst. repeat split; constructor.
  - cbn [length consecutive combine] in H.
    inversion H as [|? e ? rest Hentry Hrest]; subst.
    destruct (IH _ _ Hrest) as (Hcodes & Hsorted & Hrange & Hcons).
    assert (Hrange' : Forall (fun k => a < k
                                       /\ k < a + Z.of_nat (length (line :: lines)))
                             (kept_counters (a + 1) rest)).
    { eapply Forall_impl; [|exact Hrange]. cbn [length]. intros k. lia. }
    cbn [fst snd] in Hentry.
    destruct Hentry as ([(-> & Hrem) | (Hrec & Hcode)] & _).
    + cbn [kept_counters is_empty]. change (serials ([] :: rest))
        with (serials rest).
      repeat split; auto.
      * eapply Forall_impl; [|exact Hrange']. intros k. cbn beta. lia.
      * intros Hf. congruence.
    + assert (Hne : is_empty e = false)
        by (destruct e; [discriminate Hrec | reflexivity]).
      cbn [kept_counters]. rewrite Hne.
      assert (Hser : serials (e :: rest) = slice 6 11 e :: serials rest).
      { unfold serials. cbn [filter]. now rewrite Hrec. }
      rewrite Hser. repeat split.
      * constructor; [exact Hcode | exact Hcodes].
      * constructor; [exact Hsorted|].
        eapply Forall_impl; [|exact Hrange']. intros k. cbn beta. lia.
      * constructor; [cbn [length]; lia|].
        eapply Forall_impl; [|exact Hrange']. intros k. cbn beta. lia.
      * intros Hf. cbn [length consecutive]. now rewrite (Hcons Hf).
Qed.

(** C2 (as amended).  With atom numbering enabled, a pass that returns has
    advanced the corrector's counter (1 on a fresh corrector) once for every
    [ATOM] record that passed the blank-name check.  The [j]-th of these
    records, processed at the counter value [a + j], leaves the [j]-th
    record entry of the body: an atom record whose serial columns [6,11)
    hold the width-5 code of [a + j], or the empty string when hydrogen
    removal dropped it -- for a record of at least 16 columns exactly when
    hydrogen removal is on and the atom name columns [12,16) hold an ['H'].
    So the serials of the body are the codes of the counter values of the
    records that were not dropped: strictly increasing whatever the input
    serials were, with the value of every dropped record missing, and all
    of them, in order, without hydrogen removal. *)
Theorem atom_serials_strictly_increasing (pdb_file : list str)
    (logic : Logic.t) (cur : Current.t) (body : list str) (cur' : Current.t)
    (Han : Logic.atom_number logic = true)
    (Hrun : correct_pdb_body pdb_file logic cur = Ok (body, cur')) :
  Current.atom_number post_init = 1
  /\ Current.atom_number cur'
     = Current.atom_number cur + Z.of_nat (length (processed pdb_file))
  /\ Forall2 (fun kl e => serial_entry logic (fst kl) (snd kl) e)
             (combine (consecutive (Current.atom_number cur)
                                   (length (processed pdb_file)))
                      (processed pdb_file))
             (record_entries body)
  /\ Forall2 (fun k s => number_to_hybrid36_number k 5 = Ok s)
             (kept_counters (Current.atom_number cur) (record_entries body))
             (serials body)
  /\ StronglySorted Z.lt
       (kept_counters (Current.atom_number cur) (record_entries body))
  /\ Forall (fun k => Current.atom_number cur <= k < Current.atom_number cur')
            (kept_counters (Current.atom_number cur) (record_entries body))
  /\ (Logic.remove_H logic = false ->
      kept_counters (Current.atom_number cur) (record_entries body)
      = consecutive (Current.atom_number cur) (length (processed pdb_file))).
Proof.
  split; [reflexivity|].
  unfold correct_pdb_body in Hrun.
  apply bind_ok in Hrun. destruct Hrun as ([[body1 t1] cur1] & Hloop & Hrun).
  injection Hrun as <- <-.
  destruct (correct_pdb_loop_serials logic pdb_file Han _ _ _ _ _ _ Hloop)
    as (Hcount & _).
  destruct (correct_pdb_loop_entries logic pdb_file Han _ _ _ _ _ _ Hloop)
    as (added & Hadd & Hall).
  assert (Hhead : record_entries (if Logic.keep_header logic
                                  then [] ++ [HEADER] else []) = []).
  { destruct (Logic.keep_header logic); reflexivity. }
  rewrite Hhead in Hadd. cbn [app] in Hadd.
  assert (Hbody : record_entries (body1 ++ [TER_END]) = added).
  { rewrite record_entries_app, Hadd. apply app_nil_r. }
  rewrite Hbody, <- (serials_record_entries (body1 ++ [TER_END])), Hbody.
  split; [exact Hcount|]. split; [exact Hall|].
  rewrite Hcount.
  exact (entries_serials logic (processed pdb_file) _ _ Hall).
Qed.

Lemma atom_serials_strictly_increasing_witness :
  exists body cur',
    correct_pdb_body [rec_S1_5_O; rec_S1_5_H; rec_S1_6_C]
                     Logic.default post_init = Ok (body, cur')
    /\ Current.atom_number cur' = 4
    /\ record_entries body <> []
    /\ Forall2 (fun kl e => serial_entry Logic.default (fst kl) (snd kl) e)
               [(1, rec_S1_5_O); (2, rec_S1_5_H); (3, rec_S1_6_C)]
               (record_entries body)
    /\ Forall2 (fun k s => number_to_hybrid36_number k 5 = Ok s)
               (kept_counters 1 (record_entries body)) (serials body)
    /\ StronglySorted Z.lt (kept_counters 1 (record_entries body))
    /\ kept_counters 1 (record_entries body) = [1; 3].
Proof.
  destruct (correct_pdb_body [rec_S1_5_O; rec_S1_5_H; rec_S1_6_C]
                             Logic.default post_init)
    as [[body cur']|e] eqn:Hrun.
  - exists body, cur'. split; [reflexivity|].
    destruct (atom_serials_strictly_increasing
                [rec_S1_5_O; rec_S1_5_H; rec_S1_6_C] Logic.default post_init
                body cur' eq_refl Hrun)
      as (_ & Hcount & Hall & Hcodes & Hsorted & _).
    split; [exact Hcount|].
    split; [intros Hnil; rewrite Hnil in Hall; inversion Hall|].
    split; [exact Hall|]. split; [exact Hcodes|]. split; [exact Hsorted|].
    vm_compute in Hrun. injection Hrun as <- _. reflexivity.
  - vm_compute in Hrun. discriminate Hrun.
Defined.

(** C2, as stated, fails: a record dropped by hydrogen removal has
    consumed a serial, so the emitted serials are 1 and 3. *)
Lemma hydrogen_removal_leaves_serial_gap :
  exists body cur',
    correct_pdb_body [rec_S1_5_O; rec_S1_5_H; rec_S1_6_C]
                     Logic.default post_init = Ok (body, cur')
    /\ serials body = [lit "    1"; lit "    3"]
    /\ serials body <> [lit "    1"; lit "    2"]
    /\ Current.atom_number cur' = 4.
Proof.
  do 2 eexists. split; [vm_compute; reflexivity|].
  repeat split. vm_compute. discriminate.
Qed.

(** ** The reorderer *)

Lemma nat_of_ascii_inj (x y : ascii) :
  nat_of_ascii x = nat_of_ascii y -> x = y.
Proof.
  intros H. rewrite <- (ascii_nat_embedding x), <- (ascii_nat_embedding y).
  now rewrite H.
Qed.

Lemma str_ltb_lt (a b : str) : str_ltb a b = true <-> str_lt a b.
Proof.
  revert b. induction a as [|x a IH]; intros [|y b]; simpl;
    try (split; [discriminate | contradiction]); try tauto.
  destruct (Nat.ltb_spec (nat_of_ascii x) (nat_of_ascii y)) as [Hlt | Hge].
  - split; [now left | reflexivity].
  - destruct (Ascii.eqb_spec x y) as [-> | Hne].
    + rewrite IH. split; [now right | intros [H | [_ H]]; [lia | exact H]].
    + split; [discriminate|]. intros [H | [H _]]; [lia | contradiction].
Qed.

Lemma str_lt_trans (a b c : str) : str_lt a b -> str_lt b c -> str_lt a c.
Proof.
  revert b c. induction a as [|x a IH]; intros [|y b] [|z c]; simpl; try tauto.
  intros [H1 | [-> H1]] [H2 | [-> H2]].
  - left. lia.
  - now left.
  - now left.
  - right. split; [reflexivity | eauto].
Qed.

Lemma str_lt_total (a b : str) : str_lt a b \/ a = b \/ str_lt b a.
Proof.
  revert b. induction a as [|x a IH]; intros [|y b]; simpl; auto.
  destruct (lt_eq_lt_dec (nat_of_ascii x) (nat_of_ascii y)) as [[H | H] | H].
  - left. now left.
  - apply nat_of_ascii_inj in H. subst y.
    destruct (IH b) as [H | [-> | H]]; auto.
  - right. right. now left.
Qed.

Lemma key_ltb_false (a b : sort_key) : key_ltb b a = false <-> key_le a b.
Proof.
  unfold key_ltb, key_le. destruct a as [s1 n1], b as [s2 n2]. cbn [fst snd].
  destruct (str_eqb s2 s1) eqn:E.
  - apply str_eqb_eq in E. subst s2. cbn [negb].
    destruct (Z.eqb_spec n2 n1) as [-> | Hne]; cbn [negb].
    + split; [intros _; right; split; [reflexivity | lia] | reflexivity].
    + rewrite Z.ltb_ge. split.
      * intros H. right. split; [reflexivity | exact H].
      * intros [H | [_ H]]; [now apply str_lt_irrefl in H | exact H].
  - apply str_eqb_neq in E. cbn [negb]. split.
    + intros H. left.
      destruct (str_lt_total s1 s2) as [H1 | [H1 | H1]];
        [exact H1 | congruence|].
      apply str_ltb_lt in H1. congruence.
    + intros [H | [H _]]; [|congruence].
      destruct (str_ltb s2 s1) eqn:E2; [|reflexivity].
      apply str_ltb_lt in E2. exfalso.
      exact (str_lt_irrefl _ (str_lt_trans _ _ _ H E2)).
Qed.

Lemma key_le_trans (a b c : sort_key) : key_le a b -> key_le b c -> key_le a c.
Proof.
  unfold key_le. intros [H1 | [E1 H1]] [H2 | [E2 H2]].
  - left. eapply str_lt_trans; eauto.
  - left. now rewrite <- E2.
  - left. now rewrite E1.
  - right. split; [congruence | lia].
Qed.

Lemma key_le_total (a b : sort_key) : key_le a b \/ key_le b a.
Proof.
  unfold key_le. destruct (str_lt_total (fst a) (fst b)) as [H | [H | H]]; auto.
  destruct (Z.le_ge_cases (snd a) (snd b)); [left | right]; right; split;
    auto; lia.
Qed.

(** *** The insertion sort *)

Lemma insert_by_key_perm x l : Permutation (insert_by_key x l) (x :: l).
Proof.
  induction l as [|y l IH]; cbn [insert_by_key]; [reflexivity|].
  destruct (key_ltb (fst y) (fst x)); [|reflexivity].
  rewrite IH. apply perm_swap.
Qed.

Lemma sort_by_key_perm l : Permutation (sort_by_key l) l.
Proof.
  induction l as [|x l IH]; cbn [sort_by_key]; [reflexivity|].
  rewrite insert_by_key_perm. now constructor.
Qed.

Lemma insert_by_key_sorted x l :
  StronglySorted (fun a b => key_le (fst a) (fst b)) l ->
  StronglySorted (fun a b => key_le (fst a) (fst b)) (insert_by_key x l).
Proof.
  induction l as [|y l IH]; intros Hs; cbn [insert_by_key].
  - repeat constructor.
  - inversion Hs as [|? ? Hs' Hall]; subst.
    destruct (key_ltb (fst y) (fst x)) eqn:E.
    + constructor; [now apply IH|].
      eapply Permutation_Forall; [symmetry; apply insert_by_key_perm|].
      constructor; [|exact Hall].
      destruct (key_le_total (fst y) (fst x)) as [H | H]; [exact H|].
      apply key_ltb_false in H. congruence.
    + apply key_ltb_false in E. constructor; [exact Hs|].
      constructor; [exact E|].
      eapply Forall_impl; [|exact Hall]. intros z Hz.
      eapply key_le_trans; eauto.
Qed.

Lemma sort_by_key_sorted l :
  StronglySorted (fun a b => key_le (fst a) (fst b)) (sort_by_key l).
Proof.
  induction l as [|x l IH]; cbn [sort_by_key]; [constructor|].
  now apply insert_by_key_sorted.
Qed.

(** Sorting a sorted list changes nothing. *)
Lemma sort_by_key_fixed l :
  StronglySorted (fun a b => key_le (fst a) (fst b)) l -> sort_by_key l = l.
Proof.
  induction l as [|x l IH]; intros Hs; [reflexivity|].
  inversion Hs as [|? ? Hs' Hall]; subst. cbn [sort_by_key].
  rewrite (IH Hs'). destruct l as [|y l]; [reflexivity|].
  cbn [insert_by_key]. inversion Hall as [|? ? Hxy _]; subst.
  apply key_ltb_false in Hxy. now rewrite Hxy.
Qed.

(** The sort is stable: the elements of one key keep their order. *)
Lemma insert_by_key_filter (k : sort_key) x l :
  let p := fun kd : sort_key * str =>
             str_eqb (fst (fst kd)) (fst k) && (snd (fst kd) =? snd k) in
  filter p (insert_by_key x l) = filter p (x :: l).
Proof.
  intros p. induction l as [|y l IH]; cbn [insert_by_key]; [reflexivity|].
  destruct (key_ltb (fst y) (fst x)) eqn:E; [|reflexivity].
  cbn [filter] in *. rewrite IH.
  destruct (p x) eqn:Px; [|reflexivity].
  destruct (p y) eqn:Py; [|reflexivity].
  exfalso. unfold p in Px, Py.
  apply andb_prop in Px, Py. destruct Px as (Px1 & Px2), Py as (Py1 & Py2).
  apply str_eqb_eq in Px1, Py1. apply Z.eqb_eq in Px2, Py2.
  assert (Hle : key_le (fst x) (fst y)).
  { right. split; congruence || lia. }
  apply key_ltb_false in Hle. congruence.
Qed.

Lemma sort_by_key_filter (k : sort_key) l :
  let p := fun kd : sort_key * str =>
             str_eqb (fst (fst kd)) (fst k) && (snd (fst kd) =? snd k) in
  filter p (sort_by_key l) = filter p l.
Proof.
  intros p. induction l as [|x l IH]; [reflexivity|].
  cbn [sort_by_key]. unfold p. rewrite insert_by_key_filter.
  fold p. cbn [filter]. now rewrite IH.
Qed.

(** *** The two loops of [reshuffle_pdb] *)

Lemma reshuffle_split_spec (pdb_file : list str) : forall u r,
  reshuffle_split pdb_file u r
  = (u ++ filter is_atom_record pdb_file,
     r ++ filter (fun x => negb (is_atom_record x)) pdb_file).
Proof.
  induction pdb_file as [|line rest IH]; intros u r; cbn [reshuffle_split filter].
  - now rewrite !app_nil_r.
  - fold (is_atom_record line).
    destruct (is_atom_record line); cbn [negb];
      rewrite IH, <- app_assoc; reflexivity.
Qed.

Lemma keys_of_ok (l : list str) : forall d,
  keys_of l = Ok d ->
  map snd d = l
  /\ Forall (fun kd => reshuffle_key (snd kd) = Ok (fst kd)) d.
Proof.
  induction l as [|x l IH]; intros d H; cbn [keys_of] in H.
  - injection H as <-. split; constructor.
  - apply bind_ok in H. destruct H as (k & Hk & H).
    apply bind_ok in H. destruct H as (r & Hr & H). injection H as <-.
    destruct (IH r Hr) as (Hm & Hf). split; [cbn; now rewrite Hm|].
    constructor; [exact Hk | exact Hf].
Qed.

Lemma keys_of_map_snd (d : list (sort_key * str)) :
  Forall (fun kd => reshuffle_key (snd kd) = Ok (fst kd)) d ->
  keys_of (map snd d) = Ok d.
Proof.
  induction d as [|[k x] d IH]; intros H; [reflexivity|].
  inversion H as [|? ? Hk Hd]; subst. cbn [map snd keys_of] in *.
  cbn [fst snd] in Hk. rewrite Hk. cbn [bind]. now rewrite (IH Hd).
Qed.

Lemma reshuffle_key_only_value_error (x : str) (e : exn) :
  reshuffle_key x = Err e -> e = ValueError.
Proof.
  unfold reshuffle_key. intros H.
  destruct (py_int (strip (slice 22 27 x))) as [n|e'] eqn:E; [discriminate|].
  injection H as <-. now apply py_int_only_value_error in E.
Qed.

Lemma keys_of_cases (l : list str) :
  (exists d, keys_of l = Ok d)
  \/ (keys_of l = Err ValueError
      /\ exists x, In x l /\ reshuffle_key x = Err ValueError).
Proof.
  induction l as [|x l IH]; [left; now exists []|]. cbn [keys_of].
  destruct (reshuffle_key x) as [k|e] eqn:Hk.
  - cbn [bind]. destruct IH as [(d & ->) | (-> & y & Hy & Hey)].
    + left. eexists. reflexivity.
    + right. split; [reflexivity|]. exists y. split; [now right | exact Hey].
  - right. pose proof (reshuffle_key_only_value_error _ _ Hk) as ->.
    split; [reflexivity|]. exists x. split; [now left | exact Hk].
Qed.

Lemma reshuffle_pdb_inv (pdb_file out : list str) :
  reshuffle_pdb pdb_file = Ok out ->
  exists d,
    keys_of (filter is_atom_record pdb_file) = Ok d
    /\ out = filter (fun x => negb (is_atom_record x)) pdb_file
             ++ map snd (sort_by_key d).
Proof.
  unfold reshuffle_pdb. rewrite reshuffle_split_spec. cbn [app].
  intros H. apply bind_ok in H. destruct H as (d & Hd & H).
  injection H as <-. now exists d.
Qed.

Lemma filter_partition_perm {A} (p : A -> bool) (l : list A) :
  Permutation (filter (fun x => negb (p x)) l ++ filter p l) l.
Proof.
  induction l as [|x l IH]; [reflexivity|]. cbn [filter].
  destruct (p x); cbn [negb app].
  - rewrite <- Permutation_middle. now constructor.
  - now constructor.
Qed.

(** X17.  [reshuffle_pdb] loses and invents nothing: its result is the
    records of the file that are not [ATOM] records, in their order,
    followed by a rearrangement of the [ATOM] records. *)
Theorem reshuffle_pdb_partition (pdb_file out : list str)
    (Hrun : reshuffle_pdb pdb_file = Ok out) :
  exists atoms,
    out = filter (fun x => negb (is_atom_record x)) pdb_file ++ atoms
    /\ Permutation atoms (filter is_atom_record pdb_file)
    /\ Permutation out pdb_file
    /\ length out = length pdb_file.
Proof.
  destruct (reshuffle_pdb_inv _ _ Hrun) as (d & Hd & ->).
  destruct (keys_of_ok _ _ Hd) as (Hm & _).
  assert (Hp : Permutation (map snd (sort_by_key d))
                           (filter is_atom_record pdb_file)).
  { rewrite <- Hm. apply Permutation_map, sort_by_key_perm. }
  assert (Hall : Permutation
                   (filter (fun x => negb (is_atom_record x)) pdb_file
                    ++ map snd (sort_by_key d)) pdb_file).
  { rewrite Hp. apply filter_partition_perm. }
  exists (map snd (sort_by_key d)). split; [reflexivity|].
  split; [exact Hp|]. split; [exact Hall | now apply Permutation_length].
Qed.

Lemma reshuffle_pdb_partition_witness :
  exists out,
    reshuffle_pdb [rec_S1_7_CA; rec_title; rec_S0_3_N; rec_remark] = Ok out
    /\ out = [rec_title; rec_remark; rec_S0_3_N; rec_S1_7_CA]
    /\ Permutation out [rec_S1_7_CA; rec_title; rec_S0_3_N; rec_remark].
Proof.
  assert (Hrun : reshuffle_pdb [rec_S1_7_CA; rec_title; rec_S0_3_N; rec_remark]
                 = Ok [rec_title; rec_remark; rec_S0_3_N; rec_S1_7_CA])
    by (vm_compute; reflexivity).
  eexists. split; [exact Hrun|]. split; [reflexivity|].
  destruct (reshuffle_pdb_partition _ _ Hrun) as (_ & _ & _ & Hp & _).
  exact Hp.
Defined.


Lemma filter_atoms_of_result (rem atoms : list str) :
  Forall (fun x => is_atom_record x = false) rem ->
  Forall (fun x => is_atom_record x = true) atoms ->
  filter is_atom_record (rem ++ atoms) = atoms
  /\ filter (fun x => negb (is_atom_record x)) (rem ++ atoms) = rem.
Proof.
  intros Hr Ha. rewrite !filter_app. split.
  - replace (filter is_atom_record rem) with (@nil str).
    + cbn [app]. induction Ha as [|x l Hx _ IH]; [reflexivity|].
      cbn [filter]. now rewrite Hx, IH.
    + induction Hr as [|x l Hx _ IH]; [reflexivity|].
      cbn [filter]. now rewrite Hx.
  - replace (filter (fun x => negb (is_atom_record x)) atoms) with (@nil str).
    + rewrite app_nil_r. induction Hr as [|x l Hx _ IH]; [reflexivity|].
      cbn [filter]. now rewrite Hx, IH.
    + induction Ha as [|x l Hx _ IH]; [reflexivity|].
      cbn [filter]. now rewrite Hx.
Qed.

Lemma reshuffle_pdb_atoms (pdb_file out : list str) :
  reshuffle_pdb pdb_file = Ok out ->
  exists d,
    keys_of (filter is_atom_record pdb_file) = Ok d
    /\ Forall (fun kd => reshuffle_key (snd kd) = Ok (fst kd)) (sort_by_key d)
    /\ out = filter (fun x => negb (is_atom_record x)) pdb_file
             ++ map snd (sort_by_key d)
    /\ filter is_atom_record out = map snd (sort_by_key d)
    /\ filter (fun x => negb (is_atom_record x)) out
       = filter (fun x => negb (is_atom_record x)) pdb_file.
Proof.
  intros Hrun. destruct (reshuffle_pdb_inv _ _ Hrun) as (d & Hd & ->).
  destruct (keys_of_ok _ _ Hd) as (Hm & Hk).
  exists d. split; [exact Hd|]. split.
  { eapply Permutation_Forall; [symmetry; apply sort_by_key_perm | exact Hk]. }
  split; [reflexivity|]. apply filter_atoms_of_result.
  - apply Forall_forall. intros x Hx. apply filter_In in Hx.
    destruct Hx as (_ & Hx). now destruct (is_atom_record x).
  - apply Forall_forall. intros x Hx.
    assert (Hin : In x (map snd d)).
    { eapply Permutation_in; [|exact Hx].
      apply Permutation_map, sort_by_key_perm. }
    rewrite Hm in Hin. now apply filter_In in Hin.
Qed.

Lemma sorted_map_snd (d : list (sort_key * str)) :
  Forall (fun kd => reshuffle_key (snd kd) = Ok (fst kd)) d ->
  StronglySorted (fun a b => key_le (fst a) (fst b)) d ->
  StronglySorted in_sort_order (map snd d).
Proof.
  induction d as [|[k x] d IH]; intros Hk Hs; [constructor|].
  inversion Hk as [|? ? Hx Hd]; subst. inversion Hs as [|? ? Hs' Hall]; subst.
  cbn [map snd]. constructor; [now apply IH|].
  apply Forall_forall. intros y Hy. apply in_map_iff in Hy.
  destruct Hy as ([k' y'] & <- & Hin).
  rewrite Forall_forall in Hall, Hd.
  exists k, k'. split; [exact Hx|]. split; [exact (Hd _ Hin)|].
  exact (Hall _ Hin).
Qed.

Lemma filter_has_key_map (k : sort_key) (d : list (sort_key * str)) :
  Forall (fun kd => reshuffle_key (snd kd) = Ok (fst kd)) d ->
  filter (has_key k) (map snd d)
  = map snd (filter (fun kd : sort_key * str =>
                       str_eqb (fst (fst kd)) (fst k)
                       && (snd (fst kd) =? snd k)) d).
Proof.
  induction d as [|[k' x] d IH]; intros Hk; [reflexivity|].
  inversion Hk as [|? ? Hx Hd]; subst. cbn [map snd filter fst] in *.
  unfold has_key at 1. rewrite Hx.
  destruct (str_eqb (fst k') (fst k) && (snd k' =? snd k));
    cbn [map snd]; now rewrite IH.
Qed.

(** X18.  In the result of [reshuffle_pdb] the [ATOM] records are sorted:
    of two of them the earlier one has the smaller label in columns
    [72,76), or the same label and a residue number (the integer read from
    columns [22,27)) that is not greater. *)
Theorem reshuffle_pdb_sorted (pdb_file out : list str)
    (Hrun : reshuffle_pdb pdb_file = Ok out) :
  StronglySorted in_sort_order (filter is_atom_record out).
Proof.
  destruct (reshuffle_pdb_atoms _ _ Hrun) as (d & _ & Hk & _ & -> & _).
  apply sorted_map_snd; [exact Hk | apply sort_by_key_sorted].
Qed.

Lemma reshuffle_pdb_sorted_witness :
  reshuffle_pdb [rec_S1_7_CA; rec_title; rec_S1_3_N; rec_S0_3_N]
  = Ok [rec_title; rec_S0_3_N; rec_S1_3_N; rec_S1_7_CA]
  /\ StronglySorted in_sort_order [rec_S0_3_N; rec_S1_3_N; rec_S1_7_CA].
Proof.
  assert (Hrun : reshuffle_pdb [rec_S1_7_CA; rec_title; rec_S1_3_N; rec_S0_3_N]
                 = Ok [rec_title; rec_S0_3_N; rec_S1_3_N; rec_S1_7_CA])
    by (vm_compute; reflexivity).
  split; [exact Hrun|]. exact (reshuffle_pdb_sorted _ _ Hrun).
Defined.

(** X19.  The sort of [reshuffle_pdb] is stable: the [ATOM] records that
    share a label and a residue number keep the order they had in the
    file, so the atoms of one residue are not rearranged. *)
Theorem reshuffle_pdb_stable (pdb_file out : list str) (k : sort_key)
    (Hrun : reshuffle_pdb pdb_file = Ok out) :
  filter (has_key k) (filter is_atom_record out)
  = filter (has_key k) (filter is_atom_record pdb_file).
Proof.
  destruct (reshuffle_pdb_atoms _ _ Hrun) as (d & Hd & Hk & _ & -> & _).
  destruct (keys_of_ok _ _ Hd) as (Hm & Hk0).
  rewrite <- Hm, (filter_has_key_map k _ Hk), (filter_has_key_map k _ Hk0).
  f_equal. apply sort_by_key_filter.
Qed.

Lemma reshuffle_pdb_stable_witness :
  reshuffle_pdb [rec_S1_7_CB; rec_S1_3_N; rec_S1_7_CA]
  = Ok [rec_S1_3_N; rec_S1_7_CB; rec_S1_7_CA]
  /\ filter (has_key (lit "S1  ", 7)) [rec_S1_3_N; rec_S1_7_CB; rec_S1_7_CA]
     = [rec_S1_7_CB; rec_S1_7_CA].
Proof.
  assert (Hrun : reshuffle_pdb [rec_S1_7_CB; rec_S1_3_N; rec_S1_7_CA]
                 = Ok [rec_S1_3_N; rec_S1_7_CB; rec_S1_7_CA])
    by (vm_compute; reflexivity).
  split; [exact Hrun|].
  exact (reshuffle_pdb_stable _ _ (lit "S1  ", 7) Hrun).
Defined.

(** X20.  [reshuffle_pdb] is idempotent: a file it has reordered is left
    as it is by a second call. *)
Theorem reshuffle_pdb_idempotent (pdb_file out : list str)
    (Hrun : reshuffle_pdb pdb_file = Ok out) :
  reshuffle_pdb out = Ok out.
Proof.
  destruct (reshuffle_pdb_atoms _ _ Hrun) as (d & _ & Hk & Hout & Ha & Hr).
  unfold reshuffle_pdb. rewrite reshuffle_split_spec. cbn [app].
  rewrite Ha, Hr, (keys_of_map_snd _ Hk). cbn [bind].
  rewrite (sort_by_key_fixed _ (sort_by_key_sorted d)). now rewrite <- Hout.
Qed.

Lemma reshuffle_pdb_idempotent_witness :
  reshuffle_pdb [rec_S1_7_CA; rec_title; rec_S1_3_N; rec_S0_3_N; rec_S1_7_CB]
  = Ok [rec_title; rec_S0_3_N; rec_S1_3_N; rec_S1_7_CA; rec_S1_7_CB]
  /\ reshuffle_pdb [rec_title; rec_S0_3_N; rec_S1_3_N; rec_S1_7_CA; rec_S1_7_CB]
     = Ok [rec_title; rec_S0_3_N; rec_S1_3_N; rec_S1_7_CA; rec_S1_7_CB].
Proof.
  assert (Hrun : reshuffle_pdb
                   [rec_S1_7_CA; rec_title; rec_S1_3_N; rec_S0_3_N; rec_S1_7_CB]
                 = Ok [rec_title; rec_S0_3_N; rec_S1_3_N; rec_S1_7_CA;
                       rec_S1_7_CB])
    by (vm_compute; reflexivity).
  split; [exact Hrun|]. exact (reshuffle_pdb_idempotent _ _ Hrun).
Defined.

(** X21.  [reshuffle_pdb] returns whenever the residue field (columns
    [22,27), insertion code included) of every [ATOM] record reads as an
    integer; the other records are never parsed. *)
Theorem reshuffle_pdb_returns (pdb_file : list str)
    (Hkeys : forall x, In x pdb_file -> is_atom_record x = true ->
             exists n, py_int (strip (slice 22 27 x)) = Ok n) :
  exists out, reshuffle_pdb pdb_file = Ok out.
Proof.
  unfold reshuffle_pdb. rewrite reshuffle_split_spec. cbn [app].
  destruct (keys_of_cases (filter is_atom_record pdb_file))
    as [(d & ->) | (_ & x & Hx & He)].
  - eexists. reflexivity.
  - apply filter_In in Hx. destruct Hx as (Hin & Ha).
    destruct (Hkeys x Hin Ha) as (n & Hn).
    unfold reshuffle_key in He. rewrite Hn in He. discriminate.
Qed.

Lemma reshuffle_pdb_returns_witness :
  exists out, reshuffle_pdb [rec_remark; rec_S1_7_CA; rec_S1_3_N] = Ok out.
Proof.
  apply reshuffle_pdb_returns. intros x Hin Ha.
  destruct Hin as [<- | [<- | [<- | []]]];
    [discriminate Ha | now exists 7 | now exists 3].
Defined.

(** X22.  The only exception of [reshuffle_pdb] is [ValueError], and it is
    raised exactly for an [ATOM] record whose columns [22,27) do not read
    as an integer -- for instance a record with an insertion code in
    column 26, which the renumbering step would read without error. *)
Theorem reshuffle_pdb_errors (pdb_file : list str) (e : exn)
    (Hrun : reshuffle_pdb pdb_file = Err e) :
  e = ValueError
  /\ exists x, In x pdb_file /\ is_atom_record x = true
               /\ py_int (strip (slice 22 27 x)) = Err ValueError.
Proof.
  unfold reshuffle_pdb in Hrun. rewrite reshuffle_split_spec in Hrun.
  cbn [app] in Hrun.
  destruct (keys_of_cases (filter is_atom_record pdb_file))
    as [(d & Hd) | (Hd & x & Hx & He)]; rewrite Hd in Hrun; cbn [bind] in Hrun.
  - discriminate.
  - injection Hrun as <-. split; [reflexivity|].
    apply filter_In in Hx. destruct Hx as (Hin & Ha).
    exists x. split; [exact Hin|]. split; [exact Ha|].
    unfold reshuffle_key in He.
    destruct (py_int (strip (slice 22 27 x))) as [n|e'] eqn:E;
      [discriminate|]. now apply py_int_only_value_error in E as ->.
Qed.

Lemma reshuffle_pdb_errors_witness :
  reshuffle_pdb [rec_title; rec_S1_3_N; rec_insertion_code] = Err ValueError
  /\ py_int (remove_spaces (slice 22 26 rec_insertion_code)) = Ok 12
  /\ exists x, In x [rec_title; rec_S1_3_N; rec_insertion_code]
               /\ is_atom_record x = true
               /\ py_int (strip (slice 22 27 x)) = Err ValueError.
Proof.
  assert (Hrun : reshuffle_pdb [rec_title; rec_S1_3_N; rec_insertion_code]
                 = Err ValueError) by (vm_compute; reflexivity).
  split; [exact Hrun|]. split; [vm_compute; reflexivity|].
  exact (proj2 (reshuffle_pdb_errors _ _ Hrun)).
Defined.

Lemma sorted_between {A} (R : A -> A -> Prop) (l1 : list A) x l2 y l3 :
  StronglySorted R (l1 ++ x :: l2 ++ y :: l3) ->
  Forall (fun z => R x z /\ R z y) l2.
Proof.
  induction l1 as [|a l1 IH]; cbn [app]; intros Hs.
  - inversion Hs as [|? ? Hs' Hx]; subst. clear Hs.
    apply Forall_app in Hx. destruct Hx as (Hx & _).
    induction l2 as [|z l2 IHl]; [constructor|]. cbn [app] in Hs'.
    inversion Hs' as [|? ? Hs'' Hz]; subst.
    inversion Hx as [|? ? Hxz Hx']; subst.
    constructor; [|now apply IHl]. split; [exact Hxz|].
    apply Forall_app in Hz. destruct Hz as (_ & Hz). now inversion Hz.
  - inversion Hs; subst. now apply IH.
Qed.

Lemma reshuffle_key_label (x : str) (k : sort_key) :
  reshuffle_key x = Ok k -> fst k = slice 72 76 x.
Proof.
  unfold reshuffle_key. intros H. apply bind_ok in H.
  destruct H as (n & _ & H). now injection H as <-.
Qed.

(** X23.  In the result of [reshuffle_pdb] the [ATOM] records of one
    segment are contiguous: between two records with the same label in
    columns [72,76) there are only records with that label, so that the
    renumbering step, which starts a new chain at every change of label,
    meets each segment once. *)
Theorem reshuffle_pdb_groups_segments (pdb_file out : list str)
    (l1 : list str) (x : str) (l2 : list str) (y : str) (l3 : list str)
    (Hrun : reshuffle_pdb pdb_file = Ok out)
    (Hat : filter is_atom_record out = l1 ++ x :: l2 ++ y :: l3)
    (Hlabel : slice 72 76 x = slice 72 76 y) :
  Forall (fun z => slice 72 76 z = slice 72 76 x) l2.
Proof.
  destruct (reshuffle_pdb_atoms _ _ Hrun) as (d & _ & Hk & _ & Ha & _).
  pose proof (sorted_map_snd _ Hk (sort_by_key_sorted d)) as Hs.
  rewrite <- Ha, Hat in Hs.
  apply sorted_between in Hs. eapply Forall_impl; [|exact Hs].
  intros z ((kx & kz & Hkx & Hkz & Hxz) & (kz' & ky & Hkz' & Hky & Hzy)).
  rewrite Hkz in Hkz'. injection Hkz' as <-.
  apply reshuffle_key_label in Hkx, Hkz, Hky.
  unfold key_le in Hxz, Hzy. rewrite Hkx, Hkz in Hxz. rewrite Hkz, Hky in Hzy.
  rewrite <- Hlabel in Hzy.
  destruct Hxz as [Hxz | (Hxz & _)]; [|now symmetry].
  destruct Hzy as [Hzy | (Hzy & _)]; [|exact Hzy].
  exfalso. exact (str_lt_irrefl _ (str_lt_trans _ _ _ Hxz Hzy)).
Qed.

Lemma reshuffle_pdb_groups_segments_witness :
  reshuffle_pdb [rec_S1_7_CA; rec_S0_3_N; rec_title; rec_S1_3_N; rec_S1_7_CB]
  = Ok [rec_title; rec_S0_3_N; rec_S1_3_N; rec_S1_7_CA; rec_S1_7_CB]
  /\ Forall (fun z => slice 72 76 z = lit "S1  ") [rec_S1_7_CA].
Proof.
  assert (Hrun : reshuffle_pdb
                   [rec_S1_7_CA; rec_S0_3_N; rec_title; rec_S1_3_N; rec_S1_7_CB]
                 = Ok [rec_title; rec_S0_3_N; rec_S1_3_N; rec_S1_7_CA;
                       rec_S1_7_CB])
    by (vm_compute; reflexivity).
  split; [exact Hrun|].
  exact (reshuffle_pdb_groups_segments _ _ [rec_S0_3_N] rec_S1_3_N
           [rec_S1_7_CA] rec_S1_7_CB [] Hrun eq_refl eq_refl).
Defined.

(** ** Splitting the strands *)

Lemma max_n_residues_spec (rest : list Segment.t) :
  forall pre best mid,
    Forall (fun s => Segment.n_residues s < Segment.n_residues best) pre ->
    Forall (fun s => Segment.n_residues s <= Segment.n_residues best) mid ->
    exists before after,
      pre ++ best :: mid ++ rest
      = before ++ max_n_residues best rest :: after
      /\ first_longest (max_n_residues best rest) before after.
Proof.
  induction rest as [|s rest IH]; intros pre best mid Hpre Hmid.
  - exists pre, mid. rewrite app_nil_r. now split.
  - cbn [max_n_residues].
    destruct (Segment.n_residues s >? Segment.n_residues best) eqn:E.
    + apply Z.gtb_lt in E.
      destruct (IH (pre ++ best :: mid) s []) as (b & a & Heq & Hfl).
      * apply Forall_app. split; [|constructor].
        -- eapply Forall_impl; [|exact Hpre]. cbn. intros; lia.
        -- lia.
        -- eapply Forall_impl; [|exact Hmid]. cbn. intros; lia.
      * constructor.
      * exists b, a. split; [|exact Hfl]. rewrite <- Heq.
        cbn [app]. now rewrite <- app_assoc.
    + assert (Hs : Segment.n_residues s <= Segment.n_residues best).
      { destruct (Z.gtb_spec (Segment.n_residues s)
                             (Segment.n_residues best)); [discriminate | lia]. }
      destruct (IH pre best (mid ++ [s])) as (b & a & Heq & Hfl).
      * exact Hpre.
      * apply Forall_app. split; [exact Hmid | now constructor].
      * exists b, a. split; [|exact Hfl]. rewrite <- Heq.
        now rewrite <- app_assoc.
Qed.

Lemma split_strands_inv (strands : list Segment.t) scaffold staples :
  _split_strands strands = Ok (scaffold, staples) ->
  (exists before after,
     strands = before ++ scaffold :: after
     /\ first_longest scaffold before after)
  /\ staples = filter (fun s => negb (str_eqb (Segment.segid s)
                                              (Segment.segid scaffold)))
                      strands.
Proof.
  destruct strands as [|first rest]; [discriminate|]. cbn [_split_strands].
  intros H. injection H as <- <-. split; [|reflexivity].
  exact (max_n_residues_spec rest [] first [] (Forall_nil _) (Forall_nil _)).
Qed.

(** X24.  [_split_strands] raises [ValueError] for a universe without
    segments and only then; otherwise the scaffold it returns is a segment
    of the universe with the greatest number of residues, and among
    several of that length the first one. *)
Theorem split_strands_scaffold (strands : list Segment.t) :
  (strands = [] -> _split_strands strands = Err ValueError)
  /\ (strands <> [] ->
      exists scaffold staples before after,
        _split_strands strands = Ok (scaffold, staples)
        /\ strands = before ++ scaffold :: after
        /\ first_longest scaffold before after).
Proof.
  split; [now intros ->|]. intros Hne.
  destruct strands as [|first rest]; [congruence|].
  destruct (_split_strands (first :: rest)) as [[scaffold staples]|e] eqn:E;
    [|discriminate].
  destruct (split_strands_inv _ _ _ E) as ((b & a & Heq & Hfl) & _).
  now exists scaffold, staples, b, a.
Qed.

Lemma split_strands_scaffold_witness :
  exists staples before after,
    _split_strands [seg_staple_1; seg_scaffold; seg_staple_2]
    = Ok (seg_scaffold, staples)
    /\ [seg_staple_1; seg_scaffold; seg_staple_2]
       = before ++ seg_scaffold :: after
    /\ first_longest seg_scaffold before after.
Proof.
  destruct (proj2 (split_strands_scaffold
                     [seg_staple_1; seg_scaffold; seg_staple_2]))
    as (scaffold & staples & b & a & Hrun & Heq & Hfl); [discriminate|].
  assert (Hs : scaffold = seg_scaffold) 
    by (vm_compute in Hrun; injection Hrun as <- _; reflexivity).
  subst scaffold. now exists staples, b, a.
Defined.

(** X25.  When the segments of the universe have distinct ids, the staples
    returned by [_split_strands] are all the segments but the scaffold, in
    their order: nothing else is dropped. *)
Theorem split_strands_staples (strands : list Segment.t) scaffold staples
    (Hdistinct : NoDup (map Segment.segid strands))
    (Hrun : _split_strands strands = Ok (scaffold, staples)) :
  exists before after,
    strands = before ++ scaffold :: after /\ staples = before ++ after.
Proof.
  destruct (split_strands_inv _ _ _ Hrun) as ((b & a & Heq & _) & ->).
  exists b, a. split; [exact Heq|]. subst strands.
  rewrite map_app in Hdistinct. cbn [map] in Hdistinct.
  pose proof (NoDup_remove_2 _ _ _ Hdistinct) as Hnot.
  assert (Hkeep : forall l,
            (forall s, In s l -> In (Segment.segid s)
                                    (map Segment.segid b
                                     ++ map Segment.segid a)) ->
            filter (fun s => negb (str_eqb (Segment.segid s)
                                           (Segment.segid scaffold))) l = l).
  { induction l as [|s l IH]; intros Hl; [reflexivity|]. cbn [filter].
    destruct (str_eqb (Segment.segid s) (Segment.segid scaffold)) eqn:E.
    - apply str_eqb_eq in E. exfalso. apply Hnot. rewrite <- E.
      apply Hl. now left.
    - cbn [negb]. rewrite IH; [reflexivity|].
      intros s' Hs'. apply Hl. now right. }
  rewrite filter_app. cbn [filter]. rewrite str_eqb_refl. cbn [negb].
  rewrite !Hkeep; [reflexivity| |].
  - intros s Hs. apply in_or_app. right. now apply in_map.
  - intros s Hs. apply in_or_app. left. now apply in_map.
Qed.

Lemma split_strands_staples_witness :
  _split_strands [seg_staple_1; seg_scaffold; seg_staple_2]
  = Ok (seg_scaffold, [seg_staple_1; seg_staple_2])
  /\ exists before after,
       [seg_staple_1; seg_scaffold; seg_staple_2]
       = before ++ seg_scaffold :: after
       /\ [seg_staple_1; seg_staple_2] = before ++ after.
Proof.
  assert (Hrun : _split_strands [seg_staple_1; seg_scaffold; seg_staple_2]
                 = Ok (seg_scaffold, [seg_staple_1; seg_staple_2]))
    by (vm_compute; reflexivity).
  split; [exact Hrun|].
  apply (split_strands_staples _ _ _) in Hrun; [exact Hrun|].
  repeat constructor; cbn; intros H;
    repeat (destruct H as [H|H]; [discriminate H|]); exact H.
Defined.
